(** * The MCP protocol core of obsidian-claude-code-mcp

    A shallow embedding of the protocol, transport and tool-dispatch layer:
    the tool registry ([shared/tool-registry.ts]), the request dispatcher
    ([mcp/handlers.ts], [ide/ide-handler.ts], [tools/file-tools.ts]), the
    socket transport ([mcp/server.ts]), the streaming-HTTP transport
    ([mcp/http-server.ts]), the configuration directory lookup
    ([claude-config.ts]) and the orchestrator ([mcp/dual-server.ts]).

    JavaScript values that cross the wire are JSON documents; a property
    that is absent reads as [undefined], modelled by [None].  Code that
    calls back, throws or is caught is written in a small trace-and-outcome
    monad [Eff]. *)

From Stdlib Require Import ZArith String Ascii List Bool.
From stdpp Require Import base option list strings pretty gmap.

Local Open Scope Z_scope.
Local Open Scope string_scope.
Local Open Scope list_scope.
Set Warnings "-register-all".

(** ** JavaScript values *)

(** The operations the code applies to a JavaScript number: integer
    literals and counts, conversion to a string (template literals) and
    truthiness ([!x], [x || y]). *)
Class JsNumber (num : Type) := {
  num_of_Z : Z → num;
  num_to_string : num → string;
  num_truthy : num → bool
}.

(** Integers are numbers: they print in decimal, and only zero is falsy. *)
#[export] Instance Z_JsNumber : JsNumber Z := {|
  num_of_Z := λ z, z;
  num_to_string := pretty;
  num_truthy := λ z, negb (Z.eqb z 0)
|}.

(** The result of [JSON.parse]: objects keep their keys in insertion order. *)
Inductive json {num : Type} : Type :=
  | JNull
  | JBool (b : bool)
  | JNum (n : num)
  | JStr (s : string)
  | JArr (xs : list json)
  | JObj (fields : list (string * json)).
Arguments json : clear implicits.

(** The double quote character, as it occurs inside message texts. *)
Definition dquote : string :=
  String (Ascii false true false false false true false false) EmptyString.

Section JsValues.
Context {num : Type} `{JsNumber num}.

(** [Boolean(v)] *)
Definition truthy (v : json num) : bool :=
  match v with
  | JNull => false
  | JBool b => b
  | JNum n => num_truthy n
  | JStr s => negb (String.eqb s "")
  | JArr _ | JObj _ => true
  end.

(** Truthiness of a possibly undefined value. *)
Definition truthy_opt (v : option (json num)) : bool :=
  match v with Some x => truthy x | None => false end.

(** First binding of a key in an object's field list. *)
Fixpoint field (k : string) (fs : list (string * json num)) : option (json num) :=
  match fs with
  | [] => None
  | (k', v) :: rest => if String.eqb k k' then Some v else field k rest
  end.

(** [String(v)], as a template literal applies it; [None] when the
    conversion throws a [TypeError].  A parsed object prints through
    [Object.prototype.toString] unless it has a [toString] property of
    its own: that property holds a JSON value, which cannot be called,
    and the [valueOf] tried next gives no primitive either.  An array
    joins the texts of its elements with commas, a [null] element
    printing as nothing, and throws when an element does. *)
Fixpoint to_string (v : json num) : option string :=
  match v with
  | JNull => Some "null"
  | JBool true => Some "true"
  | JBool false => Some "false"
  | JNum n => Some (num_to_string n)
  | JStr s => Some s
  | JArr xs =>
      match (fix texts (xs : list (json num)) : option (list string) :=
               match xs with
               | [] => Some []
               | x :: rest =>
                   match (match x with JNull => Some "" | _ => to_string x end) with
                   | Some s =>
                       match texts rest with
                       | Some ss => Some (s :: ss)
                       | None => None
                       end
                   | None => None
                   end
               end) xs with
      | Some parts => Some (String.concat "," parts)
      | None => None
      end
  | JObj fs =>
      match field "toString" fs with
      | Some _ => None
      | None => Some "[object Object]"
      end
  end.

(** The same for a value that may be [undefined]. *)
Definition to_string_opt (v : option (json num)) : option string :=
  match v with Some x => to_string x | None => Some "undefined" end.

(** [typeof v === "string"], giving the string. *)
Definition as_string (v : option (json num)) : option string :=
  match v with Some (JStr s) => Some s | _ => None end.

(** [const { k } = params || {}]: a falsy [params] is replaced by the
    empty object; of the truthy values only an object can own [k] (the
    keys read this way are never properties of strings or arrays). *)
Definition destructure (k : string) (params : option (json num)) : option (json num) :=
  match params with
  | Some (JObj fs) => field k fs
  | _ => None
  end.
End JsValues.

(** ** Strings *)

(** [s.includes(sub)] *)
Fixpoint includes (sub s : string) : bool :=
  if String.prefix sub s then true
  else match s with
       | EmptyString => false
       | String _ rest => includes sub rest
       end.

(** [s.replace(/\\/g, '/')]: every backslash becomes a slash. *)
Fixpoint backslashes_to_slashes (s : string) : string :=
  match s with
  | EmptyString => EmptyString
  | String c rest =>
      String (if Ascii.eqb c (Ascii false false true true true false true false)
              then Ascii true true true true false true false false else c)
             (backslashes_to_slashes rest)
  end.

(** [s.startsWith("/") ? s.slice(1) : s] *)
Definition drop_leading_slash (s : string) : string :=
  match s with
  | String c rest =>
      if Ascii.eqb c (Ascii true true true true false true false false) then rest else s
  | EmptyString => s
  end.

(** [normalizePath] of [obsidian/utils.ts]; [None] is [null]. *)
Definition normalizePath (path : string) : option string :=
  let normalized := backslashes_to_slashes path in
  let cleaned := drop_leading_slash normalized in
  if orb (includes ".." cleaned) (includes "~" cleaned) then None else Some cleaned.

(** The backslash, as a one-character string. *)
Definition backslash : string :=
  String (Ascii false false true true true false true false) EmptyString.

(** A text with neither slash nor backslash: replacing backslashes and
    dropping a leading slash cannot create or destroy an occurrence of
    it. *)
Fixpoint plain_text (s : string) : bool :=
  match s with
  | EmptyString => true
  | String c rest =>
      andb (negb (Ascii.eqb c (Ascii false false true true true false true false)))
     (andb (negb (Ascii.eqb c (Ascii true true true true false true false false)))
           (plain_text rest))
  end.

(** A thrown value, with the properties the catch blocks read. *)
Record JsError := mkError {
  err_name : string;
  err_message : option string;
  err_code : option string
}.

(** [new Error(msg)] *)
Definition Error_ (msg : string) : JsError :=
  {| err_name := "Error"; err_message := Some msg; err_code := None |}.

(** [`${error.message}`] *)
Definition message_text (e : JsError) : string :=
  match err_message e with Some m => m | None => "undefined" end.

(** ** Envelopes ([mcp/types.ts]) *)

Section Envelopes.
Context {num : Type}.

(** [McpRequest], read through an unchecked cast: every property may be
    missing. *)
Record McpRequest := mkRequest {
  req_id : option (json num);
  req_method : option (json num);
  req_params : option (json num)
}.

(** [Omit<McpResponse, "jsonrpc" | "id">]: what a handler passes to
    [reply]. *)
Record ReplyMsg := mkReply {
  result : option (json num);
  error : option (Z * string)
}.

(** [McpResponse]; the protocol tag is the constant ["2.0"]. *)
Record McpResponse := mkResponse {
  resp_id : option (json num);
  resp_result : option (json num);
  resp_error : option (Z * string)
}.

(** [{ jsonrpc: "2.0", id: req.id, ...msg }] *)
Definition response_for (req : McpRequest) (msg : ReplyMsg) : McpResponse :=
  {| resp_id := req_id req; resp_result := result msg; resp_error := error msg |}.

Definition reply_result (v : json num) : ReplyMsg :=
  {| result := Some v; error := None |}.

Definition reply_error (code : Z) (message : string) : ReplyMsg :=
  {| result := None; error := Some (code, message) |}.
End Envelopes.
Arguments McpRequest : clear implicits.
Arguments ReplyMsg : clear implicits.
Arguments McpResponse : clear implicits.

(** Reading [id], [method] and [params] off a parsed document through the
    cast [as McpRequest]: an object has the properties it was written
    with, other values have none, and reading a property of [null]
    throws. *)
Definition as_request {num} (v : json num) : option (McpRequest num) :=
  match v with
  | JNull => None
  | JObj fs =>
      Some {| req_id := field "id" fs; req_method := field "method" fs;
              req_params := field "params" fs |}
  | _ => Some {| req_id := None; req_method := None; req_params := None |}
  end.

(** The [TypeError] of a property read on [null]. *)
Definition null_read_error : JsError :=
  {| err_name := "TypeError";
     err_message := Some "Cannot read properties of null";
     err_code := None |}.

(** A WebSocket connection, by identity. *)
Definition socket := nat.

(** ** The process and the file system *)

Section World.
Context {num : Type}.

(** [McpNotification] *)
Record McpNotification := mkNotification {
  note_method : string;
  note_params : option (json num)
}.

(** One WebSocket frame written by the server. *)
Inductive frame :=
  | FrameResponse (r : McpResponse num)
  | FrameNotification (n : McpNotification).

(** What code holding a socket can do to it: write a frame, or close
    the connection. *)
Inductive ws_effect :=
  | Send (sock : socket) (data : frame)
  | Close (sock : socket).

(** Directories, and files with the JSON document each holds. *)
Record FS := mkFS {
  dirs : gset string;
  files : gmap string (json num)
}.

(** [fs.existsSync(p)] *)
Definition existsSync (p : string) (fs : FS) : bool :=
  orb (bool_decide (p ∈ dirs fs)) (bool_decide (is_Some (files fs !! p))).

(** [fs.mkdirSync(dir, { recursive: true })]: the directory exists
    afterwards (missing ancestors are created with it). *)
Definition mkdirSync_recursive (dir : string) (fs : FS) : FS :=
  {| dirs := {[dir]} ∪ dirs fs; files := files fs |}.

(** [fs.writeFileSync(p, JSON.stringify(doc))] *)
Definition writeFileSync (p : string) (doc : json num) (fs : FS) : FS :=
  {| dirs := dirs fs; files := <[p := doc]> (files fs) |}.

(** [fs.unlinkSync(p)] *)
Definition unlinkSync (p : string) (fs : FS) : FS :=
  {| dirs := dirs fs; files := delete p (files fs) |}.

(** [process] and [os]: the environment variables, [os.homedir()],
    [process.platform], [process.pid] and [process.cwd()]. *)
Record Process := mkProcess {
  env : gmap string string;
  homedir : string;
  platform : string;
  pid : Z;
  cwd : string
}.

(** [process.env.NAME] in a boolean position: set and not empty. *)
Definition env_truthy (p : Process) (name : string) : option string :=
  match env p !! name with
  | Some v => if String.eqb v "" then None else Some v
  | None => None
  end.

Definition setenv (name value : string) (p : Process) : Process :=
  {| env := <[name := value]> (env p); homedir := homedir p;
     platform := platform p; pid := pid p; cwd := cwd p |}.
End World.
Arguments McpNotification : clear implicits.
Arguments frame : clear implicits.
Arguments ws_effect : clear implicits.
Arguments FS : clear implicits.

(** ** Effects of a handler *)

(** Work a handler defers with [setTimeout]. *)
Inductive timer_job := SendInitialContext.

(** What a handler does that its caller can observe: calling [reply], and
    arming a timer. *)
Inductive event {num : Type} :=
  | EvReply (m : ReplyMsg num)
  | EvTimer (delay : Z) (job : timer_job).
Arguments event : clear implicits.

(** A run of (awaited) code: the events in order, then either the value
    returned or the value thrown. *)
Record Eff (E A : Type) := mkEff {
  trace : list E;
  outcome : JsError + A
}.
Arguments mkEff {E A}.
Arguments trace {E A}.
Arguments outcome {E A}.

Section EffMonad.
Context {E : Type}.

Definition ret {A} (a : A) : Eff E A := mkEff [] (inr a).
Definition throw {A} (e : JsError) : Eff E A := mkEff [] (inl e).

Definition bind {A B} (m : Eff E A) (k : A → Eff E B) : Eff E B :=
  match outcome m with
  | inl e => mkEff (trace m) (inl e)
  | inr a => mkEff (trace m ++ trace (k a)) (outcome (k a))
  end.

(** [try { m } catch (error) { h error }] *)
Definition try_catch {A} (m : Eff E A) (h : JsError → Eff E A) : Eff E A :=
  match outcome m with
  | inl e => mkEff (trace m ++ trace (h e)) (outcome (h e))
  | inr a => m
  end.

(** One observable step. *)
Definition emit (ev : E) : Eff E unit := mkEff [ev] (inr ()).

(** Lifting a call into the host application that returns or throws. *)
Definition call {A} (r : JsError + A) : Eff E A := mkEff [] r.
End EffMonad.

#[export] Instance Eff_ret {E} : MRet (Eff E) := λ A, @ret E A.
#[export] Instance Eff_bind {E} : MBind (Eff E) := λ A B k m, @bind E A B m k.

Section HandlerEffects.
Context {num : Type}.

(** [reply(msg)] *)
Definition reply (msg : ReplyMsg num) : Eff (event num) unit := emit (EvReply msg).

(** [setTimeout(job, delay)] *)
Definition setTimeout (job : timer_job) (delay : Z) : Eff (event num) unit :=
  emit (EvTimer delay job).

(** The messages passed to [reply], in order. *)
Definition replies {A} (m : Eff (event num) A) : list (ReplyMsg num) :=
  omap (λ ev, match ev with EvReply r => Some r | EvTimer _ _ => None end) (trace m).
End HandlerEffects.

(** ** Template literals *)

(** The [TypeError] of a value that has no primitive form. *)
Definition to_primitive_error : JsError :=
  {| err_name := "TypeError";
     err_message := Some "Cannot convert object to primitive value";
     err_code := None |}.

Section Templates.
Context {num : Type} `{JsNumber num} {E : Type}.

(** [`${v}`]: the text of [v], or the error its conversion throws. *)
Definition template (v : option (json num)) : Eff E string :=
  match to_string_opt v with
  | Some s => ret s
  | None => throw to_primitive_error
  end.

(** [console.debug(`... ${v}`)], and [console.error] likewise: the
    text is built, which may throw, and is then only logged. *)
Definition console_log (v : option (json num)) : Eff E unit :=
  template v ≫= λ _, ret ().
End Templates.

(** ** An insertion-ordered [Map] with string keys *)

Module JsMap.
Section JsMap.
Context {V : Type}.

Definition t := list (string * V).

Definition empty : t := [].

(** [m.get(k)] *)
Fixpoint get (k : string) (m : t) : option V :=
  match m with
  | [] => None
  | (k', v) :: rest => if String.eqb k k' then Some v else get k rest
  end.

(** [m.has(k)] *)
Definition has (k : string) (m : t) : bool :=
  match get k m with Some _ => true | None => false end.

(** [m.set(k, v)]: a present key keeps its position and takes the new
    value, a new key goes to the end. *)
Fixpoint set (k : string) (v : V) (m : t) : t :=
  match m with
  | [] => [(k, v)]
  | (k', v') :: rest =>
      if String.eqb k k' then (k', v) :: rest else (k', v') :: set k v rest
  end.

(** [Array.from(m.keys())] *)
Definition keys (m : t) : list string := List.map fst m.

(** [m.values()] *)
Definition values (m : t) : list V := List.map snd m.
End JsMap.
Arguments t : clear implicits.
End JsMap.

(** ** A JSON reader for closed examples *)

(** [JSON.parse] is a parameter of the transports.  The closed examples
    instantiate it with this reader for the fragment of JSON whose numbers
    are integers of magnitude at most 2^53, which a number holds exactly,
    whose strings have no escapes, and whose objects have no key that is
    written like an integer (such keys are listed before the others):
    inside the fragment it gives the document, on a malformed text it
    gives [None], and it also gives [None] on the well-formed texts
    outside the fragment, which the examples do not use. *)
Module JsonReader.
Section JsonReader.
Context {num : Type} `{JsNumber num}.

Definition is_ws (c : ascii) : bool :=
  match c with
  | " "%char | "009"%char | "010"%char | "013"%char => true
  | _ => false
  end.

Fixpoint skip_ws (s : list ascii) : list ascii :=
  match s with
  | c :: rest => if is_ws c then skip_ws rest else s
  | [] => []
  end.

Definition digit (c : ascii) : option Z :=
  let n := Z.of_nat (nat_of_ascii c) in
  if andb (Z.leb 48 n) (Z.leb n 57) then Some (n - 48) else None.

(** The digits at the head of [s], read as a decimal number that
    continues [acc]. *)
Fixpoint read_digits (acc : Z) (s : list ascii) : Z * list ascii :=
  match s with
  | c :: rest =>
      match digit c with
      | Some d => read_digits (10 * acc + d) rest
      | None => (acc, s)
      end
  | [] => (acc, [])
  end.

(** A number that is not an integer continues with one of these. *)
Definition starts_fraction (s : list ascii) : bool :=
  match s with
  | "."%char :: _ | "e"%char :: _ | "E"%char :: _ => true
  | _ => false
  end.

(** The largest magnitude up to which every integer is a number. *)
Definition max_exact_integer : Z := 9007199254740992.

(** An unsigned integer without a superfluous leading zero, of at most
    that magnitude. *)
Definition read_natural (s : list ascii) : option (Z * list ascii) :=
  match s with
  | c :: rest =>
      match digit c with
      | Some 0 =>
          match rest with
          | c' :: _ => if bool_decide (is_Some (digit c')) then None
                       else if starts_fraction rest then None else Some (0, rest)
          | [] => Some (0, [])
          end
      | Some d =>
          let '(n, rest') := read_digits d rest in
          if starts_fraction rest' then None
          else if Z.ltb max_exact_integer n then None
          else Some (n, rest')
      | None => None
      end
  | [] => None
  end.

(** The characters of a string up to its closing quote; an escape or a
    control character ends the attempt. *)
Fixpoint read_string (s : list ascii) : option (string * list ascii) :=
  match s with
  | [] => None
  | c :: rest =>
      if Ascii.eqb c (Ascii false true false false false true false false)
      then Some (EmptyString, rest)
      else if Ascii.eqb c (Ascii false false true true true false true false) then None
      else if Z.ltb (Z.of_nat (nat_of_ascii c)) 32 then None
      else match read_string rest with
           | Some (str, rest') => Some (String c str, rest')
           | None => None
           end
  end.

(** The elements of an array after its opening bracket, [read] being
    the reader of one value. *)
Fixpoint read_elements (read : list ascii → option (json num * list ascii))
    (fuel : nat) (s : list ascii) : option (list (json num) * list ascii) :=
  match fuel with
  | O => None
  | S fuel' =>
      match read s with
      | Some (v, rest) =>
          match skip_ws rest with
          | ","%char :: rest' =>
              match read_elements read fuel' rest' with
              | Some (vs, rest'') => Some (v :: vs, rest'')
              | None => None
              end
          | "]"%char :: rest' => Some ([v], rest')
          | _ => None
          end
      | None => None
      end
  end.

(** A key written like an integer. *)
Definition is_index (key : string) : bool :=
  match read_natural (list_ascii_of_string key) with
  | Some (_, []) => true
  | _ => false
  end.

(** The members of an object after its opening brace; a key written
    twice keeps its first place and its last value. *)
Fixpoint read_members (read : list ascii → option (json num * list ascii))
    (fuel : nat) (acc : list (string * json num)) (s : list ascii)
  : option (list (string * json num) * list ascii) :=
  match fuel with
  | O => None
  | S fuel' =>
      match skip_ws s with
      | q :: rest =>
          if Ascii.eqb q (Ascii false true false false false true false false) then
            match read_string rest with
            | Some (key, rest1) =>
                if is_index key then None else
                match skip_ws rest1 with
                | ":"%char :: rest2 =>
                    match read rest2 with
                    | Some (v, rest3) =>
                        let acc' := JsMap.set key v acc in
                        match skip_ws rest3 with
                        | ","%char :: rest4 => read_members read fuel' acc' rest4
                        | "}"%char :: rest4 => Some (acc', rest4)
                        | _ => None
                        end
                    | None => None
                    end
                | _ => None
                end
            | None => None
            end
          else None
      | [] => None
      end
  end.

(** One value, after optional white space. *)
Fixpoint read_value (fuel : nat) (s : list ascii) : option (json num * list ascii) :=
  match fuel with
  | O => None
  | S fuel' =>
      match skip_ws s with
      | "n"%char :: "u"%char :: "l"%char :: "l"%char :: rest => Some (JNull, rest)
      | "t"%char :: "r"%char :: "u"%char :: "e"%char :: rest => Some (JBool true, rest)
      | "f"%char :: "a"%char :: "l"%char :: "s"%char :: "e"%char :: rest =>
          Some (JBool false, rest)
      | "["%char :: rest =>
          match skip_ws rest with
          | "]"%char :: rest' => Some (JArr [], rest')
          | _ =>
              match read_elements (read_value fuel') (length rest) rest with
              | Some (vs, rest') => Some (JArr vs, rest')
              | None => None
              end
          end
      | "{"%char :: rest =>
          match skip_ws rest with
          | "}"%char :: rest' => Some (JObj [], rest')
          | _ =>
              match read_members (read_value fuel') (length rest) [] rest with
              | Some (fs, rest') => Some (JObj fs, rest')
              | None => None
              end
          end
      | "-"%char :: rest =>
          match read_natural rest with
          | Some (n, rest') => if Z.eqb n 0 then None else Some (JNum (num_of_Z (- n)), rest')
          | None => None
          end
      | c :: rest =>
          if Ascii.eqb c (Ascii false true false false false true false false) then
            match read_string rest with
            | Some (str, rest') => Some (JStr str, rest')
            | None => None
            end
          else match read_natural (c :: rest) with
               | Some (n, rest') => Some (JNum (num_of_Z n), rest')
               | None => None
               end
      | [] => None
      end
  end.

(** The whole text is one value, white space around it allowed. *)
Definition parse (text : string) : option (json num) :=
  let s := list_ascii_of_string text in
  match read_value (S (length s)) s with
  | Some (v, rest) => match skip_ws rest with [] => Some v | _ => None end
  | None => None
  end.
End JsonReader.
End JsonReader.

(** A JSON string literal without escapes. *)
Definition quoted (s : string) : string := dquote +:+ s +:+ dquote.

(** ** The tool registry ([shared/tool-registry.ts]) *)

Module ToolRegistry.
Section Registry.
Context {num : Type} `{JsNumber num}.

(** [Tool]: what a client sees. *)
Record Tool := mkTool {
  name : string;
  description : string;
  inputSchema : json num
}.

(** [ToolDefinition extends Tool].  The declared type of [category]
    lists ["general"], ["ide-specific"], ["file"] and ["workspace"]; the
    canvas tool definitions carry ["canvas"], and nothing checks the
    property when the code runs: it is a string. *)
Record ToolDefinition := mkDefinition {
  def_name : string;
  def_description : string;
  def_category : string;
  def_inputSchema : json num
}.

(** [ToolImplementation]: the handler is given the call's arguments and
    the reply callback; its run is the replies it makes and how it
    ends. *)
Record ToolImplementation := mkImplementation {
  impl_name : string;
  handler : option (json num) → Eff (event num) unit
}.

Record Entry := mkEntry {
  definition : ToolDefinition;
  implementation : ToolImplementation
}.

(** The registry's only field, [tools]. *)
Record t := mkRegistry { tools : JsMap.t Entry }.

(** [new ToolRegistry()] *)
Definition new : t := {| tools := JsMap.empty |}.

Definition mismatch_error (d : ToolDefinition) (i : ToolImplementation) : JsError :=
  Error_ ("Tool definition name " +:+ dquote +:+ def_name d +:+ dquote +:+
          " doesn't match implementation name " +:+ dquote +:+ impl_name i +:+ dquote).

(** [register(definition, implementation)]: the outcome of the call and
    the registry after it. *)
Definition register (d : ToolDefinition) (i : ToolImplementation) (reg : t)
  : (JsError + unit) * t :=
  if negb (String.eqb (def_name d) (impl_name i)) then
    (inl (mismatch_error d i), reg)
  else
    (inr (), {| tools := JsMap.set (def_name d) (mkEntry d i) (tools reg) |}).

(** [this.tools.get(name)] for a [name] of any type: only a string can
    be a key. *)
Definition lookup_tool (nm : option (json num)) (reg : t) : option Entry :=
  match nm with
  | Some (JStr s) => JsMap.get s (tools reg)
  | _ => None
  end.

(** The reply for a name that is not registered, [text] being the name
    as the template literal prints it. *)
Definition not_registered_reply (text : string) : ReplyMsg num :=
  reply_result
    (JObj [("content",
            JArr [JObj [("type", JStr "text");
                        ("text", JStr ("Tool '" +:+ text +:+ "' is not registered"))]])]).

(** [handleToolCall(req, reply)].  For an unknown name the name is
    printed twice outside any [try], for the log and for the reply; for
    a known one it is printed in the [catch] block. *)
Definition handleToolCall (reg : t) (req : McpRequest num) : Eff (event num) unit :=
  let nm := destructure "name" (req_params req) in
  let args := destructure "arguments" (req_params req) in
  match lookup_tool nm reg with
  | None =>
      console_log nm;;
      text ← template nm;
      reply (not_registered_reply text)
  | Some tool =>
      try_catch (handler (implementation tool) args)
        (λ e, text ← template nm;
              reply (reply_error (-32603)
                       ("failed to call tool " +:+ text +:+ ": " +:+ message_text e)))
  end.

(** [const { category: _, ...toolDef } = definition] *)
Definition strip_category (d : ToolDefinition) : Tool :=
  {| name := def_name d; description := def_description d;
     inputSchema := def_inputSchema d |}.

(** [getToolDefinitions(category?)]: an absent or empty category keeps
    every definition. *)
Definition getToolDefinitions (cat : option string) (reg : t) : list Tool :=
  List.map strip_category
    (List.filter
       (λ d, match cat with
             | None => true
             | Some c => orb (String.eqb c "") (String.eqb (def_category d) c)
             end)
       (List.map definition (JsMap.values (tools reg)))).

(** [getRegisteredToolNames()] *)
Definition getRegisteredToolNames (reg : t) : list string :=
  JsMap.keys (tools reg).

(** [hasImplementation(name)] *)
Definition hasImplementation (nm : string) (reg : t) : bool :=
  JsMap.has nm (tools reg).

(** A tool as the JSON value sent in a [tools/list] result. *)
Definition tool_json (tl : Tool) : json num :=
  JObj [("name", JStr (name tl)); ("description", JStr (description tl));
        ("inputSchema", inputSchema tl)].

(** The registry after a sequence of [register] calls; a call that
    throws leaves it as it was. *)
Definition register_all (calls : list (ToolDefinition * ToolImplementation)) (reg : t) : t :=
  fold_left (λ r c, snd (register (fst c) (snd c) r)) calls reg.

(** Every binding of a registry is keyed by the name its definition and
    its implementation share. *)
Definition keyed_by_name (reg : t) : Prop :=
  Forall (λ kv, kv.1 = def_name (definition kv.2) ∧ kv.1 = impl_name (implementation kv.2))
         (tools reg).
End Registry.
Arguments Tool : clear implicits.
Arguments ToolDefinition : clear implicits.
Arguments ToolImplementation : clear implicits.
Arguments Entry : clear implicits.
Arguments t : clear implicits.
End ToolRegistry.

(** ** The host application, as the handlers consume it *)

(** The calls the legacy handlers make into the Obsidian [App]; each
    returns or throws.  A file is its vault path. *)
Record App := mkApp {
  vault_getName : JsError + string;
  (** [adapter.getBasePath], a method only some adapters have *)
  adapter_getBasePath : option (JsError + string);
  vault_getFiles : JsError + list string;
  workspace_getActiveFile : JsError + option string;
  adapter_read : string → JsError + string;
  adapter_write : string → string → JsError + unit;
  (** [new RegExp(pattern)], then its [test] *)
  RegExp_ : string → JsError + (string → bool)
}.

(** ** IDE-specific methods ([ide/ide-handler.ts]) *)

Module IdeHandler.
Section IdeHandler.
Context {num : Type} `{JsNumber num}.

(** [isIdeMethod(method)]: [Array.prototype.includes] compares with
    strict equality, so only a string can match. *)
Definition isIdeMethod (method : option (json num)) : bool :=
  match method with
  | Some (JStr m) =>
      orb (String.eqb m "ide_connected") (String.eqb m "notifications/initialized")
  | _ => false
  end.

(** [handleIdeConnected]: logs the peer's pid; no response. *)
Definition handleIdeConnected (req : McpRequest num) : Eff (event num) bool :=
  let pid := destructure "pid" (req_params req) in
  console_log pid;;
  ret true.

(** [handleInitialized]: arms the timer that sends the initial file
    context; no response. *)
Definition handleInitialized (req : McpRequest num) : Eff (event num) bool :=
  setTimeout SendInitialContext 200 ≫= λ _, ret true.

(** [handleRequest(req, reply)]: whether the method was handled. *)
Definition handleRequest (req : McpRequest num) : Eff (event num) bool :=
  match req_method req with
  | Some (JStr m) =>
      if String.eqb m "ide_connected" then handleIdeConnected req
      else if String.eqb m "notifications/initialized" then handleInitialized req
      else ret false
  | _ => ret false
  end.
End IdeHandler.
End IdeHandler.

(** ** Legacy file methods ([tools/file-tools.ts]) *)

Module FileTools.
Section FileTools.
Context {num : Type} `{JsNumber num}.
Variable app : App.

Definition handleReadFile (req : McpRequest num) : Eff (event num) unit :=
  try_catch
    (let path := destructure "path" (req_params req) in
     match as_string path with
     | Some p =>
         if String.eqb p "" then reply (reply_error (-32602) "invalid path parameter")
         else match normalizePath p with
              | Some np =>
                  if String.eqb np "" then reply (reply_error (-32603) "invalid file path")
                  else content ← call (adapter_read app np);
                       reply (reply_result (JStr content))
              | None => reply (reply_error (-32603) "invalid file path")
              end
     | None => reply (reply_error (-32602) "invalid path parameter")
     end)
    (λ e, reply (reply_error (-32603) ("failed to read file: " +:+ message_text e))).

Definition handleWriteFile (req : McpRequest num) : Eff (event num) unit :=
  try_catch
    (let path := destructure "path" (req_params req) in
     let content := destructure "content" (req_params req) in
     match as_string path, as_string content with
     | Some p, Some c =>
         if String.eqb p "" then reply (reply_error (-32602) "invalid parameters")
         else match normalizePath p with
              | Some np =>
                  if String.eqb np "" then reply (reply_error (-32603) "invalid file path")
                  else _ ← call (adapter_write app np c);
                       reply (reply_result (JBool true))
              | None => reply (reply_error (-32603) "invalid file path")
              end
     | _, _ => reply (reply_error (-32602) "invalid parameters")
     end)
    (λ e, reply (reply_error (-32603) ("failed to write file: " +:+ message_text e))).

Definition handleListFiles (req : McpRequest num) : Eff (event num) unit :=
  try_catch
    (let pattern := destructure "pattern" (req_params req) in
     allFiles ← call (vault_getFiles app);
     filteredFiles ←
       match as_string pattern with
       | Some pat =>
           if String.eqb pat "" then ret allFiles
           else regex ← call (RegExp_ app pat);
                ret (List.filter regex allFiles)
       | None => ret allFiles
       end;
     reply (reply_result (JArr (List.map JStr filteredFiles))))
    (λ e, reply (reply_error (-32603) ("failed to list files: " +:+ message_text e))).

Definition handleGetOpenFiles (req : McpRequest num) : Eff (event num) unit :=
  try_catch
    (activeFile ← call (workspace_getActiveFile app);
     let openFiles := match activeFile with Some p => [JStr p] | None => [] end in
     reply (reply_result (JArr openFiles)))
    (λ e, reply (reply_error (-32603) ("failed to get open files: " +:+ message_text e))).

Definition handleGetCurrentFile (req : McpRequest num) : Eff (event num) unit :=
  try_catch
    (activeFile ← call (workspace_getActiveFile app);
     reply (reply_result (match activeFile with Some p => JStr p | None => JNull end)))
    (λ e, reply (reply_error (-32603) ("failed to get current file: " +:+ message_text e))).
End FileTools.
End FileTools.

(** ** The request dispatcher ([mcp/handlers.ts]) *)


Module McpHandlers.
(** The transport a request came from. *)
Inductive source := ws | http.

Section McpHandlers.
Context {num : Type} `{JsNumber num}.

Record t := mkHandlers {
  app : App;
  wsToolRegistry : ToolRegistry.t num;
  httpToolRegistry : ToolRegistry.t num
}.

(** [source === "ws" ? this.wsToolRegistry : this.httpToolRegistry] *)
Definition registry_for (h : t) (src : source) : ToolRegistry.t num :=
  match src with ws => wsToolRegistry h | http => httpToolRegistry h end.

Definition listChanged_false : json num := JObj [("listChanged", JBool false)].

Definition initialize_result : json num :=
  JObj [("protocolVersion", JStr "2024-11-05");
        ("capabilities",
         JObj [("roots", listChanged_false);
               ("tools", listChanged_false);
               ("resources", JObj [("subscribe", JBool false); ("listChanged", JBool false)]);
               ("prompts", listChanged_false)]);
        ("serverInfo",
         JObj [("name", JStr "obsidian-claude-code-mcp"); ("version", JStr "1.0.0")])].

Definition handleInitialize (req : McpRequest num) : Eff (event num) unit :=
  try_catch
    (let protocolVersion := destructure "protocolVersion" (req_params req) in
     reply (reply_result initialize_result))
    (λ e, reply (reply_error (-32603) ("failed to initialize: " +:+ message_text e))).

Definition handleToolsList (h : t) (req : McpRequest num) (src : source) : Eff (event num) unit :=
  try_catch
    (let tools := ToolRegistry.getToolDefinitions None (registry_for h src) in
     reply (reply_result (JObj [("tools", JArr (List.map ToolRegistry.tool_json tools))])))
    (λ e, reply (reply_error (-32603) ("failed to list tools: " +:+ message_text e))).

Definition handlePromptsList (req : McpRequest num) : Eff (event num) unit :=
  try_catch
    (reply (reply_result (JObj [("prompts", JArr [])])))
    (λ e, reply (reply_error (-32603) ("failed to list prompts: " +:+ message_text e))).

Definition handleResourcesList (req : McpRequest num) : Eff (event num) unit :=
  try_catch
    (reply (reply_result (JObj [("resources", JArr [])])))
    (λ e, reply (reply_error (-32603) ("failed to list resources: " +:+ message_text e))).

Definition handleGetWorkspaceInfo (h : t) (req : McpRequest num) : Eff (event num) unit :=
  try_catch
    (vaultName ← call (vault_getName (app h));
     basePath ←
       match adapter_getBasePath (app h) with
       | Some r => p ← call r; ret (if String.eqb p "" then "unknown" else p)
       | None => ret "unknown"
       end;
     files ← call (vault_getFiles (app h));
     reply (reply_result
              (JObj [("name", JStr vaultName);
                     ("path", JStr basePath);
                     ("fileCount", JNum (num_of_Z (Z.of_nat (length files))));
                     ("type", JStr "obsidian-vault")])))
    (λ e, reply (reply_error (-32603)
                   ("failed to get workspace info: " +:+ message_text e))).

(** The [switch] of [handleRequestGeneric]; a method that is not a
    string takes the [default] branch, which logs the method before it
    replies. *)
Definition dispatch (h : t) (req : McpRequest num) (src : source) : Eff (event num) unit :=
  let unknown :=
    console_log (req_method req);;
    reply (reply_error (-32601) "method not implemented") in
  match req_method req with
  | Some (JStr m) =>
      if String.eqb m "initialize" then handleInitialize req
      else if String.eqb m "tools/list" then handleToolsList h req src
      else if String.eqb m "prompts/list" then handlePromptsList req
      else if String.eqb m "ping" then reply (reply_result (JStr "pong"))
      else if String.eqb m "readFile" then FileTools.handleReadFile (app h) req
      else if String.eqb m "writeFile" then FileTools.handleWriteFile (app h) req
      else if String.eqb m "getOpenFiles" then FileTools.handleGetOpenFiles (app h) req
      else if String.eqb m "listFiles" then FileTools.handleListFiles (app h) req
      else if String.eqb m "getCurrentFile" then FileTools.handleGetCurrentFile (app h) req
      else if String.eqb m "getWorkspaceInfo" then handleGetWorkspaceInfo h req
      else if String.eqb m "tools/call" then
        ToolRegistry.handleToolCall (registry_for h src) req
      else if String.eqb m "resources/list" then handleResourcesList req
      else unknown
  | _ => unknown
  end.

(** [handleRequestGeneric(req, reply, source)] *)
Definition handleRequestGeneric (h : t) (req : McpRequest num) (src : source)
  : Eff (event num) unit :=
  handled ←
    (if IdeHandler.isIdeMethod (req_method req)
     then IdeHandler.handleRequest req else ret false);
  if handled : bool then ret () else dispatch h req src.

(** [handleHttpRequest(req, reply)]: the method is logged, and the
    replies go to the callback the HTTP transport supplied. *)
Definition handleHttpRequest (h : t) (req : McpRequest num) : Eff (event num) unit :=
  console_log (req_method req);;
  handleRequestGeneric h req http.

(** The body of [handleRequest(sock, req)]: the method is logged, then
    the request is dispatched with the socket's reply closure. *)
Definition handleWsRequest (h : t) (req : McpRequest num) : Eff (event num) unit :=
  console_log (req_method req);;
  handleRequestGeneric h req ws.

(** [handleRequest(sock, req)], by what it does to the socket: each
    reply is sent as the response [{ jsonrpc: "2.0", id: req.id,
    ...msg }].  The promise it returns is awaited by nobody, so a
    rejection leaves no other trace. *)
Definition handleRequest (h : t) (sock : socket) (req : McpRequest num)
  : list (ws_effect num) :=
  List.map (λ msg, Send sock (FrameResponse (response_for req msg)))
           (replies (handleWsRequest h req)).





End McpHandlers.
Arguments t : clear implicits.
End McpHandlers.

(** ** [path.join] on POSIX

    The functions below take [path.join] as a parameter; the closed
    examples instantiate it with [posix_join]. *)

(** The pieces of a text between the occurrences of a separator. *)
Fixpoint split_on (sep : ascii) (s : string) : list string :=
  match s with
  | EmptyString => [EmptyString]
  | String c rest =>
      if Ascii.eqb c sep then EmptyString :: split_on sep rest
      else match split_on sep rest with
           | seg :: segs => String c seg :: segs
           | [] => [String c EmptyString]
           end
  end.

Fixpoint ends_with (c : ascii) (s : string) : bool :=
  match s with
  | EmptyString => false
  | String c' EmptyString => Ascii.eqb c' c
  | String _ rest => ends_with c rest
  end.

(** One step of [normalizeString], on the segments kept so far, last
    first: an empty segment and [.] are dropped; [..] removes the
    segment before it, and is kept where there is none to remove and the
    path is relative. *)
Definition normalize_segment (allowAboveRoot : bool) (kept : list string) (seg : string)
  : list string :=
  if orb (String.eqb seg "") (String.eqb seg ".") then kept
  else if String.eqb seg ".." then
    match kept with
    | top :: below =>
        if String.eqb top ".." then (if allowAboveRoot then seg :: kept else kept)
        else below
    | [] => if allowAboveRoot then [seg] else []
    end
  else seg :: kept.

(** [path.posix.normalize(p)] *)
Definition posix_normalize (p : string) : string :=
  if String.eqb p "" then "."
  else
    let isAbsolute := String.prefix "/" p in
    let trailingSeparator := ends_with "/"%char p in
    let body :=
      String.concat "/"
        (rev (fold_left (normalize_segment (negb isAbsolute)) (split_on "/"%char p) [])) in
    if String.eqb body "" then
      if isAbsolute then "/" else if trailingSeparator then "./" else "."
    else
      (if isAbsolute then "/" else "") +:+ body +:+ (if trailingSeparator then "/" else "").

(** [path.posix.join(...parts)]: the segments that are not empty, joined
    by a slash and normalised. *)
Definition posix_join (parts : list string) : string :=
  match List.filter (λ s, negb (String.eqb s "")) parts with
  | [] => "."
  | segments => posix_normalize (String.concat "/" segments)
  end.

(** ** The configuration directory ([claude-config.ts]) *)

Module ClaudeConfig.
Section ClaudeConfig.
Context {num : Type}.
Variable path_join : list string → string.

(** [getClaudeConfigDir()].  [fs.existsSync] does not throw, so the
    [catch] blocks, which return the modern directory as well, are
    never entered. *)
Definition getClaudeConfigDir (p : Process) (fs : FS num) : string :=
  match env_truthy p "CLAUDE_CONFIG_DIR" with
  | Some dir => dir
  | None =>
      if String.eqb (platform p) "win32" then
        let appDataDir :=
          match env_truthy p "APPDATA" with
          | Some d => d
          | None => path_join [homedir p; "AppData"; "Roaming"]
          end in
        let modernConfigDir := path_join [appDataDir; "claude"] in
        let legacyConfigDir := path_join [homedir p; ".claude"] in
        if existsSync modernConfigDir fs then modernConfigDir
        else if existsSync legacyConfigDir fs then legacyConfigDir
        else modernConfigDir
      else
        let xdgConfigHome :=
          match env_truthy p "XDG_CONFIG_HOME" with
          | Some d => d
          | None => path_join [homedir p; ".config"]
          end in
        let modernConfigDir := path_join [xdgConfigHome; "claude"] in
        let legacyConfigDir := path_join [homedir p; ".claude"] in
        if existsSync modernConfigDir fs then modernConfigDir
        else if existsSync legacyConfigDir fs then legacyConfigDir
        else modernConfigDir
  end.

(** [getClaudeIdeDir()]: where the lock files are documented to be. *)
Definition getClaudeIdeDir (p : Process) (fs : FS num) : string :=
  path_join [getClaudeConfigDir p fs; "ide"].
End ClaudeConfig.
End ClaudeConfig.

(** ** The socket transport ([mcp/server.ts]) *)

(** The options a listener is created with. *)
Record ListenOptions := mkListen {
  listen_port : Z;
  listen_host : option string
}.

(** A host name that denotes the loopback interface. *)
Definition loopback_host (h : string) : bool :=
  orb (String.eqb h "127.0.0.1") (orb (String.eqb h "localhost") (String.eqb h "::1")).

(** Node listens on the unspecified address, that is on every interface,
    when no host is given; a listener is confined to loopback only by
    naming a loopback host. *)
Definition loopback_only (o : ListenOptions) : bool :=
  match listen_host o with
  | Some h => loopback_host h
  | None => false
  end.

Module McpServer.
Section McpServer.
Context {num : Type} `{JsNumber num}.
Variable path_join : list string → string.
(** [JSON.parse]; [None] when it throws. *)
Variable JSON_parse : string → option (json num).

(** [McpServerConfig]: each callback is given the socket, and is
    modelled by what it does to sockets. *)
Record Config := mkConfig {
  onMessage : socket → json num → list (ws_effect num);
  onConnection : option (socket → list (ws_effect num));
  onDisconnection : option (socket → list (ws_effect num))
}.

Record t := mkServer {
  wss : option ListenOptions;
  lockFilePath : string;
  connectedClients : list socket;
  config : Config
}.

(** [new McpServer(config)] *)
Definition new (cfg : Config) : t :=
  {| wss := None; lockFilePath := ""; connectedClients := []; config := cfg |}.

(** The argument of [new WebSocketServer(...)] in [start]. *)
Definition start_options : ListenOptions :=
  {| listen_port := 0; listen_host := None |}.

Definition lockFileContent (p : Process) : json num :=
  JObj [("pid", JNum (num_of_Z (pid p)));
        ("workspaceFolders", JArr []);
        ("ideName", JStr "Obsidian");
        ("transport", JStr "ws")].

(** [process.env.HOME || process.env.USERPROFILE || "."] *)
Definition home_or_profile (p : Process) : string :=
  match env_truthy p "HOME" with
  | Some h => h
  | None => match env_truthy p "USERPROFILE" with Some u => u | None => "." end
  end.

(** [createLockFile(port)] *)
Definition createLockFile (port : Z) (p : Process) (st : t) (fs : FS num) : t * FS num :=
  let ideDir := path_join [home_or_profile p; ".claude"; "ide"] in
  let fs1 := mkdirSync_recursive ideDir fs in
  let path := path_join [ideDir; pretty port +:+ ".lock"] in
  ({| wss := wss st; lockFilePath := path;
      connectedClients := connectedClients st; config := config st |},
   writeFileSync path (lockFileContent p) fs1).

(** [this.wss = new WebSocketServer({ port: 0 })], the first statement
    of [start()]. *)
Definition create_listener (st : t) : t :=
  {| wss := Some start_options; lockFilePath := lockFilePath st;
     connectedClients := connectedClients st; config := config st |}.

(** [start()], when the system assigns [port] to the listener: the
    port returned, the server, the process and the file system. *)
Definition start (port : Z) (p : Process) (st : t) (fs : FS num)
  : Z * t * Process * FS num :=
  let st1 := create_listener st in
  let '(st2, fs2) := createLockFile port p st1 fs in
  let p2 := setenv "ENABLE_IDE_INTEGRATION" "true"
              (setenv "CLAUDE_CODE_SSE_PORT" (pretty port) p) in
  (port, st2, p2, fs2).

(** [stop()] *)
Definition stop (st : t) (fs : FS num) : t * FS num :=
  ({| wss := None; lockFilePath := lockFilePath st;
      connectedClients := connectedClients st; config := config st |},
   if andb (negb (String.eqb (lockFilePath st) "")) (existsSync (lockFilePath st) fs)
   then unlinkSync (lockFilePath st) fs else fs).

(** [lockContent.workspaceFolders = [basePath]], then what
    [JSON.stringify(lockContent)] writes: the property is set on an
    object, is not serialised on an array, and cannot be set on
    [null] or on a primitive. *)
Definition set_workspaceFolders (basePath : string) (doc : json num)
  : JsError + json num :=
  match doc with
  | JObj fs =>
      let v := JArr [JStr basePath] in
      inr (JObj (if bool_decide (is_Some (field "workspaceFolders" fs))
                 then List.map (λ kv, if String.eqb (fst kv) "workspaceFolders"
                                      then (fst kv, v) else kv) fs
                 else fs ++ [("workspaceFolders", v)]))
  | JArr xs => inr (JArr xs)
  | _ => inl {| err_name := "TypeError";
                err_message := Some "Cannot create property 'workspaceFolders'";
                err_code := None |}
  end.

(** [updateWorkspaceFolders(basePath)]; reading a directory throws. *)
Definition updateWorkspaceFolders (basePath : string) (st : t) (fs : FS num)
  : JsError + FS num :=
  if andb (negb (String.eqb (lockFilePath st) "")) (existsSync (lockFilePath st) fs)
  then match files fs !! lockFilePath st with
       | Some doc =>
           match set_workspaceFolders basePath doc with
           | inr doc' => inr (writeFileSync (lockFilePath st) doc' fs)
           | inl e => inl e
           end
       | None => inl {| err_name := "Error";
                        err_message := Some "EISDIR: illegal operation on a directory, read";
                        err_code := Some "EISDIR" |}
       end
  else inr fs.

(** [this.connectedClients.add(sock)] on a [Set]. *)
Definition add_client (sock : socket) (cs : list socket) : list socket :=
  if bool_decide (sock ∈ cs) then cs else cs ++ [sock].

Definition with_clients (cs : list socket) (st : t) : t :=
  {| wss := wss st; lockFilePath := lockFilePath st;
     connectedClients := cs; config := config st |}.

Definition run_callback (cb : option (socket → list (ws_effect num))) (sock : socket)
  : list (ws_effect num) :=
  match cb with Some f => f sock | None => [] end.

(** The listener's ["connection"] event. *)
Definition on_connection (sock : socket) (st : t) : t * list (ws_effect num) :=
  (with_clients (add_client sock (connectedClients st)) st,
   run_callback (onConnection (config st)) sock).

(** A socket's ["close"] event. *)
Definition on_close (sock : socket) (st : t) : t * list (ws_effect num) :=
  (with_clients (List.filter (λ c, negb (Nat.eqb c sock)) (connectedClients st)) st,
   run_callback (onDisconnection (config st)) sock).

(** A socket's ["error"] event. *)
Definition on_error (sock : socket) (st : t) : t * list (ws_effect num) :=
  (with_clients (List.filter (λ c, negb (Nat.eqb c sock)) (connectedClients st)) st, []).

(** [handleMessage(sock, raw)], run by a socket's ["message"] event:
    the server afterwards, and what was done to sockets. *)
Definition handleMessage (sock : socket) (raw : string) (st : t)
  : t * list (ws_effect num) :=
  match JSON_parse raw with
  | None => (st, [])
  | Some req => (st, onMessage (config st) sock req)
  end.

(** [broadcast(message)] to the clients whose [readyState] is [OPEN]. *)
Definition broadcast (is_open : socket → bool) (message : McpNotification num) (st : t)
  : list (ws_effect num) :=
  List.map (λ c, Send c (FrameNotification message))
           (List.filter is_open (connectedClients st)).

(** [clientCount] *)
Definition clientCount (st : t) : nat := length (connectedClients st).

(** What the listener and its sockets deliver to the callbacks [start]
    installs. *)
Inductive conn_event :=
  | Connection (sock : socket)
  | SocketClose (sock : socket)
  | SocketError (sock : socket)
  | SocketMessage (sock : socket) (raw : string).

(** The callback [start] installed for an event. *)
Definition on_event (ev : conn_event) (st : t) : t * list (ws_effect num) :=
  match ev with
  | Connection sock => on_connection sock st
  | SocketClose sock => on_close sock st
  | SocketError sock => on_error sock st
  | SocketMessage sock raw => handleMessage sock raw st
  end.

(** The server after a sequence of events, and everything done to
    sockets on the way. *)
Fixpoint run (evs : list conn_event) (st : t) : t * list (ws_effect num) :=
  match evs with
  | [] => (st, [])
  | ev :: rest =>
      let '(st1, out1) := on_event ev st in
      let '(st2, out2) := run rest st1 in
      (st2, out1 ++ out2)
  end.

(** Whether a socket is connected after a sequence of events, read off
    the events alone: its last connection event is not followed by a
    close or an error of the same socket. *)
Fixpoint connected_after (evs : list conn_event) (was : bool) (sock : socket) : bool :=
  match evs with
  | [] => was
  | Connection s :: rest => connected_after rest (if Nat.eqb s sock then true else was) sock
  | SocketClose s :: rest | SocketError s :: rest =>
      connected_after rest (if Nat.eqb s sock then false else was) sock
  | SocketMessage _ _ :: rest => connected_after rest was sock
  end.

(** The frames written to one socket. *)
Definition frames_to (sock : socket) (out : list (ws_effect num)) : list (frame num) :=
  omap (λ e, match e with
             | Send s f => if Nat.eqb s sock then Some f else None
             | Close _ => None
             end) out.
End McpServer.
Arguments Config : clear implicits.
Arguments t : clear implicits.
End McpServer.

(** ** The streaming-HTTP transport ([mcp/http-server.ts]) *)

(** An [http.ServerResponse], by identity. *)
Definition response := nat.

Module McpHttpServer.
Section McpHttpServer.
Context {num : Type} `{JsNumber num}.
(** [JSON.parse]; [None] when it throws. *)
Variable JSON_parse : string → option (json num).

Record Session := mkSession {
  id : string;
  createdAt : Z;
  streams : list response
}.

Record SSEStream := mkStream {
  stream_response : response;
  sessionId : string;
  lastEventId : option string
}.

(** The [data:] line of an event; JSON documents are kept unprinted. *)
Inductive sse_data :=
  | DataText (s : string)
  | DataResponse (r : McpResponse num)
  | DataNotification (n : McpNotification num).

(** What the server does that a client or the configured callbacks can
    observe. *)
Inductive http_effect :=
  | WriteHead (res : response) (status : Z)
  | End_ (res : response) (body : option (json num))
  | SSE (res : response) (event : string) (data : sse_data) (event_id : option string)
  (** [config.onMessage(msg, reply)] *)
  | OnMessage (msg : McpRequest num)
  (** [config.onConnection?.()] and [config.onDisconnection?.()] *)
  | OnConnection
  | OnDisconnection.

(** [McpHttpServerConfig.onMessage], by the messages it passes to the
    reply callback it is given before it returns.  Nobody awaits the
    callback: what a handler replies after it has suspended is written
    later, by the same closure ([run_replies]), at the counter of that
    moment. *)
Record Config := mkConfig { onMessage : McpRequest num → list (ReplyMsg num) }.

Record t := mkServer {
  port : Z;
  config : Config;
  sessions : gmap string Session;
  activeStreams : list SSEStream;
  eventIdCounter : Z
}.

(** [new McpHttpServer(config)] *)
Definition new (cfg : Config) : t :=
  {| port := 0; config := cfg; sessions := ∅; activeStreams := []; eventIdCounter := 0 |}.

(** The arguments of [this.server.listen(port, "127.0.0.1", ...)]. *)
Definition listen_options (p : Z) : ListenOptions :=
  {| listen_port := p; listen_host := Some "127.0.0.1" |}.

(** How the listen call ends: the ["listening"] callback, with the port
    [address()] reports if any, or the ["error"] event. *)
Inductive listen_result :=
  | Listening (address_port : option Z)
  | ListenError (e : JsError).

(** [start(port)]: both branches of the error handler reject with the
    error as it was emitted. *)
Definition start (p : Z) (r : listen_result) (st : t) : (JsError + Z) * t :=
  match r with
  | ListenError e => (inl e, st)
  | Listening ap =>
      let bound := match ap with
                   | Some q => if Z.eqb q 0 then p else q
                   | None => p
                   end in
      (inr bound,
       {| port := bound; config := config st; sessions := sessions st;
          activeStreams := activeStreams st; eventIdCounter := eventIdCounter st |})
  end.

(** [sendSSEMessage(res, event, data, id?)] *)
Definition sendSSEMessage (destroyed : response → bool) (res : response)
    (event : string) (data : sse_data) (event_id : option string) : list http_effect :=
  if destroyed res then []
  else [SSE res event data
          (match event_id with
           | Some i => if String.eqb i "" then None else Some i
           | None => None
           end)].

Definition json_error (text : string) : option (json num) :=
  Some (JObj [("error", JStr text)]).

(** [handleSSEConnection(req, res)], with the id [crypto.randomUUID()]
    returns and the time [Date.now()] returns. *)
Definition handleSSEConnection (destroyed : response → bool) (accept : option string)
    (last_event_id : option string) (uuid : string) (now : Z) (res : response) (st : t)
  : list http_effect * t :=
  if negb (includes "text/event-stream" (default "" accept)) then
    ([WriteHead res 406; End_ res (json_error "Must accept text/event-stream")], st)
  else
    let session := {| id := uuid; createdAt := now; streams := [res] |} in
    let stream := {| stream_response := res; sessionId := uuid;
                     lastEventId := last_event_id |} in
    ([WriteHead res 200; OnConnection] ++
     sendSSEMessage destroyed res "endpoint"
       (DataText ("/messages?session_id=" +:+ uuid)) None,
     {| port := port st; config := config st;
        sessions := <[uuid := session]> (sessions st);
        activeStreams := activeStreams st ++ [stream];
        eventIdCounter := eventIdCounter st |}).

(** The ["close"] handler [handleSSEConnection] installs for the stream
    it opened. *)
Definition on_close (stream : SSEStream) (st : t) : list http_effect * t :=
  ([OnDisconnection],
   {| port := port st; config := config st;
      sessions := delete (sessionId stream) (sessions st);
      activeStreams :=
        List.filter (λ s, negb (Nat.eqb (stream_response s) (stream_response stream)))
                    (activeStreams st);
      eventIdCounter := eventIdCounter st |}).

(** [stop()] *)
Definition stop (st : t) : list http_effect * t :=
  (List.map (λ s, End_ (stream_response s) None) (activeStreams st),
   {| port := port st; config := config st; sessions := ∅; activeStreams := [];
      eventIdCounter := eventIdCounter st |}).

(** [broadcast(message)] *)
Definition broadcast (destroyed : response → bool) (message : McpNotification num) (st : t)
  : list http_effect * t :=
  let eventId := eventIdCounter st + 1 in
  (List.concat
     (List.map (λ s, sendSSEMessage destroyed (stream_response s) "message"
                       (DataNotification message) (Some (pretty eventId)))
               (activeStreams st)),
   {| port := port st; config := config st; sessions := sessions st;
      activeStreams := activeStreams st; eventIdCounter := eventId |}).

(** [Array.isArray(parsed) ? parsed : [parsed]] *)
Definition as_messages (parsed : json num) : list (json num) :=
  match parsed with JArr xs => xs | other => [other] end.

(** [msg.id !== undefined && msg.method !== undefined] *)
Definition is_request (msg : McpRequest num) : bool :=
  andb (bool_decide (is_Some (req_id msg))) (bool_decide (is_Some (req_method msg))).

(** [messages.some(...)]: stops at the first request; reading a
    property of a [null] element throws. *)
Fixpoint hasRequests (messages : list (json num)) : JsError + bool :=
  match messages with
  | [] => inr false
  | m :: rest =>
      match as_request m with
      | None => inl null_read_error
      | Some msg => if is_request msg then inr true else hasRequests rest
      end
  end.

(** The loop of the branch without requests: an envelope with a truthy
    method is handed to [onMessage] with a reply callback that does
    nothing. *)
Fixpoint notify_all (messages : list (json num)) : Eff http_effect unit :=
  match messages with
  | [] => ret ()
  | m :: rest =>
      match as_request m with
      | None => throw null_read_error
      | Some msg =>
          (if truthy_opt (req_method msg) then emit (OnMessage msg) else ret ());;
          notify_all rest
      end
  end.

(** The [reply] closure of a request, applied to each message the
    handler replies with: the counter is incremented and the response
    is written to the stream as a [message] event. *)
Fixpoint run_replies (destroyed : response → bool) (stream : SSEStream)
    (request : McpRequest num) (msgs : list (ReplyMsg num)) (counter : Z)
  : list http_effect * Z :=
  match msgs with
  | [] => ([], counter)
  | msg :: rest =>
      let eventId := counter + 1 in
      let '(evs, final) := run_replies destroyed stream request rest eventId in
      (sendSSEMessage destroyed (stream_response stream) "message"
         (DataResponse (response_for request msg)) (Some (pretty eventId)) ++ evs,
       final)
  end.

(** The loop of the branch with requests: only an envelope with a
    truthy method and an id is handed to [onMessage], and what its
    handler replies before [onMessage] returns is written before the
    next envelope is looked at. *)
Fixpoint process_requests (cfg : Config) (destroyed : response → bool) (stream : SSEStream)
    (messages : list (json num)) (counter : Z) : Eff http_effect unit * Z :=
  match messages with
  | [] => (ret (), counter)
  | m :: rest =>
      match as_request m with
      | None => (throw null_read_error, counter)
      | Some request =>
          if andb (truthy_opt (req_method request)) (bool_decide (is_Some (req_id request)))
          then
            let '(evs, counter1) :=
              run_replies destroyed stream request (onMessage cfg request) counter in
            let '(r, counter2) := process_requests cfg destroyed stream rest counter1 in
            (mkEff (OnMessage request :: evs ++ trace r) (outcome r), counter2)
          else process_requests cfg destroyed stream rest counter
      end
  end.

Definition with_counter (c : Z) (st : t) : t :=
  {| port := port st; config := config st; sessions := sessions st;
     activeStreams := activeStreams st; eventIdCounter := c |}.

Definition respond (res : response) (status : Z) (body : option (json num))
  : Eff http_effect unit :=
  mkEff [WriteHead res status; End_ res body] (inr ()).

(** [handleMessages(req, res, url)] for the [session_id] query
    parameter and the request body.  The session is looked up in the
    server as it is when the request arrives, [st]; the body is then
    awaited, and the rest runs in the server as it is by then, [st']. *)
Definition handleMessages (destroyed : response → bool) (session_id : option string)
    (body : string) (res : response) (st st' : t) : Eff http_effect unit * t :=
  let not_found := (respond res 404 (json_error "Session not found"), st) in
  match session_id with
  | None => not_found
  | Some sid =>
      if orb (String.eqb sid "") (negb (bool_decide (is_Some (sessions st !! sid))))
      then not_found
      else
        match JSON_parse body with
        | None => (respond res 400 (json_error "Invalid JSON"), st')
        | Some parsed =>
            let messages := as_messages parsed in
            match hasRequests messages with
            | inl e => (throw e, st')
            | inr false => (notify_all messages;; respond res 202 None, st')
            | inr true =>
                match List.find (λ s, String.eqb (sessionId s) sid) (activeStreams st') with
                | None => (respond res 410 (json_error "SSE connection lost"), st')
                | Some stream =>
                    let '(r, counter) :=
                      process_requests (config st') destroyed stream messages
                                       (eventIdCounter st') in
                    (r;; respond res 202 None, with_counter counter st')
                end
            end
        end
  end.

(** [clientCount] *)
Definition clientCount (st : t) : nat := length (activeStreams st).

(** The status written to a response, if any. *)
Definition status_of (res : response) (evs : list http_effect) : option Z :=
  head (omap (λ ev, match ev with
                    | WriteHead r s => if Nat.eqb r res then Some s else None
                    | _ => None
                    end) evs).

(** The envelopes handed to [onMessage]. *)
Definition dispatched (evs : list http_effect) : list (McpRequest num) :=
  omap (λ ev, match ev with OnMessage m => Some m | _ => None end) evs.

(** The [message] events written to a stream. *)
Definition message_events (res : response) (evs : list http_effect) : list sse_data :=
  omap (λ ev, match ev with
              | SSE r "message" d _ => if Nat.eqb r res then Some d else None
              | _ => None
              end) evs.

(** The parts of an [http.IncomingMessage] the server reads; the path and
    the [session_id] parameter are those of the parsed [req.url]. *)
Record IncomingMessage := mkIncoming {
  http_method : string;
  pathname : string;
  query_session_id : option string;
  header_accept : option string;
  header_last_event_id : option string;
  request_body : string
}.

(** [setCORSHeaders(res)] *)
Definition setCORSHeaders : list (string * string) :=
  [("Access-Control-Allow-Origin", "*");
   ("Access-Control-Allow-Methods", "GET, POST, OPTIONS");
   ("Access-Control-Allow-Headers", "Content-Type, Accept, Last-Event-ID");
   ("Access-Control-Max-Age", "86400")].

(** [validateOrigin(req)] *)
Definition validateOrigin (req : IncomingMessage) : bool := true.

(** The JSON-RPC error documents the router writes; some carry
    [id: null]. *)
Definition router_error (code : Z) (message : string) (with_id : bool) : option (json num) :=
  Some (JObj ([("jsonrpc", JStr "2.0");
               ("error", JObj [("code", JNum (num_of_Z code)); ("message", JStr message)])] ++
              (if with_id then [("id", JNull)] else []))).

(** [handleRequest(req, res)]: the headers set on the response, then what
    the route does.  [uuid] and [now] are what [crypto.randomUUID()] and
    [Date.now()] return if the route asks. *)
Definition handleRequest (destroyed : response → bool) (uuid : string) (now : Z)
    (req : IncomingMessage) (res : response) (st st' : t)
  : list (string * string) * (Eff http_effect unit * t) :=
  (setCORSHeaders,
   if String.eqb (http_method req) "OPTIONS" then (respond res 200 None, st)
   else if negb (validateOrigin req) then
     (respond res 403 (router_error (-32001) "Forbidden origin" false), st)
   else if String.eqb (pathname req) "/sse" then
     if String.eqb (http_method req) "GET" then
       let '(evs, st1) :=
         handleSSEConnection destroyed (header_accept req) (header_last_event_id req)
                             uuid now res st in
       (mkEff evs (inr ()), st1)
     else (respond res 405 (router_error (-32000) "Method not allowed. Use GET /sse" true), st)
   else if String.eqb (pathname req) "/messages" then
     if String.eqb (http_method req) "POST" then
       handleMessages destroyed (query_session_id req) (request_body req) res st st'
     else (respond res 405
             (router_error (-32000) "Method not allowed. Use POST /messages" true), st)
   else (respond res 404
           (router_error (-32002) "Not found. Use /sse or /messages endpoints." false), st)).

(** Every SSE event written, to any stream. *)
Definition sse_events (evs : list http_effect) : list http_effect :=
  List.filter (λ ev, match ev with SSE _ _ _ _ => true | _ => false end) evs.
End McpHttpServer.
Arguments Session : clear implicits.
Arguments SSEStream : clear implicits.
Arguments sse_data : clear implicits.
Arguments http_effect : clear implicits.
Arguments Config : clear implicits.
Arguments t : clear implicits.
End McpHttpServer.

(** ** The orchestrator ([mcp/dual-server.ts]) *)

(** The error Node emits when [listen] finds the port taken. *)
Definition EADDRINUSE_error (host : string) (p : Z) : JsError :=
  {| err_name := "Error";
     err_message := Some ("listen EADDRINUSE: address already in use " +:+ host +:+ ":" +:+ pretty p);
     err_code := Some "EADDRINUSE" |}.

Module McpDualServer.
Section McpDualServer.
Context {num : Type} `{JsNumber num}.
Variable path_join : list string → string.

(** [DualServerConfig]; of the workspace manager only its presence is
    read here. *)
Record DualServerConfig := mkDualConfig {
  app : App;
  workspaceManager : bool;
  wsPort_setting : option Z;
  httpPort_setting : option Z;
  enableWebSocket : option bool;
  enableHttp : option bool
}.

Record t := mkDual {
  config : DualServerConfig;
  handlers : McpHandlers.t num;
  wsServer : option (McpServer.t num);
  httpServer : option (McpHttpServer.t num)
}.

(** What [start] resolves with. *)
Record StartResult := mkResult {
  wsPort : option Z;
  httpPort : option Z
}.

(** [wsConfig] of [start]: a message goes to the dispatcher, whose
    rejection nobody awaits; the other two callbacks only log. *)
Definition wsConfig (h : McpHandlers.t num) : McpServer.Config num :=
  {| McpServer.onMessage := λ sock request,
       match as_request request with
       | Some req => McpHandlers.handleRequest h sock req
       | None => []
       end;
     McpServer.onConnection := Some (λ _, []);
     McpServer.onDisconnection := Some (λ _, []) |}.

(** [httpConfig] of [start].  The run of the dispatcher does not record
    where a handler suspends, and all its replies are taken as made
    before [onMessage] returns; this is so for the methods the
    dispatcher answers itself without reading or writing a file, and for
    a tool whose handler does not wait before it replies. *)
Definition httpConfig (h : McpHandlers.t num) : McpHttpServer.Config num :=
  {| McpHttpServer.onMessage := λ request,
       replies (McpHandlers.handleHttpRequest h request) |}.

(** The test under which the HTTP [catch] block throws again. *)
Definition port_related (e : JsError) : bool :=
  orb (String.eqb (err_name e) "PortInUseError")
 (orb (String.eqb (err_name e) "PermissionError")
 (orb (match err_message e with Some m => includes "EADDRINUSE" m | None => false end)
      (match err_message e with Some m => includes "EACCES" m | None => false end))).

(** [getBasePath?.() || process.cwd()] *)
Definition basePath_or_cwd (a : App) (p : Process) : JsError + string :=
  match adapter_getBasePath a with
  | Some (inr b) => inr (if String.eqb b "" then cwd p else b)
  | Some (inl e) => inl e
  | None => inr (cwd p)
  end.

(** The WebSocket half of [start]: [ws_start] is how
    [this.wsServer.start()] settles, with the port the system assigned
    or the error it rejects with.  Everything thrown is caught and
    logged.  A rejection comes after the listener was created, from
    [createLockFile]; it is taken to come from its [mkdirSync], so that
    no lock file path is set and nothing is written: the orchestrator
    then holds a server that listens and has no lock file. *)
Definition start_ws (ws_start : JsError + Z) (p : Process) (fs : FS num) (st : t)
  : option Z * t * Process * FS num :=
  match enableWebSocket (config st) with
  | Some false => (None, st, p, fs)
  | _ =>
      let srv := McpServer.new (wsConfig (handlers st)) in
      match ws_start with
      | inl e =>
          (None, {| config := config st; handlers := handlers st;
                    wsServer := Some (McpServer.create_listener srv);
                    httpServer := httpServer st |}, p, fs)
      | inr assigned =>
          let '(port, srv1, p1, fs1) := McpServer.start path_join assigned p srv fs in
          let st1 := {| config := config st; handlers := handlers st;
                        wsServer := Some srv1; httpServer := httpServer st |} in
          if workspaceManager (config st) then
            match basePath_or_cwd (app (config st)) p1 with
            | inr basePath =>
                match McpServer.updateWorkspaceFolders basePath srv1 fs1 with
                | inr fs2 => (Some port, st1, p1, fs2)
                | inl e => (Some port, st1, p1, fs1)
                end
            | inl e => (Some port, st1, p1, fs1)
            end
          else (Some port, st1, p1, fs1)
      end
  end.

(** [start()]: [http_listen] is how the HTTP listener's [listen] call
    ends. *)
Definition start (ws_start : JsError + Z) (http_listen : McpHttpServer.listen_result)
    (p : Process) (fs : FS num) (st : t)
  : (JsError + StartResult) * t * Process * FS num :=
  let '(ws_port, st1, p1, fs1) := start_ws ws_start p fs st in
  match enableHttp (config st1) with
  | Some false => (inr {| wsPort := ws_port; httpPort := None |}, st1, p1, fs1)
  | _ =>
      let requested :=
        match httpPort_setting (config st1) with
        | Some q => if Z.eqb q 0 then 22360 else q
        | None => 22360
        end in
      let srv := McpHttpServer.new (httpConfig (handlers st1)) in
      let '(r, srv1) := McpHttpServer.start requested http_listen srv in
      let st2 := {| config := config st1; handlers := handlers st1;
                    wsServer := wsServer st1; httpServer := Some srv1 |} in
      match r with
      | inr bound => (inr {| wsPort := ws_port; httpPort := Some bound |}, st2, p1, fs1)
      | inl e =>
          if port_related e then (inl e, st2, p1, fs1)
          else (inr {| wsPort := ws_port; httpPort := None |}, st2, p1, fs1)
      end
  end.

(** [stop()] *)
Definition stop (fs : FS num) (st : t) : t * FS num :=
  let fs1 := match wsServer st with
             | Some srv => snd (McpServer.stop srv fs)
             | None => fs
             end in
  ({| config := config st; handlers := handlers st;
      wsServer := None; httpServer := None |}, fs1).

(** The socket transport is running: the orchestrator holds a server
    whose listener exists. *)
Definition ws_running (st : t) : Prop :=
  ∃ srv, wsServer st = Some srv ∧ is_Some (McpServer.wss srv).

(** The error [registerTools] throws for a pair that does not match. *)
Definition pair_mismatch_error (d : ToolRegistry.ToolDefinition num) : JsError :=
  Error_ ("Tool definition and implementation mismatch for " +:+ ToolRegistry.def_name d).

(** One loop of [registerTools]: definition [i] is paired with
    implementation [i]; a pair goes to the WebSocket registry and, when
    [to_http], to the HTTP registry as well.  The registries are mutated
    as the loop runs, so they are returned also when it throws. *)
Fixpoint register_each (to_http : bool)
    (defs : list (ToolRegistry.ToolDefinition num))
    (impls : list (ToolRegistry.ToolImplementation num))
    (ws_reg http_reg : ToolRegistry.t num)
  : (JsError + unit) * ToolRegistry.t num * ToolRegistry.t num :=
  match defs with
  | [] => (inr (), ws_reg, http_reg)
  | d :: defs' =>
      match impls with
      | [] => (inl (pair_mismatch_error d), ws_reg, http_reg)
      | i :: impls' =>
          if negb (String.eqb (ToolRegistry.def_name d) (ToolRegistry.impl_name i))
          then (inl (pair_mismatch_error d), ws_reg, http_reg)
          else
            match ToolRegistry.register d i ws_reg with
            | (inl e, ws1) => (inl e, ws1, http_reg)
            | (inr _, ws1) =>
                if to_http then
                  match ToolRegistry.register d i http_reg with
                  | (inl e, http1) => (inl e, ws1, http1)
                  | (inr _, http1) => register_each to_http defs' impls' ws1 http1
                  end
                else register_each to_http defs' impls' ws1 http_reg
            end
      end
  end.

(** The arrays [registerTools] reads: the exported definitions and what
    each [createImplementations()] returns. *)
Record ToolSources := mkSources {
  general_definitions : list (ToolRegistry.ToolDefinition num);
  general_implementations : list (ToolRegistry.ToolImplementation num);
  canvas_definitions : list (ToolRegistry.ToolDefinition num);
  canvas_implementations : list (ToolRegistry.ToolImplementation num);
  ide_definitions : list (ToolRegistry.ToolDefinition num);
  ide_implementations : list (ToolRegistry.ToolImplementation num)
}.

(** [registerTools()], on the two fresh registries of the constructor:
    general tools to both, canvas tools to both when there is a workspace
    manager, IDE tools to the WebSocket registry only. *)
Definition registerTools (has_workspaceManager : bool) (src : ToolSources)
  : (JsError + unit) * ToolRegistry.t num * ToolRegistry.t num :=
  match register_each true (general_definitions src) (general_implementations src)
          ToolRegistry.new ToolRegistry.new with
  | (inl e, ws1, http1) => (inl e, ws1, http1)
  | (inr _, ws1, http1) =>
      match (if has_workspaceManager
             then register_each true (canvas_definitions src) (canvas_implementations src)
                    ws1 http1
             else (inr (), ws1, http1)) with
      | (inl e, ws2, http2) => (inl e, ws2, http2)
      | (inr _, ws2, http2) =>
          register_each false (ide_definitions src) (ide_implementations src) ws2 http2
      end
  end.

(** [broadcast(message)]: to the WebSocket clients, then to the SSE
    streams. *)
Definition broadcast (is_open : socket → bool) (destroyed : response → bool)
    (message : McpNotification num) (st : t)
  : list (ws_effect num) * list (McpHttpServer.http_effect num) * t :=
  let ws_out := match wsServer st with
                | Some srv => McpServer.broadcast is_open message srv
                | None => []
                end in
  match httpServer st with
  | Some srv =>
      let '(http_out, srv1) := McpHttpServer.broadcast destroyed message srv in
      (ws_out, http_out,
       {| config := config st; handlers := handlers st;
          wsServer := wsServer st; httpServer := Some srv1 |})
  | None => (ws_out, [], st)
  end.

(** [clientCount] *)
Definition clientCount (st : t) : nat :=
  (match wsServer st with Some srv => McpServer.clientCount srv | None => O end +
   match httpServer st with Some srv => McpHttpServer.clientCount srv | None => O end)%nat.

(** [updateWorkspaceFolders(basePath)] *)
Definition updateWorkspaceFolders (basePath : string) (st : t) (fs : FS num)
  : JsError + FS num :=
  match wsServer st with
  | Some srv => McpServer.updateWorkspaceFolders basePath srv fs
  | None => inr fs
  end.

(** [getToolsByCategory(category, serverType)] *)
Definition getToolsByCategory (category : string) (serverType : McpHandlers.source) (st : t)
  : list (ToolRegistry.Tool num) :=
  ToolRegistry.getToolDefinitions (Some category)
    (McpHandlers.registry_for (handlers st) serverType).
End McpDualServer.
Arguments DualServerConfig : clear implicits.
Arguments t : clear implicits.
End McpDualServer.

(** ** Two of the general tools ([tools/general-tools.ts]) *)

(** The line feed inside message texts. *)
Definition newline : string :=
  String (Ascii false true false true false false false false) EmptyString.

Module GeneralTools.
Import ToolRegistry.

Section GeneralTools.
Context {num : Type} `{JsNumber num}.
Variable app : App.

(** The first two entries of [GENERAL_TOOL_DEFINITIONS]. *)
Definition get_current_file_def : ToolDefinition num :=
  {| def_name := "get_current_file";
     def_description := "Get the currently active file in Obsidian";
     def_category := "workspace";
     def_inputSchema := JObj [("type", JStr "object"); ("properties", JObj [])] |}.

Definition get_workspace_files_def : ToolDefinition num :=
  {| def_name := "get_workspace_files";
     def_description := "List all files in the Obsidian vault";
     def_category := "workspace";
     def_inputSchema :=
       JObj [("type", JStr "object");
             ("properties",
              JObj [("pattern",
                     JObj [("type", JStr "string");
                           ("description", JStr "Optional pattern to filter files")])])] |}.

Definition text_content (text : string) : json num :=
  JObj [("content", JArr [JObj [("type", JStr "text"); ("text", JStr text)]])].

(** The first two entries of [createImplementations()]. *)
Definition get_current_file : ToolImplementation num :=
  {| impl_name := "get_current_file";
     handler := λ args,
       activeFile ← call (workspace_getActiveFile app);
       reply (reply_result
                (text_content
                   (match activeFile with
                    | Some path => "Current file: " +:+ path
                    | None => "No file currently active"
                    end))) |}.

Definition get_workspace_files : ToolImplementation num :=
  {| impl_name := "get_workspace_files";
     handler := λ args,
       let pattern := destructure "pattern" args in
       allFiles ← call (vault_getFiles app);
       filteredFiles ←
         match as_string pattern with
         | Some pat =>
             if String.eqb pat "" then ret allFiles
             else regex ← call (RegExp_ app pat);
                  ret (List.filter regex allFiles)
         | None => ret allFiles
         end;
       reply (reply_result
                (text_content ("Files in vault:" +:+ newline +:+
                               String.concat newline filteredFiles))) |}.
End GeneralTools.
End GeneralTools.

(** ** Concrete inputs for the closed examples *)

Module Examples.
Import ToolRegistry.

Definition vault : App :=
  {| vault_getName := inr "notes";
     adapter_getBasePath := Some (inr "/home/u/notes");
     vault_getFiles := inr ["a.md"; "b.md"];
     workspace_getActiveFile := inr (Some "a.md");
     adapter_read := λ _, inr "text";
     adapter_write := λ _ _, inr ();
     RegExp_ := λ _, inr (λ _, true) |}.

Definition get_current_file_def : ToolDefinition Z := GeneralTools.get_current_file_def.
Definition get_current_file : ToolImplementation Z := GeneralTools.get_current_file vault.
Definition get_workspace_files_def : ToolDefinition Z := GeneralTools.get_workspace_files_def.
Definition get_workspace_files : ToolImplementation Z := GeneralTools.get_workspace_files vault.

(** The registry after the first two general tools are registered. *)
Definition registry : ToolRegistry.t Z :=
  register_all
    [(get_current_file_def, get_current_file);
     (get_workspace_files_def, get_workspace_files)]
    new.

(** A second pair under the name [get_current_file]. *)
Definition get_current_file_def2 : ToolDefinition Z :=
  {| def_name := "get_current_file";
     def_description := "Get the path of the focused note";
     def_category := "general";
     def_inputSchema := JObj [("type", JStr "object"); ("properties", JObj [])] |}.

Definition get_current_file2 : ToolImplementation Z :=
  {| impl_name := "get_current_file";
     handler := λ _, reply (reply_result (GeneralTools.text_content "a.md")) |}.

Definition handlers : McpHandlers.t Z :=
  {| McpHandlers.app := vault;
     McpHandlers.wsToolRegistry := registry;
     McpHandlers.httpToolRegistry := registry |}.

(** [{"jsonrpc":"2.0","id":1,"method":"ping"}] *)
Definition ping_request : McpRequest Z :=
  {| req_id := Some (JNum 1); req_method := Some (JStr "ping"); req_params := None |}.


(** [{"jsonrpc":"2.0","id":7,"method":"tools/call","params":{"name":"no_such_tool"}}] *)
Definition unknown_tool_request : McpRequest Z :=
  {| req_id := Some (JNum 7); req_method := Some (JStr "tools/call");
     req_params := Some (JObj [("name", JStr "no_such_tool")]) |}.

(** [{"id":7,"method":"tools/call","params":{"name":{"toString":0}}}],
    as a frame and as the request parsed from it. *)
Definition unprintable_tool_frame : string :=
  "{" +:+ quoted "id" +:+ ":7," +:+ quoted "method" +:+ ":" +:+ quoted "tools/call" +:+ "," +:+
  quoted "params" +:+ ":{" +:+ quoted "name" +:+ ":{" +:+ quoted "toString" +:+ ":0}}}".

Definition unprintable_tool_request : McpRequest Z :=
  {| req_id := Some (JNum 7); req_method := Some (JStr "tools/call");
     req_params := Some (JObj [("name", JObj [("toString", JNum 0)])]) |}.

(** A process with the configuration directory overridden. *)
Definition process : Process :=
  {| env := {[ "CLAUDE_CONFIG_DIR" := "/custom"; "HOME" := "/home/u" ]};
     homedir := "/home/u"; platform := "linux"; pid := 4242; cwd := "/home/u" |}.

Definition empty_fs : FS Z := {| dirs := ∅; files := ∅ |}.

Definition dual_config : McpDualServer.DualServerConfig :=
  {| McpDualServer.app := vault;
     McpDualServer.workspaceManager := true;
     McpDualServer.wsPort_setting := None;
     McpDualServer.httpPort_setting := Some 22360;
     McpDualServer.enableWebSocket := None;
     McpDualServer.enableHttp := None |}.

(** The orchestrator as its constructor leaves it. *)
Definition dual : McpDualServer.t Z :=
  {| McpDualServer.config := dual_config;
     McpDualServer.handlers := handlers;
     McpDualServer.wsServer := None;
     McpDualServer.httpServer := None |}.

Definition http_server : McpHttpServer.t Z :=
  McpHttpServer.new (McpDualServer.httpConfig handlers).

Definition never_destroyed : response → bool := λ _, false.

(** The server after a client opened session [s1] on response 1. *)
Definition http_open : McpHttpServer.t Z :=
  snd (McpHttpServer.handleSSEConnection never_destroyed (Some "text/event-stream")
         None "s1" 1700000000000 1%nat http_server).

Definition stream_s1 : McpHttpServer.SSEStream :=
  {| McpHttpServer.stream_response := 1%nat; McpHttpServer.sessionId := "s1";
     McpHttpServer.lastEventId := None |}.

(** ... and after that client disconnected. *)
Definition http_closed : McpHttpServer.t Z :=
  snd (McpHttpServer.on_close stream_s1 http_open).

(** [[{"id":1,"method":"ping"},{"method":"notifications/initialized"}]] *)
Definition mixed_body : string :=
  "[{" +:+ quoted "id" +:+ ":1," +:+ quoted "method" +:+ ":" +:+ quoted "ping" +:+ "},{" +:+
  quoted "method" +:+ ":" +:+ quoted "notifications/initialized" +:+ "}]".

(** [[{"method":"notifications/initialized"}]] *)
Definition notification_body : string :=
  "[{" +:+ quoted "method" +:+ ":" +:+ quoted "notifications/initialized" +:+ "}]".

Definition initialized_notification : McpRequest Z :=
  {| req_id := None; req_method := Some (JStr "notifications/initialized");
     req_params := None |}.

Definition ws_server : McpServer.t Z :=
  McpServer.new (McpDualServer.wsConfig handlers).
End Examples.

(** ** One of the IDE tools ([ide/ide-tools.ts]) *)

Module IdeTools.
Import ToolRegistry.

Section IdeTools.
Context {num : Type} `{JsNumber num}.

(** The third entry of [IDE_TOOL_DEFINITIONS]. *)
Definition closeAllDiffTabs_def : ToolDefinition num :=
  {| def_name := "closeAllDiffTabs";
     def_description :=
       "Close all diff tabs (stub implementation for Obsidian compatibility)";
     def_category := "ide-specific";
     def_inputSchema := JObj [("type", JStr "object"); ("properties", JObj [])] |}.

(** The third entry of [IdeTools.createImplementations()]. *)
Definition closeAllDiffTabs : ToolImplementation num :=
  {| impl_name := "closeAllDiffTabs";
     handler := λ args,
       reply (reply_result
                (GeneralTools.text_content "All diff tabs closed successfully")) |}.
End IdeTools.
End IdeTools.

(** ** More concrete inputs *)

Module MoreExamples.
Import Examples.

(** The arrays of [registerTools], cut down to three tools. *)
Definition tool_sources : McpDualServer.ToolSources :=
  {| McpDualServer.general_definitions := [get_current_file_def; get_workspace_files_def];
     McpDualServer.general_implementations := [get_current_file; get_workspace_files];
     McpDualServer.canvas_definitions := [];
     McpDualServer.canvas_implementations := [];
     McpDualServer.ide_definitions := [IdeTools.closeAllDiffTabs_def];
     McpDualServer.ide_implementations := [IdeTools.closeAllDiffTabs] |}.

(** The same with the second general implementation missing. *)
Definition short_sources : McpDualServer.ToolSources :=
  {| McpDualServer.general_definitions := [get_current_file_def; get_workspace_files_def];
     McpDualServer.general_implementations := [get_current_file];
     McpDualServer.canvas_definitions := [];
     McpDualServer.canvas_implementations := [];
     McpDualServer.ide_definitions := [IdeTools.closeAllDiffTabs_def];
     McpDualServer.ide_implementations := [IdeTools.closeAllDiffTabs] |}.

Definition ws_registry : ToolRegistry.t Z :=
  (McpDualServer.registerTools true tool_sources).1.2.

Definition http_registry : ToolRegistry.t Z :=
  (McpDualServer.registerTools true tool_sources).2.

(** [{"id":8,"method":"tools/call","params":{"name":"closeAllDiffTabs"}}] *)
Definition close_tabs_request : McpRequest Z :=
  {| req_id := Some (JNum 8); req_method := Some (JStr "tools/call");
     req_params := Some (JObj [("name", JStr "closeAllDiffTabs")]) |}.

(** [{"id":9,"method":"tools/call","params":{"name":"get_current_file","arguments":{}}}] *)
Definition current_file_request : McpRequest Z :=
  {| req_id := Some (JNum 9); req_method := Some (JStr "tools/call");
     req_params := Some (JObj [("name", JStr "get_current_file"); ("arguments", JObj [])]) |}.

(** [{"id":10,"method":"readFile","params":{"path":"../secret.md","content":"x"}}] *)
Definition traversal_request : McpRequest Z :=
  {| req_id := Some (JNum 10); req_method := Some (JStr "readFile");
     req_params := Some (JObj [("path", JStr "../secret.md"); ("content", JStr "x")]) |}.

(** [{"id":12,"method":"writeFile","params":{"path":"../secret.md","content":7}}] *)
Definition traversal_number_request : McpRequest Z :=
  {| req_id := Some (JNum 12); req_method := Some (JStr "writeFile");
     req_params := Some (JObj [("path", JStr "../secret.md"); ("content", JNum 7)]) |}.

(** [{"id":13,"method":"listFiles","params":{"pattern":"a"}}] *)
Definition list_files_request : McpRequest Z :=
  {| req_id := Some (JNum 13); req_method := Some (JStr "listFiles");
     req_params := Some (JObj [("pattern", JStr "a")]) |}.

(** A vault whose patterns match the paths that start with [a]. *)
Definition vault_a : App :=
  {| vault_getName := inr "notes";
     adapter_getBasePath := Some (inr "/home/u/notes");
     vault_getFiles := inr ["a.md"; "b.md"];
     workspace_getActiveFile := inr (Some "a.md");
     adapter_read := λ _, inr "text";
     adapter_write := λ _ _, inr ();
     RegExp_ := λ _, inr (String.prefix "a") |}.

(** The categories the definitions of the repository carry. *)
Definition categories : list string :=
  ["general"; "ide-specific"; "file"; "workspace"; "canvas"].

(** [{"id":11,"method":"shutdown"}] *)
Definition shutdown_request : McpRequest Z :=
  {| req_id := Some (JNum 11); req_method := Some (JStr "shutdown"); req_params := None |}.

(** A process without the override, and a disk with the legacy directory
    only. *)
Definition plain_process : Process :=
  {| env := {[ "HOME" := "/home/u" ]};
     homedir := "/home/u"; platform := "linux"; pid := 4242; cwd := "/home/u" |}.

Definition legacy_fs : FS Z := {| dirs := {[ "/home/u/.claude" ]}; files := ∅ |}.

(** A POST to [/messages] for session [s1]. *)
Definition post_messages : McpHttpServer.IncomingMessage :=
  {| McpHttpServer.http_method := "POST";
     McpHttpServer.pathname := "/messages";
     McpHttpServer.query_session_id := Some "s1";
     McpHttpServer.header_accept := None;
     McpHttpServer.header_last_event_id := None;
     McpHttpServer.request_body := notification_body |}.

(** [{"jsonrpc":"2.0","method":"selection_changed"}] *)
Definition selection_changed : McpNotification Z :=
  {| note_method := "selection_changed"; note_params := None |}.

(** [[{"id":1,"method":"ping"}]] *)
Definition ping_body : string :=
  "[{" +:+ quoted "id" +:+ ":1," +:+ quoted "method" +:+ ":" +:+ quoted "ping" +:+ "}]".
End MoreExamples.

(** * Properties *)

(** ** Printed numbers *)

Lemma pretty_N_go_nonempty (x : N) (s : string) : s ≠ "" → pretty_N_go x s ≠ "".
Proof.
  revert s. induction (N.lt_wf_0 x) as [x _ IH]; intros s Hs.
  destruct (decide (x = 0%N)) as [->|Hx]; [by rewrite pretty_N_go_0|].
  rewrite pretty_N_go_step by lia.
  apply IH; [apply N.div_lt; lia|done].
Qed.

(** A printed integer has at least one character, so an event id made of
    one is always written. *)
Lemma pretty_Z_nonempty (z : Z) : pretty z ≠ "".
Proof.
  assert (∀ p : positive, pretty p ≠ "") as Hpos.
  { intros p. unfold pretty, pretty_positive, pretty, pretty_N.
    case_decide; [done|].
    rewrite pretty_N_go_step by lia. by apply pretty_N_go_nonempty. }
  destruct z as [|p|p]; unfold pretty, pretty_Z; [done|apply Hpos|].
  specialize (Hpos p). by destruct (pretty p).
Qed.

(** ** The insertion-ordered map *)

Section JsMapFacts.
Context {V : Type}.
Implicit Types (m : JsMap.t V) (k : string) (v : V).

Lemma JsMap_set_set k v1 v2 m :
  JsMap.set k v2 (JsMap.set k v1 m) = JsMap.set k v2 m.
Proof.
  induction m as [|[k' v'] m IH]; simpl.
  - by rewrite String.eqb_refl.
  - destruct (String.eqb k k') eqn:E; simpl; rewrite E; [done|by rewrite IH].
Qed.

Lemma JsMap_get_set k v m : JsMap.get k (JsMap.set k v m) = Some v.
Proof.
  induction m as [|[k' v'] m IH]; simpl.
  - by rewrite String.eqb_refl.
  - destruct (String.eqb k k') eqn:E; simpl; rewrite E; [done|exact IH].
Qed.

Lemma JsMap_get_set_ne k k' v m :
  k ≠ k' → JsMap.get k' (JsMap.set k v m) = JsMap.get k' m.
Proof.
  intros Hne. induction m as [|[k0 v0] m IH]; simpl.
  - destruct (String.eqb_spec k' k); [congruence|done].
  - destruct (String.eqb_spec k k0) as [->|]; simpl.
    + destruct (String.eqb_spec k' k0); [congruence|done].
    + by rewrite IH.
Qed.

(** Setting a key never repeats it: it is added only when absent. *)
Lemma JsMap_keys_set k v m :
  JsMap.keys (JsMap.set k v m) =
  if JsMap.has k m then JsMap.keys m else JsMap.keys m ++ [k].
Proof.
  unfold JsMap.has, JsMap.keys. induction m as [|[k' v'] m IH]; simpl; [done|].
  destruct (String.eqb k k') eqn:E; simpl; [done|].
  rewrite IH. by destruct (JsMap.get k m).
Qed.

Lemma JsMap_get_None_keys k m : JsMap.get k m = None → k ∉ JsMap.keys m.
Proof.
  induction m as [|[k' v'] m IH]; simpl; [intros _; apply not_elem_of_nil|].
  destruct (String.eqb_spec k k') as [->|Hne]; [done|].
  intros Hm. apply not_elem_of_cons. split; [done|by apply IH].
Qed.

Lemma JsMap_NoDup_set k v m :
  NoDup (JsMap.keys m) → NoDup (JsMap.keys (JsMap.set k v m)).
Proof.
  intros Hnd. rewrite JsMap_keys_set. unfold JsMap.has.
  destruct (JsMap.get k m) eqn:E; [done|].
  apply NoDup_app. split_and!; [done| |apply NoDup_singleton].
  intros x Hx Hk. apply list_elem_of_singleton in Hk as ->.
  by apply (JsMap_get_None_keys _ _ E).
Qed.
End JsMapFacts.

(** ** The tool registry *)

Section ToolRegistryFacts.
Context {num : Type} `{JsNumber num}.
Import ToolRegistry.
Implicit Types (d : ToolDefinition num) (i : ToolImplementation num) (reg : ToolRegistry.t num).

Lemma register_matching d i reg :
  def_name d = impl_name i →
  register d i reg =
  (inr (), {| tools := JsMap.set (def_name d) (mkEntry d i) (tools reg) |}).
Proof. intros Heq. unfold register. by rewrite Heq, String.eqb_refl. Qed.

(** C7.  Registering a definition and an implementation whose names
    differ throws, and the registry after the call is the registry
    before it: the pair is never in the tool table. *)
Theorem register_mismatch_throws d i reg :
  def_name d ≠ impl_name i →
  register d i reg = (inl (mismatch_error d i), reg).
Proof.
  intros Hne. unfold register.
  by destruct (String.eqb_spec (def_name d) (impl_name i)).
Qed.

(** A name that is not the name of a registered tool is not found,
    whatever its type. *)
Lemma lookup_tool_unregistered reg (nm : option (json num)) :
  (∀ s, nm = Some (JStr s) → JsMap.get s (tools reg) = None) → lookup_tool nm reg = None.
Proof. intros Hunreg. unfold lookup_tool. destruct nm as [[]|]; auto. Qed.

(** C8, what the code does.  A [tools/call] whose [params.name] is not
    the name of a registered tool and can be printed (a string, a
    number, a boolean, [null], a missing name, an object without a
    [toString] property of its own, an array of such values) is answered
    once, with a result and no error object; the result's content is one
    text entry saying that the tool is not registered.  A name that
    cannot be printed makes the log line throw before [reply] is called:
    the call throws the [TypeError] and nothing is replied. *)
Theorem handleToolCall_unregistered reg (req : McpRequest num) :
  (∀ s, destructure "name" (req_params req) = Some (JStr s) →
        JsMap.get s (tools reg) = None) →
  handleToolCall reg req =
  match to_string_opt (destructure "name" (req_params req)) with
  | Some text =>
      mkEff [EvReply
               {| result :=
                    Some (JObj [("content",
                                 JArr [JObj [("type", JStr "text");
                                             ("text",
                                              JStr ("Tool '" +:+ text +:+
                                                    "' is not registered"))]])]);
                  error := None |}]
            (inr ())
  | None => mkEff [] (inl to_primitive_error)
  end.
Proof.
  intros Hunreg. unfold handleToolCall.
  rewrite (lookup_tool_unregistered reg _ Hunreg).
  unfold console_log, template.
  by destruct (to_string_opt (destructure "name" (req_params req))).
Qed.

Lemma register_all_NoDup calls reg :
  NoDup (getRegisteredToolNames reg) →
  NoDup (getRegisteredToolNames (register_all calls reg)).
Proof.
  revert reg. induction calls as [|[d i] calls IH]; intros reg Hnd; [done|].
  simpl. apply IH. unfold register.
  destruct (negb _); simpl; [done|]. by apply JsMap_NoDup_set.
Qed.

(** C10.  Registering a second pair under a name already registered
    succeeds and replaces the first: after [register(d1, i1)] and
    [register(d2, i2)] with the same name, the registry is what
    [register(d2, i2)] alone leaves, and the name resolves to the second
    pair.  The names of a registry built by any sequence of [register]
    calls are free of duplicates. *)
Theorem register_last_write_wins d1 i1 d2 i2 reg :
  def_name d1 = impl_name i1 →
  def_name d2 = impl_name i2 →
  def_name d1 = def_name d2 →
  let after1 := register d1 i1 reg in
  let after2 := register d2 i2 (snd after1) in
  fst after1 = inr () ∧
  fst after2 = inr () ∧
  snd after2 = snd (register d2 i2 reg) ∧
  JsMap.get (def_name d2) (tools (snd after2)) = Some (mkEntry d2 i2) ∧
  ∀ calls : list (ToolDefinition num * ToolImplementation num),
    NoDup (getRegisteredToolNames (register_all calls new)).
Proof.
  intros H1 H2 H12. simpl.
  rewrite (register_matching d1 i1 reg H1). simpl.
  rewrite !(register_matching d2 i2 _ H2). simpl.
  rewrite H12, JsMap_set_set, JsMap_get_set.
  split_and!; try done.
  intros calls. apply register_all_NoDup. apply NoDup_nil_2.
Qed.
End ToolRegistryFacts.

(** ** The dispatcher *)

Section EffFacts.
Context {num : Type}.
Import McpHandlers.
Implicit Types (m : Eff (event num) unit).

Lemma replies_app {A} (t1 t2 : list (event num)) (o : JsError + A) :
  replies (mkEff (t1 ++ t2) o) = replies (mkEff t1 o) ++ replies (mkEff t2 o).
Proof. unfold replies; simpl. apply omap_app. Qed.






End EffFacts.

Section DispatcherFacts.
Context {num : Type} `{JsNumber num}.
Import McpHandlers.
Implicit Types (h : McpHandlers.t num) (req : McpRequest num) (src : source).









(** Printing a value that can be printed does nothing else. *)
Lemma console_log_printable {E A} (v : option (json num)) (m : Eff E A) :
  is_Some (to_string_opt v) → (console_log v;; m) = m.
Proof.
  intros [text Htext]. unfold console_log, template. rewrite Htext.
  by destruct m.
Qed.

(** Printing a value that cannot be printed throws, and what follows
    is not run. *)
Lemma console_log_unprintable {E A} (v : option (json num)) (m : Eff E A) :
  to_string_opt v = None → (console_log v;; m) = mkEff [] (inl to_primitive_error).
Proof. intros Hnone. unfold console_log, template. by rewrite Hnone. Qed.


(** Only a string finds a tool. *)
Lemma lookup_tool_Some (reg : ToolRegistry.t num) nm tool :
  ToolRegistry.lookup_tool nm reg = Some tool →
  ∃ s, nm = Some (JStr s) ∧ JsMap.get s (ToolRegistry.tools reg) = Some tool.
Proof. unfold ToolRegistry.lookup_tool. destruct nm as [[]|]; try done. eauto. Qed.



End DispatcherFacts.

Section DispatcherTheorems.
Context {num : Type} `{JsNumber num}.
Import McpHandlers.
Implicit Types (h : McpHandlers.t num) (req : McpRequest num) (src : source).


(** A request that is no IDE notification goes to the [switch]. *)
Lemma handleRequestGeneric_dispatch h req src :
  IdeHandler.isIdeMethod (req_method req) = false →
  handleRequestGeneric h req src = dispatch h req src.
Proof.
  intros Hide. unfold handleRequestGeneric. rewrite Hide.
  by destruct (dispatch h req src).
Qed.

End DispatcherTheorems.

(** ** The orchestrator *)

Section DualServerFacts.
Context {num : Type} `{JsNumber num}.
Import McpDualServer.
Variable path_join : list string → string.

Lemma port_related_EADDRINUSE host taken :
  port_related (EADDRINUSE_error host taken) = true.
Proof. reflexivity. Qed.

(** What the socket half of [start] leaves behind when its listener is
    bound: the server [McpServer.start] returns, the lock file with the
    record of this process, its workspace folders filled in or not, and
    the port in the environment. *)
Lemma start_ws_started (st : McpDualServer.t num) p fs assigned :
  enableWebSocket (config st) ≠ Some false →
  let half := start_ws path_join (inr assigned) p fs st in
  let lock := path_join [path_join [McpServer.home_or_profile p; ".claude"; "ide"];
                         pretty assigned +:+ ".lock"] in
  config half.1.1.2 = config st ∧
  handlers half.1.1.2 = handlers st ∧
  wsServer half.1.1.2 =
    Some (McpServer.start path_join assigned p
            (McpServer.new (wsConfig (handlers st))) fs).1.1.2 ∧
  (∃ folders,
     files half.2 !! lock =
     Some (JObj [("pid", JNum (num_of_Z (pid p)));
                 ("workspaceFolders", JArr folders);
                 ("ideName", JStr "Obsidian");
                 ("transport", JStr "ws")])) ∧
  env half.1.2 !! "CLAUDE_CODE_SSE_PORT" = Some (pretty assigned).
Proof.
  intros Hws. simpl.
  set (lock := path_join [path_join [McpServer.home_or_profile p; ".claude"; "ide"];
                          pretty assigned +:+ ".lock"]).
  assert (∀ q : Process,
            env (setenv "ENABLE_IDE_INTEGRATION" "true"
                   (setenv "CLAUDE_CODE_SSE_PORT" (pretty assigned) q))
              !! "CLAUDE_CODE_SSE_PORT" = Some (pretty assigned)) as Henv.
  { intros q. simpl. rewrite lookup_insert_ne by done. apply lookup_insert_eq. }
  unfold start_ws, McpServer.start, McpServer.createLockFile. fold lock.
  assert (∀ (cond : bool) (basePath : string),
            ∃ folders,
              files (if cond
                     then writeFileSync lock
                            (JObj [("pid", JNum (num_of_Z (pid p)));
                                   ("workspaceFolders", JArr [JStr basePath]);
                                   ("ideName", JStr "Obsidian");
                                   ("transport", JStr "ws")])
                            (writeFileSync lock (McpServer.lockFileContent p)
                               (mkdirSync_recursive
                                  (path_join [McpServer.home_or_profile p; ".claude"; "ide"])
                                  fs))
                     else writeFileSync lock (McpServer.lockFileContent p)
                            (mkdirSync_recursive
                               (path_join [McpServer.home_or_profile p; ".claude"; "ide"])
                               fs)) !! lock =
              Some (JObj [("pid", JNum (num_of_Z (pid p)));
                          ("workspaceFolders", JArr folders);
                          ("ideName", JStr "Obsidian");
                          ("transport", JStr "ws")])) as Hfile.
  { intros [] basePath; [exists [JStr basePath]|exists (@nil (json num))];
      apply lookup_insert_eq. }
  destruct (enableWebSocket (config st)) as [[]|]; [|done|];
    (destruct (workspaceManager (config st)); simpl;
     [|split_and!; [done..|exact (Hfile false "")|apply Henv]];
     destruct (basePath_or_cwd _ _) as [e|basePath]; simpl;
     [split_and!; [done..|exact (Hfile false "")|apply Henv]|];
     unfold McpServer.updateWorkspaceFolders; simpl;
     destruct (String.eqb lock ""); simpl;
     [split_and!; [done..|exact (Hfile false "")|apply Henv]|];
     unfold existsSync; simpl; rewrite lookup_insert_eq;
     rewrite (bool_decide_eq_true_2 (is_Some (Some _))) by eauto;
     rewrite orb_true_r; simpl;
     split_and!; [done..|exact (Hfile true basePath)|apply Henv]).
Qed.

(** C2, as the code has it.  When the socket listener is bound and the
    HTTP listener finds its port in use, [start] does not return the
    partial result: it throws the port-in-use error again for the plugin
    to report.  Nothing stops the socket transport: the orchestrator
    still holds the server as its own [start] left it, listening, with
    its lock file on disk under the path it recorded and its port in the
    environment. *)
Theorem start_rethrows_port_in_use (st : McpDualServer.t num) p fs assigned host taken :
  enableWebSocket (config st) ≠ Some false →
  enableHttp (config st) ≠ Some false →
  let after := start path_join (inr assigned)
                 (McpHttpServer.ListenError (EADDRINUSE_error host taken)) p fs st in
  after.1.1.1 = inl (EADDRINUSE_error host taken) ∧
  ∃ srv, wsServer after.1.1.2 = Some srv ∧
         McpServer.wss srv = Some McpServer.start_options ∧
         srv = (McpServer.start path_join assigned p
                  (McpServer.new (wsConfig (handlers st))) fs).1.1.2 ∧
         McpServer.lockFilePath srv =
           path_join [path_join [McpServer.home_or_profile p; ".claude"; "ide"];
                      pretty assigned +:+ ".lock"] ∧
         (∃ folders,
            files after.2 !! McpServer.lockFilePath srv =
            Some (JObj [("pid", JNum (num_of_Z (pid p)));
                        ("workspaceFolders", JArr folders);
                        ("ideName", JStr "Obsidian");
                        ("transport", JStr "ws")])) ∧
         env after.1.2 !! "CLAUDE_CODE_SSE_PORT" = Some (pretty assigned).
Proof.
  intros Hws Hhttp. simpl.
  pose proof (start_ws_started st p fs assigned Hws) as (Hcfg & _ & Hsrv & Hfile & Henv).
  unfold start.
  destruct (start_ws path_join (inr assigned) p fs st) as [[[ws_port st1] p1] fs1].
  simpl in Hcfg, Hsrv, Hfile, Henv. rewrite Hcfg.
  destruct (enableHttp (config st)) as [[]|]; [|done|]; simpl;
    (split; [done|]; eexists; split; [exact Hsrv|]; by split_and!).
Qed.
End DualServerFacts.

(** ** The streaming-HTTP transport *)

Section HttpServerFacts.
Context {num : Type} `{JsNumber num}.
Import McpHttpServer.
Variable JSON_parse : string → option (json num).
Implicit Types (st : McpHttpServer.t num) (stream : SSEStream).

(** Closing a stream removes its session from the table at once. *)
Lemma on_close_forgets_session stream st :
  sessions (on_close stream st).2 !! sessionId stream = None.
Proof. simpl. apply lookup_delete_eq. Qed.

(** C3, as the code has it.  A POST whose [session_id] is not in the
    session table is answered 404 and changes nothing in the server.  A
    session that has closed is no longer in the table, so its id is
    answered 404 like an id that never existed. *)
Theorem handleMessages_absent_session_404 destroyed sid body res st st' :
  (sessions st !! sid = None ∨
   ∃ stream st0, sessionId stream = sid ∧ st = (on_close stream st0).2) →
  handleMessages JSON_parse destroyed (Some sid) body res st st' =
  (mkEff [WriteHead res 404;
          End_ res (Some (JObj [("error", JStr "Session not found")]))] (inr ()),
   st).
Proof.
  intros Habsent.
  assert (sessions st !! sid = None) as Hnone.
  { destruct Habsent as [?|(stream & st0 & <- & ->)]; [done|].
    apply on_close_forgets_session. }
  unfold handleMessages. rewrite Hnone.
  by destruct (String.eqb sid "").
Qed.

(** In a body without requests every envelope with a truthy method is
    handed to [onMessage], and nothing is written to any stream. *)
Lemma notify_all_dispatches (messages : list (json num)) reqs :
  Forall2 (λ m r, as_request m = Some r) messages reqs →
  notify_all messages =
  mkEff (List.map OnMessage (List.filter (λ r, truthy_opt (req_method r)) reqs)) (inr ()).
Proof.
  induction 1 as [|m r messages reqs Hr _ IH]; [done|].
  simpl. rewrite Hr, IH. by destruct (truthy_opt (req_method r)).
Qed.
End HttpServerFacts.

(** ** The socket transport and the lock file *)

Section SocketServerFacts.
Context {num : Type} `{JsNumber num}.
Import McpServer.
Variable path_join : list string → string.
Variable JSON_parse : string → option (json num).
Implicit Types (st : McpServer.t num).

(** C9.  A frame that is not valid JSON changes nothing: the server,
    with its connected clients, is as before, and nothing is done to any
    socket, neither a write nor a close. *)
Theorem handleMessage_invalid_json sock raw st :
  JSON_parse raw = None →
  handleMessage JSON_parse sock raw st = (st, []).
Proof. intros Hbad. unfold handleMessage. by rewrite Hbad. Qed.

(** C6, what the code does.  The listener [start] creates asks for port
    0 and names no host, so it is not confined to loopback; the HTTP
    listener names [127.0.0.1] and is. *)
Theorem start_listens_on_every_interface port p st (fs : FS num) :
  wss (start path_join port p st fs).1.1.2 =
    Some {| listen_port := 0; listen_host := None |} ∧
  loopback_only start_options = false ∧
  ∀ q, loopback_only (McpHttpServer.listen_options q) = true.
Proof. done. Qed.

(** The lock file goes under the home directory whatever the
    configuration directory is. *)
Lemma createLockFile_path port p st (fs : FS num) :
  lockFilePath (createLockFile path_join port p st fs).1 =
  path_join [path_join [home_or_profile p; ".claude"; "ide"]; pretty port +:+ ".lock"].
Proof. done. Qed.
End SocketServerFacts.

(** ** The configuration directory *)

Section ClaudeConfigFacts.
Context {num : Type}.
Import ClaudeConfig.
Variable path_join : list string → string.

Lemma getClaudeConfigDir_override p (fs : FS num) dir :
  env_truthy p "CLAUDE_CONFIG_DIR" = Some dir →
  getClaudeConfigDir path_join p fs = dir.
Proof. intros Hdir. unfold getClaudeConfigDir. by rewrite Hdir. Qed.

(** Without the override, off Windows: the modern directory if it
    exists, else the legacy one if it exists, else the modern one. *)
Lemma getClaudeConfigDir_unix p (fs : FS num) :
  env_truthy p "CLAUDE_CONFIG_DIR" = None →
  platform p ≠ "win32" →
  let xdg := default (path_join [homedir p; ".config"]) (env_truthy p "XDG_CONFIG_HOME") in
  let modern := path_join [xdg; "claude"] in
  let legacy := path_join [homedir p; ".claude"] in
  getClaudeConfigDir path_join p fs =
  if existsSync modern fs then modern
  else if existsSync legacy fs then legacy else modern.
Proof.
  intros Hno Hunix. unfold getClaudeConfigDir. rewrite Hno.
  destruct (String.eqb_spec (platform p) "win32"); [done|].
  by destruct (env_truthy p "XDG_CONFIG_HOME").
Qed.
End ClaudeConfigFacts.

(** * Closed examples *)

Section ClosedExamples.
Import Examples.

(** ** The tool registry *)

Lemma register_mismatch_throws_witness :
  ToolRegistry.def_name get_current_file_def ≠ ToolRegistry.impl_name get_workspace_files ∧
  ToolRegistry.register get_current_file_def get_workspace_files registry =
  (inl (Error_ ("Tool definition name " +:+ quoted "get_current_file" +:+
                " doesn't match implementation name " +:+ quoted "get_workspace_files")),
   registry).
Proof.
  assert (ToolRegistry.def_name get_current_file_def ≠
          ToolRegistry.impl_name get_workspace_files) as Hne
    by (simpl; discriminate).
  split; [exact Hne|].
  exact (register_mismatch_throws get_current_file_def get_workspace_files registry Hne).
Defined.

(** The name [{"toString":0}] is not the name of a registered tool, and
    the call throws without a reply: the frame that carries it gets no
    response on the socket.  The string name [no_such_tool] gets the
    reply. *)
Lemma handleToolCall_unregistered_witness :
  (∀ s, destructure "name" (req_params unprintable_tool_request) = Some (JStr s) →
        JsMap.get s (ToolRegistry.tools registry) = None) ∧
  ToolRegistry.handleToolCall registry unprintable_tool_request =
    mkEff [] (inl to_primitive_error) ∧
  JsonReader.parse unprintable_tool_frame =
    Some (JObj [("id", JNum 7); ("method", JStr "tools/call");
                ("params", JObj [("name", JObj [("toString", JNum 0)])])]) ∧
  McpServer.handleMessage JsonReader.parse 3%nat unprintable_tool_frame
    (McpServer.on_connection 3%nat ws_server).1 =
    ((McpServer.on_connection 3%nat ws_server).1, []) ∧
  replies (ToolRegistry.handleToolCall registry unknown_tool_request) =
  [reply_result
     (JObj [("content",
             JArr [JObj [("type", JStr "text");
                         ("text", JStr "Tool 'no_such_tool' is not registered")]])])].
Proof.
  assert (∀ s, destructure "name" (req_params unprintable_tool_request) = Some (JStr s) →
               JsMap.get s (ToolRegistry.tools registry) = None) as Hunreg.
  { intros s Hs. discriminate Hs. }
  split; [exact Hunreg|]. split.
  { rewrite (handleToolCall_unregistered registry unprintable_tool_request Hunreg).
    reflexivity. }
  split; [reflexivity|]. split; reflexivity.
Defined.

Lemma register_last_write_wins_witness :
  ToolRegistry.def_name get_current_file_def = ToolRegistry.impl_name get_current_file ∧
  ToolRegistry.def_name get_current_file_def2 = ToolRegistry.impl_name get_current_file2 ∧
  ToolRegistry.def_name get_current_file_def = ToolRegistry.def_name get_current_file_def2 ∧
  (ToolRegistry.register get_current_file_def2 get_current_file2
     (ToolRegistry.register get_current_file_def get_current_file registry).2).2 =
  (ToolRegistry.register get_current_file_def2 get_current_file2 registry).2 ∧
  ToolRegistry.getRegisteredToolNames
    (ToolRegistry.register get_current_file_def2 get_current_file2 registry).2 =
  ["get_current_file"; "get_workspace_files"].
Proof.
  split_and!; [reflexivity..| |reflexivity].
  exact (proj1 (proj2 (proj2
    (register_last_write_wins get_current_file_def get_current_file
       get_current_file_def2 get_current_file2 registry eq_refl eq_refl eq_refl)))).
Defined.

(** ** The dispatcher *)



(** ** The orchestrator *)

Lemma start_rethrows_port_in_use_witness :
  McpDualServer.enableWebSocket (McpDualServer.config dual) ≠ Some false ∧
  McpDualServer.enableHttp (McpDualServer.config dual) ≠ Some false ∧
  (McpDualServer.start posix_join (inr 51234)
     (McpHttpServer.ListenError (EADDRINUSE_error "127.0.0.1" 22360))
     process empty_fs dual).1.1.1 =
  inl (EADDRINUSE_error "127.0.0.1" 22360) ∧
  ∃ folders,
    files (McpDualServer.start posix_join (inr 51234)
             (McpHttpServer.ListenError (EADDRINUSE_error "127.0.0.1" 22360))
             process empty_fs dual).2
      !! "/home/u/.claude/ide/51234.lock" =
    Some (JObj [("pid", JNum 4242); ("workspaceFolders", JArr folders);
                ("ideName", JStr "Obsidian"); ("transport", JStr "ws")]).
Proof.
  assert (McpDualServer.enableWebSocket (McpDualServer.config dual) ≠ Some false) as Hws
    by (simpl; discriminate).
  assert (McpDualServer.enableHttp (McpDualServer.config dual) ≠ Some false) as Hhttp
    by (simpl; discriminate).
  split; [exact Hws|]. split; [exact Hhttp|].
  destruct (start_rethrows_port_in_use posix_join dual process empty_fs 51234
              "127.0.0.1" 22360 Hws Hhttp)
    as (Hthrow & srv & _ & _ & _ & Hpath & Hfile & _).
  split; [exact Hthrow|].
  assert (McpServer.lockFilePath srv = "/home/u/.claude/ide/51234.lock") as Hlock
    by (rewrite Hpath; vm_compute; reflexivity).
  rewrite Hlock in Hfile. exact Hfile.
Defined.

(** C2 fails as stated: with the socket listener bound to 51234 and port
    22360 taken, [start] does not return [{wsPort: 51234, httpPort:
    undefined}]; it throws. *)
Lemma start_port_in_use_no_partial_result :
  (McpDualServer.start posix_join (inr 51234)
     (McpHttpServer.ListenError (EADDRINUSE_error "127.0.0.1" 22360))
     process empty_fs dual).1.1.1 ≠
  inr {| McpDualServer.wsPort := Some 51234; McpDualServer.httpPort := None |}.
Proof. vm_compute. discriminate. Qed.

(** ** The streaming-HTTP transport *)

Lemma handleMessages_absent_session_404_witness :
  (McpHttpServer.sessions http_closed !! "s1" = None ∨
   ∃ stream st0, McpHttpServer.sessionId stream = "s1" ∧
                 http_closed = (McpHttpServer.on_close stream st0).2) ∧
  McpHttpServer.status_of 2%nat
    (trace (McpHttpServer.handleMessages JsonReader.parse never_destroyed (Some "s1")
              mixed_body 2%nat http_closed http_closed).1) = Some 404.
Proof.
  assert (McpHttpServer.sessions http_closed !! "s1" = None ∨
          ∃ stream st0, McpHttpServer.sessionId stream = "s1" ∧
                        http_closed = (McpHttpServer.on_close stream st0).2) as Habsent.
  { right. exists stream_s1, http_open. split; reflexivity. }
  split; [exact Habsent|].
  rewrite (handleMessages_absent_session_404 JsonReader.parse never_destroyed "s1"
             mixed_body 2%nat http_closed http_closed Habsent).
  reflexivity.
Defined.

(** C3 fails as stated: session [s1] existed and has closed, and a POST
    naming it is answered 404, not 410. *)
Lemma closed_session_gets_404 :
  is_Some (McpHttpServer.sessions http_open !! "s1") ∧
  http_closed = (McpHttpServer.on_close stream_s1 http_open).2 ∧
  McpHttpServer.status_of 2%nat
    (trace (McpHttpServer.handleMessages JsonReader.parse never_destroyed (Some "s1")
              mixed_body 2%nat http_closed http_closed).1) ≠ Some 410.
Proof.
  split; [by vm_compute; eexists|]. split; [reflexivity|].
  vm_compute. discriminate.
Qed.

(** C4, what the code does.  A body holding a request and a notification
    is answered 202, the request is dispatched and answered on the
    stream, and the notification is never handed to [onMessage]; the
    same notification alone in a body is. *)
Theorem mixed_body_drops_notification :
  JsonReader.parse mixed_body =
    Some (JArr [JObj [("id", JNum 1); ("method", JStr "ping")];
                JObj [("method", JStr "notifications/initialized")]]) ∧
  McpHttpServer.dispatched
    (trace (McpHttpServer.handleMessages JsonReader.parse never_destroyed (Some "s1")
              mixed_body 2%nat http_open http_open).1) = [ping_request] ∧
  McpHttpServer.status_of 2%nat
    (trace (McpHttpServer.handleMessages JsonReader.parse never_destroyed (Some "s1")
              mixed_body 2%nat http_open http_open).1) = Some 202 ∧
  McpHttpServer.dispatched
    (trace (McpHttpServer.handleMessages JsonReader.parse never_destroyed (Some "s1")
              notification_body 2%nat http_open http_open).1) =
    [initialized_notification].
Proof. by vm_compute. Qed.

(** ** The socket transport *)

Lemma handleMessage_invalid_json_witness :
  JsonReader.parse (num := Z) "{not json" = None ∧
  McpServer.handleMessage JsonReader.parse 3%nat "{not json"
    (McpServer.on_connection 3%nat ws_server).1 =
  ((McpServer.on_connection 3%nat ws_server).1, []).
Proof.
  assert (JsonReader.parse (num := Z) "{not json" = None) as Hbad by reflexivity.
  split; [exact Hbad|].
  exact (handleMessage_invalid_json JsonReader.parse 3%nat "{not json"
           (McpServer.on_connection 3%nat ws_server).1 Hbad).
Defined.

(** C5, what the code does.  With [CLAUDE_CONFIG_DIR=/custom] and
    [HOME=/home/u] the configuration directory resolves to [/custom],
    and the lock file of port 51234 is written under the home directory,
    not under [/custom/ide]. *)
Theorem lock_file_ignores_config_dir :
  ClaudeConfig.getClaudeIdeDir posix_join process empty_fs = "/custom/ide" ∧
  McpServer.lockFilePath
    (McpServer.createLockFile posix_join 51234 process ws_server empty_fs).1 =
    "/home/u/.claude/ide/51234.lock" ∧
  files (McpServer.createLockFile posix_join 51234 process ws_server empty_fs).2
    !! "/home/u/.claude/ide/51234.lock" = Some (McpServer.lockFileContent process) ∧
  files (McpServer.createLockFile posix_join 51234 process ws_server empty_fs).2
    !! "/custom/ide/51234.lock" = None.
Proof. by vm_compute. Qed.
End ClosedExamples.

(** * Further properties *)

(** ** The tool registry, beyond registration of one pair *)

Section JsMapMore.
Context {V : Type}.
Implicit Types (m : JsMap.t V) (k : string) (v : V).

Lemma JsMap_elem_of_keys_set k k' v m :
  k' ∈ JsMap.keys (JsMap.set k v m) ↔ k' = k ∨ k' ∈ JsMap.keys m.
Proof.
  unfold JsMap.keys. induction m as [|[k0 w] m IH]; simpl.
  - rewrite list_elem_of_singleton, elem_of_nil. tauto.
  - destruct (String.eqb_spec k k0) as [->|?]; simpl.
    + rewrite !elem_of_cons. tauto.
    + rewrite !elem_of_cons, IH. tauto.
Qed.

Lemma JsMap_has_keys k m : JsMap.has k m = true ↔ k ∈ JsMap.keys m.
Proof.
  unfold JsMap.has. induction m as [|[k0 w] m IH]; simpl.
  - split; [done|]. intros Hin. by apply elem_of_nil in Hin.
  - destruct (String.eqb_spec k k0) as [->|Hne].
    + split; [intros _; apply list_elem_of_here|done].
    + rewrite IH. split; [apply list_elem_of_further|].
      intros Hin. apply elem_of_cons in Hin as [?|?]; done.
Qed.

(** Setting a key keeps a property of the bindings that holds of the new
    binding. *)
Lemma JsMap_Forall_set (P : string * V → Prop) k v m :
  P (k, v) → Forall P m → Forall P (JsMap.set k v m).
Proof.
  intros Hkv. induction 1 as [|[k0 w] m H0 Hm IH]; simpl.
  - by repeat constructor.
  - destruct (String.eqb_spec k k0) as [->|?]; by constructor.
Qed.
End JsMapMore.

Section ToolRegistryMore.
Context {num : Type} `{JsNumber num}.
Import ToolRegistry.
Implicit Types (d : ToolDefinition num) (i : ToolImplementation num) (reg : ToolRegistry.t num).

(** X1.  After a successful [register(d, i)] the name resolves to the pair
    and [hasImplementation] holds for it; every other name resolves as it
    did before. *)
Theorem register_then_lookup d i reg :
  def_name d = impl_name i →
  hasImplementation (def_name d) (register d i reg).2 = true ∧
  JsMap.get (def_name d) (tools (register d i reg).2) = Some (mkEntry d i) ∧
  ∀ k, k ≠ def_name d →
    JsMap.get k (tools (register d i reg).2) = JsMap.get k (tools reg) ∧
    hasImplementation k (register d i reg).2 = hasImplementation k reg.
Proof.
  intros Hname. rewrite (register_matching d i reg Hname). simpl.
  unfold hasImplementation, JsMap.has. simpl. rewrite JsMap_get_set.
  split_and!; [done..|].
  intros k Hk. by rewrite JsMap_get_set_ne.
Qed.

Lemma register_keyed_by_name d i reg :
  keyed_by_name reg → keyed_by_name (register d i reg).2.
Proof.
  intros Hreg. unfold register.
  destruct (String.eqb_spec (def_name d) (impl_name i)) as [Heq|?]; simpl; [|done].
  apply JsMap_Forall_set; [|done]. by simpl.
Qed.

Lemma register_all_keyed_by_name calls reg :
  keyed_by_name reg → keyed_by_name (register_all calls reg).
Proof.
  revert reg. induction calls as [|[d i] calls IH]; intros reg Hreg; [done|].
  simpl. apply IH. by apply register_keyed_by_name.
Qed.

(** X2.  In a registry built by [register] calls alone, every tool is
    stored under the name that its definition and its implementation
    both carry, so the definitions listed by [getToolDefinitions()] have
    exactly the names [getRegisteredToolNames()] returns, in the same
    order. *)
Theorem registry_names_agree (calls : list (ToolDefinition num * ToolImplementation num)) :
  let reg := register_all calls new in
  keyed_by_name reg ∧
  List.map name (getToolDefinitions None reg) = getRegisteredToolNames reg.
Proof.
  simpl. assert (keyed_by_name (register_all calls new)) as Hkeyed
    by (apply register_all_keyed_by_name; constructor).
  split; [done|].
  unfold getToolDefinitions, getRegisteredToolNames, JsMap.values, JsMap.keys.
  unfold keyed_by_name in Hkeyed.
  induction Hkeyed as [|[k e] m [Hd _] _ IH]; [done|].
  simpl in *. by rewrite IH, Hd.
Qed.

(** Among pairwise different categories, a definition is counted under
    its own and under no other. *)
Lemma count_own_category (cs : list string) (c : string) :
  NoDup cs → c ∈ cs →
  sum_list_with (λ k, if String.eqb c k then 1%nat else 0%nat) cs = 1%nat.
Proof.
  induction 1 as [|k cs Hk Hcs IH]; intros Hin; [by apply elem_of_nil in Hin|].
  simpl. destruct (String.eqb_spec c k) as [->|Hne].
  - assert (sum_list_with (λ k0, if String.eqb k k0 then 1%nat else 0%nat) cs = 0%nat) as ->;
      [|done].
    clear IH Hcs Hin. induction cs as [|k' cs IH]; [done|].
    simpl. apply not_elem_of_cons in Hk as [Hne Hk].
    destruct (String.eqb_spec k k'); [done|]. by apply IH.
  - apply elem_of_cons in Hin as [?|Hin]; [done|]. by rewrite IH.
Qed.

Lemma sum_list_with_plus {A} (f g : A → nat) (l : list A) :
  sum_list_with (λ x, f x + g x)%nat l = (sum_list_with f l + sum_list_with g l)%nat.
Proof. induction l as [|x l IH]; simpl; lia. Qed.

Lemma sum_list_with_agree {A} (f g : A → nat) (l : list A) :
  (∀ x, x ∈ l → f x = g x) → sum_list_with f l = sum_list_with g l.
Proof.
  induction l as [|x l IH]; intros Hfg; [done|].
  simpl. rewrite (Hfg x) by apply list_elem_of_here.
  rewrite IH; [done|]. intros y Hy. by apply Hfg, list_elem_of_further.
Qed.

Lemma filter_category_length (ds : list (ToolDefinition num)) (cs : list string) :
  NoDup cs →
  Forall (λ d, def_category d ∈ cs) ds →
  length ds =
  sum_list_with (λ c, length (List.filter (λ d, String.eqb (def_category d) c) ds)) cs.
Proof.
  intros Hcs. induction 1 as [|d ds Hd _ IH].
  - simpl. clear Hcs. induction cs as [|c cs IHcs]; [done|]. simpl. exact IHcs.
  - transitivity
      (sum_list_with
         (λ c, (if String.eqb (def_category d) c then 1 else 0) +
               length (List.filter (λ d0, String.eqb (def_category d0) c) ds))%nat cs).
    + rewrite sum_list_with_plus, (count_own_category cs (def_category d) Hcs Hd), <- IH.
      done.
    + apply sum_list_with_agree. intros c _. simpl.
      by destruct (String.eqb (def_category d) c).
Qed.

(** X3.  [getToolDefinitions(category)] with an empty category lists
    everything, like the call without an argument.  With a category it
    lists, in registration order, a part of the whole listing; the parts
    of different categories do not overlap and together make up the
    whole: over any list of pairwise different categories that names the
    category of every registered definition, the sizes of the parts add
    up to the size of the whole listing.  A category that no registered
    definition carries gives the empty list. *)
Theorem getToolDefinitions_categories reg :
  getToolDefinitions (Some "") reg = getToolDefinitions None reg ∧
  (∀ c, sublist (getToolDefinitions (Some c) reg) (getToolDefinitions None reg)) ∧
  (∀ cs : list string,
     NoDup cs → "" ∉ cs →
     Forall (λ e, def_category (definition e) ∈ cs) (JsMap.values (tools reg)) →
     length (getToolDefinitions None reg) =
     sum_list_with (λ c, length (getToolDefinitions (Some c) reg)) cs) ∧
  (∀ c, c ≠ "" →
     Forall (λ e, def_category (definition e) ≠ c) (JsMap.values (tools reg)) →
     getToolDefinitions (Some c) reg = []).
Proof.
  unfold getToolDefinitions.
  assert (∀ ds : list (ToolDefinition num), List.filter (λ _, true) ds = ds) as Hall.
  { induction ds as [|? ? IH]; simpl; by rewrite ?IH. }
  split_and!.
  - done.
  - intros c. rewrite Hall.
    induction (List.map definition (JsMap.values (tools reg))) as [|d ds IH];
      simpl; [constructor|].
    destruct (orb _ _); simpl; by constructor.
  - intros cs Hcs Hempty Hcover. rewrite Hall, length_map.
    rewrite (filter_category_length (List.map definition (JsMap.values (tools reg))) cs Hcs).
    + apply sum_list_with_agree. intros c Hc. rewrite length_map.
      assert (String.eqb c "" = false) as ->; [|done].
      apply String.eqb_neq. by intros ->.
    + by apply List.Forall_map.
  - intros c Hc Hnone.
    assert (Forall (λ d, def_category d ≠ c)
              (List.map definition (JsMap.values (tools reg)))) as Hds
      by (by apply List.Forall_map).
    induction Hds as [|d ds Hd _ IH]; [done|].
    simpl. destruct (String.eqb_spec c "") as [?|_]; [done|]. simpl.
    destruct (String.eqb_spec (def_category d) c) as [Hcat|_]; [done|]. exact IH.
Qed.

(** X4.  A [tools/call] for a registered tool runs its handler on
    [params.arguments].  What the handler replies goes out unchanged;
    when the handler throws, one internal-error reply naming the tool
    and the error follows, and the call itself does not throw. *)
Theorem handleToolCall_registered reg (req : McpRequest num) s tool :
  destructure "name" (req_params req) = Some (JStr s) →
  JsMap.get s (tools reg) = Some tool →
  let run := handler (implementation tool) (destructure "arguments" (req_params req)) in
  handleToolCall reg req =
  match outcome run with
  | inr _ => run
  | inl e =>
      mkEff (trace run ++
             [EvReply (reply_error (-32603)
                         ("failed to call tool " +:+ s +:+ ": " +:+ message_text e))])
            (inr ())
  end.
Proof.
  intros Hname Htool. unfold handleToolCall. rewrite Hname. simpl. rewrite Htool.
  unfold try_catch. by destruct (outcome _).
Qed.
End ToolRegistryMore.

(** ** The dispatcher, beyond the count of replies *)

Section DispatcherMore.
Context {num : Type} `{JsNumber num}.
Import McpHandlers.
Implicit Types (h : McpHandlers.t num) (req : McpRequest num) (src : source).

(** A guarded body whose catch block returns does not throw. *)
Lemma outcome_try_catch {E} (m : Eff E unit) (c : JsError → Eff E unit) :
  (∀ e, outcome (c e) = inr ()) → outcome (try_catch m c) = inr ().
Proof.
  intros Hc. unfold try_catch. destruct (outcome m) as [e|[]] eqn:Em; simpl; [apply Hc|done].
Qed.

Ltac no_throw := apply outcome_try_catch; intros; reflexivity.

(** The [switch] returns, whatever the host or a tool handler throws,
    unless it has to print a method or a tool name that cannot be
    printed; it then throws before anything else is done. *)
Lemma dispatch_outcome h req src :
  outcome (dispatch h req src) = inr () ∨
  (dispatch h req src = mkEff [] (inl to_primitive_error) ∧
   (to_string_opt (req_method req) = None ∨
    (req_method req = Some (JStr "tools/call") ∧
     to_string_opt (destructure "name" (req_params req)) = None))).
Proof.
  unfold dispatch.
  destruct (req_method req) as [[| | |m| |]|] eqn:Em;
    try (left; reflexivity);
    try (destruct (to_string_opt (req_method req)) as [text|] eqn:Etext; rewrite Em in Etext;
         [left; by rewrite console_log_printable by (by eexists)
         |right; split; [by apply console_log_unprintable|by left]]).
  destruct (String.eqb m "tools/call") eqn:Etc.
  - apply String.eqb_eq in Etc as ->. simpl. unfold ToolRegistry.handleToolCall.
    destruct (ToolRegistry.lookup_tool _ _) as [tool|] eqn:Etool.
    + left. destruct (lookup_tool_Some _ _ _ Etool) as (s & -> & _). no_throw.
    + destruct (to_string_opt (destructure "name" (req_params req))) as [text|] eqn:Etext.
      * left. rewrite console_log_printable by (by eexists).
        unfold template. by rewrite Etext.
      * right. split; [by apply console_log_unprintable|]. right. by split.
  - left. repeat case_match; try reflexivity; try no_throw.
Qed.

(** X5.  What a host call or a tool handler throws never escapes the
    dispatcher.  [handleRequestGeneric] throws only when a value it has
    to print cannot be printed: the method in the [default] branch, the
    [pid] of [ide_connected], or the name of an unregistered tool.  It
    then throws that [TypeError] before any reply is made; when these
    three values can be printed, it returns. *)
Theorem handleRequestGeneric_returns h req src :
  let run := handleRequestGeneric h req src in
  (is_Some (to_string_opt (req_method req)) →
   is_Some (to_string_opt (destructure "pid" (req_params req))) →
   is_Some (to_string_opt (destructure "name" (req_params req))) →
   outcome run = inr ()) ∧
  (∀ e, outcome run = inl e →
     run = mkEff [] (inl to_primitive_error) ∧
     (to_string_opt (req_method req) = None ∨
      (req_method req = Some (JStr "ide_connected") ∧
       to_string_opt (destructure "pid" (req_params req)) = None) ∨
      (req_method req = Some (JStr "tools/call") ∧
       to_string_opt (destructure "name" (req_params req)) = None))).
Proof.
  simpl. destruct (IdeHandler.isIdeMethod (req_method req)) eqn:Hide.
  - unfold handleRequestGeneric. rewrite Hide.
    unfold IdeHandler.isIdeMethod in Hide. unfold IdeHandler.handleRequest.
    destruct (req_method req) as [[| | |m| |]|]; try done.
    destruct (String.eqb m "ide_connected") eqn:Em.
    + apply String.eqb_eq in Em. subst m.
      unfold IdeHandler.handleIdeConnected, console_log, template.
      destruct (to_string_opt (destructure "pid" (req_params req))) as [text|] eqn:Epid.
      * split; [done|]. intros e He. discriminate He.
      * split; [by intros _ [? ?]|]. intros e _. split; [done|]. right. by left.
    + simpl in Hide. rewrite Hide. split; [done|]. intros e He. discriminate He.
  - rewrite (handleRequestGeneric_dispatch h req src Hide).
    destruct (dispatch_outcome h req src) as [Hret|[Hthrow Hwhy]].
    + split; [done|]. intros e He. rewrite Hret in He. discriminate He.
    + split.
      * intros Hm _ Hname. destruct Hwhy as [Hnone|[_ Hnone]]; rewrite Hnone in *.
        -- by destruct Hm.
        -- by destruct Hname.
      * intros e _. split; [done|]. destruct Hwhy as [?|?]; [by left|by right; right].
Qed.

(** X6.  A request whose method is none of the methods the dispatcher
    knows, is missing, or is a value other than a string, gets the
    single reply [-32601 method not implemented] when the method can be
    printed; when it cannot, the log line of the [default] branch throws
    and there is no reply. *)
Theorem unknown_method_not_implemented h req src :
  (∀ m, req_method req = Some (JStr m) →
        m ∉ ["ide_connected"; "notifications/initialized"; "initialize"; "tools/list";
             "prompts/list"; "ping"; "readFile"; "writeFile"; "getOpenFiles"; "listFiles";
             "getCurrentFile"; "getWorkspaceInfo"; "tools/call"; "resources/list"]) →
  handleRequestGeneric h req src =
  match to_string_opt (req_method req) with
  | Some _ => mkEff [EvReply (reply_error (-32601) "method not implemented")] (inr ())
  | None => mkEff [] (inl to_primitive_error)
  end.
Proof.
  intros Hunknown.
  assert (IdeHandler.isIdeMethod (req_method req) = false) as Hide.
  { unfold IdeHandler.isIdeMethod. destruct (req_method req) as [[| | |m| |]|]; try done.
    specialize (Hunknown m eq_refl).
    apply not_elem_of_cons in Hunknown as [?%String.eqb_neq Hunknown].
    apply not_elem_of_cons in Hunknown as [?%String.eqb_neq _].
    by apply orb_false_iff. }
  rewrite (handleRequestGeneric_dispatch h req src Hide).
  assert (dispatch h req src =
          (console_log (req_method req);;
           reply (reply_error (-32601) "method not implemented"))) as ->.
  { unfold dispatch. destruct (req_method req) as [[| | |m| |]|]; try reflexivity.
    specialize (Hunknown m eq_refl).
    repeat (apply not_elem_of_cons in Hunknown as [?%String.eqb_neq Hunknown]).
    by repeat match goal with Hm : String.eqb m _ = false |- _ => rewrite Hm; clear Hm end. }
  unfold console_log, template. by destruct (to_string_opt (req_method req)).
Qed.

(** X7.  The IDE sub-handler never replies, and the only thing it does
    is arm the 200 ms timer for [notifications/initialized].  When it
    returns, it reports the method as handled exactly when [isIdeMethod]
    accepts it; it returns unless the method is [ide_connected] and the
    [pid] to log cannot be printed, when it throws the [TypeError]. *)
Theorem ide_handleRequest_agrees_with_isIdeMethod req :
  let run := IdeHandler.handleRequest req in
  replies run = [] ∧
  trace run =
    match as_string (req_method req) with
    | Some m => if String.eqb m "notifications/initialized"
                then [EvTimer 200 SendInitialContext] else []
    | None => []
    end ∧
  (req_method req ≠ Some (JStr "ide_connected") ∨
   is_Some (to_string_opt (destructure "pid" (req_params req))) →
   outcome run = inr (IdeHandler.isIdeMethod (req_method req))) ∧
  (req_method req = Some (JStr "ide_connected") →
   to_string_opt (destructure "pid" (req_params req)) = None →
   outcome run = inl to_primitive_error).
Proof.
  simpl. unfold IdeHandler.handleRequest, IdeHandler.isIdeMethod.
  destruct (req_method req) as [[| | |m| |]|]; try (by split_and!). simpl.
  destruct (String.eqb_spec m "ide_connected") as [->|Hne].
  - unfold IdeHandler.handleIdeConnected, console_log, template.
    destruct (to_string_opt (destructure "pid" (req_params req))) as [text|];
      simpl; split_and!; try done.
    intros [?|[? ?]]; done.
  - destruct (String.eqb m "notifications/initialized"); simpl; split_and!; try done;
      intros [= ->]; done.
Qed.
End DispatcherMore.

(** ** Path normalisation and the legacy file methods *)

Section PathFacts.

Lemma prefix_cons_eq a sub b s :
  String.prefix (String a sub) (String b s) = andb (Ascii.eqb a b) (String.prefix sub s).
Proof.
  simpl. destruct (ascii_dec a b) as [->|Hne].
  - by rewrite Ascii.eqb_refl.
  - by apply Ascii.eqb_neq in Hne as ->.
Qed.

Lemma includes_cons sub c s :
  includes sub (String c s) = orb (String.prefix sub (String c s)) (includes sub s).
Proof.
  change (includes sub (String c s)) with
    (if String.prefix sub (String c s) then true else includes sub s).
  by destruct (String.prefix sub (String c s)).
Qed.

Lemma prefix_backslashes_to_slashes sub s :
  plain_text sub = true →
  String.prefix sub (backslashes_to_slashes s) = String.prefix sub s.
Proof.
  revert s. induction sub as [|a sub IH]; intros s Hplain; [by destruct s|].
  destruct s as [|b s]; [done|].
  simpl in Hplain. apply andb_prop in Hplain as [Ha Hplain].
  apply andb_prop in Hplain as [Ha' Hplain].
  apply negb_true_iff in Ha, Ha'.
  change (backslashes_to_slashes (String b s)) with
    (String (if Ascii.eqb b (Ascii false false true true true false true false)
             then Ascii true true true true false true false false else b)
            (backslashes_to_slashes s)).
  rewrite !prefix_cons_eq, IH by done.
  destruct (Ascii.eqb_spec b (Ascii false false true true true false true false)) as [->|_];
    [|done].
  by rewrite Ha, Ha'.
Qed.

Lemma includes_backslashes_to_slashes sub s :
  plain_text sub = true →
  includes sub (backslashes_to_slashes s) = includes sub s.
Proof.
  intros Hplain. induction s as [|c s IH].
  - simpl. by destruct sub.
  - change (backslashes_to_slashes (String c s)) with
      (String (if Ascii.eqb c (Ascii false false true true true false true false)
               then Ascii true true true true false true false false else c)
              (backslashes_to_slashes s)).
    rewrite !includes_cons, IH.
    change (String (if Ascii.eqb c (Ascii false false true true true false true false)
                    then Ascii true true true true false true false false else c)
                   (backslashes_to_slashes s))
      with (backslashes_to_slashes (String c s)).
    by rewrite prefix_backslashes_to_slashes.
Qed.

Lemma includes_drop_leading_slash a sub s :
  plain_text (String a sub) = true →
  includes (String a sub) (drop_leading_slash s) = includes (String a sub) s.
Proof.
  intros Hplain. destruct s as [|c s]; [done|].
  unfold drop_leading_slash.
  destruct (Ascii.eqb_spec c (Ascii true true true true false true false false)) as [->|_];
    [|done].
  rewrite includes_cons, prefix_cons_eq.
  simpl in Hplain. apply andb_prop in Hplain as [_ Hplain].
  apply andb_prop in Hplain as [Ha _]. apply negb_true_iff in Ha. by rewrite Ha.
Qed.

(** What [normalizePath] decides, in terms of the path it is given. *)
Lemma normalizePath_unfold path :
  normalizePath path =
  if orb (includes ".." path) (includes "~" path) then None
  else Some (drop_leading_slash (backslashes_to_slashes path)).
Proof.
  unfold normalizePath.
  rewrite (includes_drop_leading_slash "." "." _ eq_refl).
  rewrite (includes_drop_leading_slash "~" "" _ eq_refl).
  rewrite (includes_backslashes_to_slashes ".." _ eq_refl).
  by rewrite (includes_backslashes_to_slashes "~" _ eq_refl).
Qed.

(** X8.  [normalizePath] rejects a path exactly when the path as given
    contains [..] or [~]: replacing backslashes and dropping the leading
    slash neither hide nor create such an occurrence. *)
Theorem normalizePath_rejects_traversal path :
  normalizePath path = None ↔ includes ".." path = true ∨ includes "~" path = true.
Proof.
  rewrite normalizePath_unfold.
  destruct (includes ".." path), (includes "~" path); simpl;
    split; try done; try (by left); try (by right); by intros [|].
Qed.

Lemma includes_backslash_normalized s :
  includes backslash (backslashes_to_slashes s) = false.
Proof.
  induction s as [|c s IH]; [done|].
  change (backslashes_to_slashes (String c s)) with
    (String (if Ascii.eqb c (Ascii false false true true true false true false)
             then Ascii true true true true false true false false else c)
            (backslashes_to_slashes s)).
  rewrite includes_cons, IH. unfold backslash. rewrite prefix_cons_eq.
  destruct (Ascii.eqb_spec c (Ascii false false true true true false true false)) as [->|Hc];
    [done|].
  apply not_eq_sym, Ascii.eqb_neq in Hc. by rewrite Hc.
Qed.

Lemma includes_tail sub c s : includes sub s = true → includes sub (String c s) = true.
Proof. intros Hs. rewrite includes_cons, Hs. apply orb_true_r. Qed.

(** X9.  A path [normalizePath] accepts comes back without backslashes,
    without [..] and without [~]. *)
Theorem normalizePath_accepts_clean path cleaned :
  normalizePath path = Some cleaned →
  includes backslash cleaned = false ∧
  includes ".." cleaned = false ∧
  includes "~" cleaned = false.
Proof.
  unfold normalizePath.
  destruct (includes ".." _) eqn:Hdots; [done|].
  destruct (includes "~" _) eqn:Htilde; [done|].
  simpl. intros [= <-]. split_and!; [|done..].
  pose proof (includes_backslash_normalized path) as Hnone.
  destruct (backslashes_to_slashes path) as [|c s]; [done|].
  unfold drop_leading_slash. destruct (Ascii.eqb c _); [|done].
  destruct (includes backslash s) eqn:Hs; [|done].
  by rewrite (includes_tail _ c _ Hs) in Hnone.
Qed.
End PathFacts.

Section FileToolsFacts.
Context {num : Type} `{JsNumber num}.
Implicit Types (app : App) (req : McpRequest num).

(** X10.  [readFile] answers a path that contains [..] or [~] with the
    error [-32603 invalid file path].  [writeFile] does the same when
    [params.content] is a string; when it is not, the parameters are
    refused first, with [-32602 invalid parameters], whatever the path.
    In none of these cases is the vault consulted. *)
Theorem file_methods_reject_traversal app req path :
  destructure "path" (req_params req) = Some (JStr path) →
  includes ".." path = true ∨ includes "~" path = true →
  FileTools.handleReadFile app req =
    mkEff [EvReply (reply_error (-32603) "invalid file path")] (inr ()) ∧
  FileTools.handleWriteFile app req =
    mkEff [EvReply
             match as_string (destructure "content" (req_params req)) with
             | Some _ => reply_error (-32603) "invalid file path"
             | None => reply_error (-32602) "invalid parameters"
             end]
          (inr ()).
Proof.
  intros Hpath Hbad.
  assert (normalizePath path = None) as Hnone.
  { rewrite normalizePath_unfold. by destruct Hbad as [-> | ->]; rewrite ?orb_true_r. }
  assert (String.eqb path "" = false) as Hne.
  { apply String.eqb_neq. intros ->. by destruct Hbad. }
  split.
  - unfold FileTools.handleReadFile. rewrite Hpath. simpl. by rewrite Hne, Hnone.
  - unfold FileTools.handleWriteFile. rewrite Hpath. simpl.
    destruct (as_string (destructure "content" (req_params req))); [|done].
    by rewrite Hne, Hnone.
Qed.

Lemma filter_sublist {A} (f : A → bool) (l : list A) : sublist (List.filter f l) l.
Proof.
  induction l as [|x l IH]; simpl; [constructor|].
  destruct (f x); by constructor.
Qed.

(** X11.  [listFiles] always answers once and returns.  When the vault
    gives its files, the answer is all of them, in vault order, unless
    [params.pattern] is a string that is not empty: then it is those the
    pattern accepts, a part of the vault's files in the same order.  The
    answer is the error [-32603 failed to list files] exactly when the
    vault throws or the pattern is no regular expression, and it carries
    the message of what was thrown. *)
Theorem handleListFiles_lists_vault_files app req :
  let run := FileTools.handleListFiles app req in
  let listing (files : list string) :=
    mkEff [EvReply (reply_result (JArr (List.map JStr files)))] (inr ()) in
  let failure (e : JsError) :=
    mkEff [EvReply (reply_error (-32603) ("failed to list files: " +:+ message_text e))]
          (inr ()) in
  (∀ e, vault_getFiles app = inl e → run = failure e) ∧
  (∀ all, vault_getFiles app = inr all →
     match as_string (destructure "pattern" (req_params req)) with
     | Some pat =>
         if String.eqb pat "" then run = listing all
         else
           match RegExp_ app pat with
           | inr accepts =>
               run = listing (List.filter accepts all) ∧
               sublist (List.filter accepts all) all
           | inl e => run = failure e
           end
     | None => run = listing all
     end).
Proof.
  simpl. unfold FileTools.handleListFiles. split.
  - intros e He. by rewrite He.
  - intros all Hall. rewrite Hall.
    destruct (as_string (destructure "pattern" (req_params req))) as [pat|]; [|done].
    destruct (String.eqb pat ""); [done|].
    destruct (RegExp_ app pat) as [e|accepts] eqn:Hre.
    + unfold mbind, Eff_bind, bind, try_catch. simpl. reflexivity.
    + split; [|apply filter_sublist].
      unfold mbind, Eff_bind, bind, try_catch. simpl. reflexivity.
Qed.
End FileToolsFacts.

(** ** The socket transport, over its life *)

Section SocketServerMore.
Context {num : Type} `{JsNumber num}.
Import McpServer.
Variable path_join : list string → string.
Variable JSON_parse : string → option (json num).
Implicit Types (st : McpServer.t num) (fs : FS num) (sock : socket).

(** X12.  [start] leaves the lock file on disk with the record of this
    process, and [stop] after it closes the listener and removes that
    file and nothing else. *)
Theorem start_then_stop_removes_lock_file port p st fs :
  let started := start path_join port p st fs in
  lockFilePath started.1.1.2 ≠ "" →
  files started.2 !! lockFilePath started.1.1.2 = Some (lockFileContent p) ∧
  wss (stop started.1.1.2 started.2).1 = None ∧
  files (stop started.1.1.2 started.2).2 = delete (lockFilePath started.1.1.2) (files fs) ∧
  dirs (stop started.1.1.2 started.2).2 = dirs started.2.
Proof.
  unfold start, createLockFile, stop. simpl. intros Hpath.
  set (path := path_join [path_join [home_or_profile p; ".claude"; "ide"];
                          pretty port +:+ ".lock"]) in *.
  apply String.eqb_neq in Hpath. rewrite Hpath. simpl.
  unfold existsSync. simpl. rewrite lookup_insert_eq.
  rewrite (bool_decide_eq_true_2 (is_Some (Some _))) by eauto.
  rewrite orb_true_r. simpl. by rewrite delete_insert_eq.
Qed.

Lemma existsSync_file path fs doc : files fs !! path = Some doc → existsSync path fs = true.
Proof.
  intros Hfile. unfold existsSync. rewrite Hfile.
  rewrite (bool_decide_eq_true_2 (is_Some (Some doc))) by eauto. apply orb_true_r.
Qed.

Lemma writeFileSync_twice path (doc1 doc2 : json num) fs :
  writeFileSync path doc2 (writeFileSync path doc1 fs) = writeFileSync path doc2 fs.
Proof. unfold writeFileSync. simpl. by rewrite insert_insert_eq. Qed.

(** Updating a lock file that holds the record [start] wrote, possibly
    updated before. *)
Lemma updateWorkspaceFolders_record basePath st fs (n : num) folders :
  lockFilePath st ≠ "" →
  files fs !! lockFilePath st =
    Some (JObj [("pid", JNum n); ("workspaceFolders", folders);
                ("ideName", JStr "Obsidian"); ("transport", JStr "ws")]) →
  updateWorkspaceFolders basePath st fs =
  inr (writeFileSync (lockFilePath st)
         (JObj [("pid", JNum n); ("workspaceFolders", JArr [JStr basePath]);
                ("ideName", JStr "Obsidian"); ("transport", JStr "ws")]) fs).
Proof.
  intros Hpath Hfile. unfold updateWorkspaceFolders.
  apply String.eqb_neq in Hpath. rewrite Hpath, (existsSync_file _ _ _ Hfile), Hfile.
  reflexivity.
Qed.

(** X13.  Once [start] has written the lock file,
    [updateWorkspaceFolders] rewrites it with the one folder given and
    the other fields kept; a second update replaces the first, so calling
    it twice leaves what the last call alone leaves.  Before [start]
    there is no lock file path and the call does nothing. *)
Theorem updateWorkspaceFolders_last_wins port p st fs first last :
  let started := start path_join port p st fs in
  lockFilePath started.1.1.2 ≠ "" →
  ∃ fs1 fs2,
    updateWorkspaceFolders first started.1.1.2 started.2 = inr fs1 ∧
    updateWorkspaceFolders last started.1.1.2 fs1 = inr fs2 ∧
    updateWorkspaceFolders last started.1.1.2 started.2 = inr fs2 ∧
    files fs2 !! lockFilePath started.1.1.2 =
      Some (JObj [("pid", JNum (num_of_Z (pid p)));
                  ("workspaceFolders", JArr [JStr last]);
                  ("ideName", JStr "Obsidian");
                  ("transport", JStr "ws")]) ∧
    ∀ cfg, updateWorkspaceFolders last (new cfg) fs = inr fs.
Proof.
  intros started Hpath.
  assert (files started.2 !! lockFilePath started.1.1.2 = Some (lockFileContent p)) as Hfile.
  { unfold started, start, createLockFile. simpl. apply lookup_insert_eq. }
  unfold lockFileContent in Hfile.
  pose proof (updateWorkspaceFolders_record first _ _ _ _ Hpath Hfile) as Hfirst.
  pose proof (updateWorkspaceFolders_record last _ _ _ _ Hpath Hfile) as Hlast.
  eexists _, _. split; [exact Hfirst|]. split_and!.
  - rewrite (updateWorkspaceFolders_record last _ _ (num_of_Z (pid p)) (JArr [JStr first]) Hpath)
      by apply lookup_insert_eq.
    by rewrite writeFileSync_twice.
  - exact Hlast.
  - apply lookup_insert_eq.
  - done.
Qed.

Lemma elem_of_add_client sock s (cs : list socket) :
  sock ∈ add_client s cs ↔ sock = s ∨ sock ∈ cs.
Proof.
  unfold add_client. case_bool_decide as Hin.
  - split; [by right|]. by intros [->|?].
  - rewrite elem_of_app, list_elem_of_singleton. tauto.
Qed.

Lemma NoDup_add_client s (cs : list socket) : NoDup cs → NoDup (add_client s cs).
Proof.
  intros Hcs. unfold add_client. case_bool_decide as Hin; [done|].
  apply NoDup_app. split_and!; [done| |apply NoDup_singleton].
  intros x Hx Hs. apply list_elem_of_singleton in Hs as ->. done.
Qed.

Lemma elem_of_remove_client sock s (cs : list socket) :
  sock ∈ List.filter (λ c, negb (Nat.eqb c s)) cs ↔ sock ≠ s ∧ sock ∈ cs.
Proof.
  rewrite !list_elem_of_In, filter_In, negb_true_iff, Nat.eqb_neq. tauto.
Qed.

(** How one event changes whether a socket is among the connected
    clients. *)
Lemma on_event_member ev st sock :
  bool_decide (sock ∈ connectedClients (on_event JSON_parse ev st).1) =
  match ev with
  | Connection s => if Nat.eqb s sock then true else bool_decide (sock ∈ connectedClients st)
  | SocketClose s | SocketError s =>
      if Nat.eqb s sock then false else bool_decide (sock ∈ connectedClients st)
  | SocketMessage _ _ => bool_decide (sock ∈ connectedClients st)
  end.
Proof.
  destruct ev as [s|s|s|s raw]; simpl.
  - destruct (Nat.eqb_spec s sock) as [->|Hne].
    + apply bool_decide_eq_true_2, elem_of_add_client. by left.
    + apply bool_decide_ext. rewrite elem_of_add_client. intuition congruence.
  - destruct (Nat.eqb_spec s sock) as [->|Hne].
    + apply bool_decide_eq_false_2. rewrite elem_of_remove_client. intuition congruence.
    + apply bool_decide_ext. rewrite elem_of_remove_client. intuition congruence.
  - destruct (Nat.eqb_spec s sock) as [->|Hne].
    + apply bool_decide_eq_false_2. rewrite elem_of_remove_client. intuition congruence.
    + apply bool_decide_ext. rewrite elem_of_remove_client. intuition congruence.
  - unfold handleMessage. by destruct (JSON_parse raw).
Qed.

Lemma NoDup_List_filter {A} (f : A → bool) (l : list A) :
  NoDup l → NoDup (List.filter f l).
Proof.
  induction 1 as [|x l Hx Hl IH]; simpl; [constructor|].
  destruct (f x); [|done]. constructor; [|done].
  rewrite list_elem_of_In, filter_In, <-list_elem_of_In. tauto.
Qed.

Lemma on_event_NoDup ev st :
  NoDup (connectedClients st) → NoDup (connectedClients (on_event JSON_parse ev st).1).
Proof.
  intros Hst. destruct ev as [s|s|s|s raw]; simpl.
  - by apply NoDup_add_client.
  - by apply NoDup_List_filter.
  - by apply NoDup_List_filter.
  - unfold handleMessage. by destruct (JSON_parse raw).
Qed.

Lemma run_cons ev evs st :
  (run JSON_parse (ev :: evs) st).1 = (run JSON_parse evs (on_event JSON_parse ev st).1).1.
Proof.
  cbn [run]. destruct (on_event JSON_parse ev st) as [st1 out1].
  cbn [fst]. by destruct (run JSON_parse evs st1).
Qed.

Lemma run_clients evs st :
  NoDup (connectedClients st) →
  NoDup (connectedClients (run JSON_parse evs st).1) ∧
  ∀ sock, bool_decide (sock ∈ connectedClients (run JSON_parse evs st).1) =
          connected_after evs (bool_decide (sock ∈ connectedClients st)) sock.
Proof.
  revert st. induction evs as [|ev evs IH]; intros st Hst; [done|].
  rewrite run_cons.
  destruct (IH (on_event JSON_parse ev st).1 (on_event_NoDup ev st Hst)) as [Hnd Hmem].
  split; [done|]. intros sock. rewrite Hmem, on_event_member. by destruct ev.
Qed.

(** X14.  Whatever connections, closes, errors and frames the server
    has seen since it was created, its connected clients list no socket
    twice, and a socket is listed exactly when its last connection has
    not been followed by a close or an error. *)
Theorem connected_clients_track_events cfg evs :
  NoDup (connectedClients (run JSON_parse evs (new cfg)).1) ∧
  ∀ sock, sock ∈ connectedClients (run JSON_parse evs (new cfg)).1 ↔
          connected_after evs false sock = true.
Proof.
  destruct (run_clients evs (new cfg)) as [Hnd Hmem]; [constructor|].
  split; [done|]. intros sock. specialize (Hmem sock).
  rewrite (bool_decide_eq_false_2 (sock ∈ connectedClients (new cfg))) in Hmem
    by apply not_elem_of_nil.
  rewrite <-Hmem. symmetry. apply bool_decide_eq_true.
Qed.

Lemma frames_to_broadcast (is_open : socket → bool) (f : frame num) sock cs :
  NoDup cs →
  frames_to sock (List.map (λ c, Send c f) (List.filter is_open cs)) =
  if andb (bool_decide (sock ∈ cs)) (is_open sock) then [f] else [].
Proof.
  induction 1 as [|c cs Hc Hcs IH]; [done|].
  destruct (decide (c = sock)) as [->|Hne].
  - rewrite (bool_decide_eq_true_2 (sock ∈ sock :: cs)) by apply list_elem_of_here.
    rewrite (bool_decide_eq_false_2 (sock ∈ cs)) in IH by done.
    simpl in *. destruct (is_open sock) eqn:Hopen; simpl; [|exact IH].
    by rewrite Nat.eqb_refl, IH.
  - assert (bool_decide (sock ∈ c :: cs) = bool_decide (sock ∈ cs)) as ->.
    { apply bool_decide_ext. rewrite elem_of_cons. intuition congruence. }
    simpl. destruct (is_open c) eqn:Hopenc; simpl; [|exact IH].
    apply Nat.eqb_neq in Hne. by rewrite Hne.
Qed.

(** X15.  [broadcast] writes the notification exactly once to every
    socket that is connected and open when it is called, and nothing to
    any other socket: not to one that has closed, and not to one that
    connects later. *)
Theorem broadcast_reaches_connected_open_clients cfg evs is_open message sock :
  frames_to sock (broadcast is_open message (run JSON_parse evs (new cfg)).1) =
  if andb (connected_after evs false sock) (is_open sock)
  then [FrameNotification message] else [].
Proof.
  destruct (run_clients evs (new cfg)) as [Hnd Hmem]; [constructor|].
  specialize (Hmem sock).
  rewrite (bool_decide_eq_false_2 (sock ∈ connectedClients (new cfg))) in Hmem
    by apply not_elem_of_nil.
  unfold broadcast. rewrite frames_to_broadcast by done. by rewrite Hmem.
Qed.
End SocketServerMore.

(** ** The streaming-HTTP transport, over its life *)

Section HttpServerMore.
Context {num : Type} `{JsNumber num}.
Import McpHttpServer.
Variable JSON_parse : string → option (json num).
Implicit Types (st : McpHttpServer.t num) (stream : SSEStream) (res : response).

Lemma sendSSEMessage_numbered destroyed res event (data : sse_data num) (n : Z) :
  sendSSEMessage destroyed res event data (Some (pretty n)) =
  if destroyed res then [] else [SSE res event data (Some (pretty n))].
Proof.
  unfold sendSSEMessage. destruct (destroyed res); [done|].
  destruct (String.eqb_spec (pretty n) "") as [Hempty|]; [|done].
  by destruct (pretty_Z_nonempty n).
Qed.

(** X16.  Each reply a handler makes to a request becomes one [message]
    event on the stream, carrying the response with the request's id, and
    the events take consecutive event ids after the counter.  On a
    destroyed stream nothing is written, but the counter advances all the
    same. *)
Theorem run_replies_consecutive_ids destroyed stream (request : McpRequest num) msgs counter :
  run_replies destroyed stream request msgs counter =
  (if destroyed (stream_response stream) then []
   else imap (λ k msg, SSE (stream_response stream) "message"
                         (DataResponse (response_for request msg))
                         (Some (pretty (counter + 1 + Z.of_nat k)))) msgs,
   counter + Z.of_nat (length msgs)).
Proof.
  revert counter. induction msgs as [|msg msgs IH]; intros counter.
  - simpl. rewrite Z.add_0_r. by destruct (destroyed _).
  - cbn [run_replies]. rewrite IH, sendSSEMessage_numbered.
    f_equal; [|rewrite length_cons; lia].
    destruct (destroyed (stream_response stream)); [done|].
    rewrite imap_cons. simpl. rewrite Z.add_0_r. f_equal.
    apply imap_ext. intros k x _. simpl. do 3 f_equal. lia.
Qed.

Lemma run_replies_counter_le destroyed stream (request : McpRequest num) msgs (counter : Z) :
  (counter ≤ (run_replies destroyed stream request msgs counter).2)%Z.
Proof.
  revert counter. induction msgs as [|msg msgs IH]; intros counter; [simpl; lia|].
  cbn [run_replies]. specialize (IH (counter + 1)).
  destruct (run_replies destroyed stream request msgs (counter + 1)). simpl in *. lia.
Qed.

Lemma process_requests_counter_le cfg destroyed stream (messages : list (json num))
    (counter : Z) :
  (counter ≤ (process_requests cfg destroyed stream messages counter).2)%Z.
Proof.
  revert counter. induction messages as [|m messages IH]; intros counter; [simpl; lia|].
  cbn [process_requests]. destruct (as_request m) as [request|]; [|simpl; lia].
  destruct (andb _ _); [|apply IH].
  pose proof (run_replies_counter_le destroyed stream request
                (onMessage cfg request) counter) as Hle.
  destruct (run_replies _ _ _ _ _) as [evs counter1]. simpl in Hle.
  specialize (IH counter1).
  destruct (process_requests cfg destroyed stream messages counter1). simpl in *. lia.
Qed.

Lemma handleMessages_after destroyed session_id body res st st' :
  let after := (handleMessages JSON_parse destroyed session_id body res st st').2 in
  after = st ∨ after = st' ∨
  ∃ counter : Z, (eventIdCounter st' ≤ counter)%Z ∧ after = with_counter counter st'.
Proof.
  unfold handleMessages.
  destruct session_id as [sid|]; [|by left].
  destruct (orb _ _); [by left|].
  destruct (JSON_parse body) as [parsed|]; [|by right; left].
  destruct (hasRequests (as_messages parsed)) as [e|[]]; [by right; left| |by right; left].
  destruct (find _ _) as [stream|]; [|by right; left].
  pose proof (process_requests_counter_le (config st') destroyed stream
                (as_messages parsed) (eventIdCounter st')) as Hle.
  destruct (process_requests _ _ _ _ _) as [r counter]. simpl in *.
  right; right. by exists counter.
Qed.

(** X17.  A POST never opens or closes a session, and never moves the
    event counter back: after [handleMessages] the sessions and streams
    are those of the server it started from, or those of the server as
    it was when the body had been read, and the counter is at least what
    it was there. *)
Theorem handleMessages_keeps_sessions destroyed session_id body res st st' :
  let after := (handleMessages JSON_parse destroyed session_id body res st st').2 in
  (sessions after = sessions st ∧ activeStreams after = activeStreams st ∧
   eventIdCounter after = eventIdCounter st) ∨
  (sessions after = sessions st' ∧ activeStreams after = activeStreams st' ∧
   (eventIdCounter st' ≤ eventIdCounter after)%Z).
Proof.
  intros after.
  destruct (handleMessages_after destroyed session_id body res st st')
    as [Hafter|[Hafter|(counter & Hle & Hafter)]]; fold after in Hafter; rewrite Hafter.
  - by left.
  - right. split_and!; [done..|lia].
  - right. by split_and!.
Qed.

Lemma hasRequests_none (messages : list (json num)) reqs :
  Forall2 (λ m r, as_request m = Some r) messages reqs →
  Forall (λ r, is_request r = false) reqs →
  hasRequests messages = inr false.
Proof.
  induction 1 as [|m r messages reqs Hr _ IH]; [done|].
  intros Hall. apply Forall_cons in Hall as [Hnot Hall].
  simpl. rewrite Hr, Hnot. by apply IH.
Qed.

(** X18.  A body that parses and holds no request (no envelope with both
    an id and a method) is answered 202 for a known session: every
    envelope with a truthy method is handed to [onMessage], nothing is
    written to any stream, and the server is left as it was. *)
Theorem notifications_only_body destroyed sid body res st st' parsed reqs :
  sid ≠ "" →
  is_Some (sessions st !! sid) →
  JSON_parse body = Some parsed →
  Forall2 (λ m r, as_request m = Some r) (as_messages parsed) reqs →
  Forall (λ r, is_request r = false) reqs →
  handleMessages JSON_parse destroyed (Some sid) body res st st' =
  (mkEff (List.map OnMessage (List.filter (λ r, truthy_opt (req_method r)) reqs) ++
          [WriteHead res 202; End_ res None]) (inr ()),
   st').
Proof.
  intros Hsid Hknown Hparse Hreqs Hnone. unfold handleMessages.
  apply String.eqb_neq in Hsid. rewrite Hsid.
  rewrite (bool_decide_eq_true_2 _ Hknown). simpl. rewrite Hparse.
  rewrite (hasRequests_none _ _ Hreqs Hnone).
  rewrite (notify_all_dispatches _ _ Hreqs). reflexivity.
Qed.

(** X19.  A body that holds a request, for a session that was known when
    the POST arrived but has no open stream once the body is read, is
    answered 410; no envelope of it is dispatched. *)
Theorem request_without_stream_410 destroyed sid body res st st' parsed :
  sid ≠ "" →
  is_Some (sessions st !! sid) →
  JSON_parse body = Some parsed →
  hasRequests (as_messages parsed) = inr true →
  Forall (λ s, sessionId s ≠ sid) (activeStreams st') →
  handleMessages JSON_parse destroyed (Some sid) body res st st' =
  (mkEff [WriteHead res 410; End_ res (Some (JObj [("error", JStr "SSE connection lost")]))]
         (inr ()),
   st').
Proof.
  intros Hsid Hknown Hparse Hreq Hnostream. unfold handleMessages.
  apply String.eqb_neq in Hsid. rewrite Hsid.
  rewrite (bool_decide_eq_true_2 _ Hknown). simpl. rewrite Hparse, Hreq.
  assert (find (λ s, String.eqb (sessionId s) sid) (activeStreams st') = None) as ->; [|done].
  induction Hnostream as [|s l Hs _ IH]; [done|].
  simpl. apply String.eqb_neq in Hs. by rewrite Hs.
Qed.
Lemma message_events_app res (evs1 evs2 : list (http_effect num)) :
  message_events res (evs1 ++ evs2) = message_events res evs1 ++ message_events res evs2.
Proof. apply omap_app. Qed.

Lemma broadcast_events destroyed (data : sse_data num) (event_id : Z) res streams :
  NoDup (List.map stream_response streams) →
  message_events res
    (List.concat
       (List.map (λ s, sendSSEMessage destroyed (stream_response s) "message" data
                         (Some (pretty event_id))) streams)) =
  if andb (bool_decide (res ∈ List.map stream_response streams)) (negb (destroyed res))
  then [data] else [].
Proof.
  induction streams as [|s streams IH]; intros Hnd; [done|].
  simpl in Hnd. apply NoDup_cons in Hnd as [Hs Hnd].
  cbn [List.map List.concat]. rewrite message_events_app, IH by done.
  rewrite sendSSEMessage_numbered.
  destruct (decide (stream_response s = res)) as [Heq|Hne].
  - subst res.
    rewrite (bool_decide_eq_true_2 (stream_response s ∈ stream_response s :: _))
      by apply list_elem_of_here.
    rewrite (bool_decide_eq_false_2 _ Hs). simpl.
    destruct (destroyed (stream_response s)); [done|]. simpl. by rewrite Nat.eqb_refl.
  - assert (bool_decide (res ∈ stream_response s :: List.map stream_response streams) =
            bool_decide (res ∈ List.map stream_response streams)) as ->.
    { apply bool_decide_ext. rewrite elem_of_cons. intuition congruence. }
    destruct (destroyed (stream_response s)); [done|]. simpl.
    apply Nat.eqb_neq in Hne. by rewrite Hne.
Qed.

(** X20.  [broadcast] writes the notification as one [message] event to
    every active stream that is not destroyed and to no other response;
    one broadcast advances the event counter by one, however many streams
    there are, and leaves sessions and streams as they were. *)
Theorem http_broadcast_delivery destroyed message st res :
  NoDup (List.map stream_response (activeStreams st)) →
  message_events res (broadcast destroyed message st).1 =
    (if andb (bool_decide (res ∈ List.map stream_response (activeStreams st)))
             (negb (destroyed res))
     then [DataNotification message] else []) ∧
  eventIdCounter (broadcast destroyed message st).2 = eventIdCounter st + 1 ∧
  sessions (broadcast destroyed message st).2 = sessions st ∧
  activeStreams (broadcast destroyed message st).2 = activeStreams st.
Proof.
  intros Hnd. unfold broadcast. simpl. split_and!; [|done..].
  by apply broadcast_events.
Qed.

Lemma filter_other_responses res (streams : list SSEStream) :
  res ∉ List.map stream_response streams →
  List.filter (λ s, negb (Nat.eqb (stream_response s) res)) streams = streams.
Proof.
  induction streams as [|s streams IH]; [done|].
  simpl. rewrite not_elem_of_cons. intros [Hne Hrest].
  apply not_eq_sym, Nat.eqb_neq in Hne. rewrite Hne. simpl. by rewrite IH.
Qed.

(** X21.  Opening a stream with a fresh session id on a fresh response
    registers the session, announces [/messages?session_id=<id>] in an
    [endpoint] event, and adds one stream; closing that stream afterwards
    puts the server back exactly where it was. *)
Theorem sse_open_close_round_trip destroyed accept last_event_id uuid now res st :
  includes "text/event-stream" (default "" accept) = true →
  destroyed res = false →
  sessions st !! uuid = None →
  res ∉ List.map stream_response (activeStreams st) →
  let opened := handleSSEConnection destroyed accept last_event_id uuid now res st in
  let stream := {| stream_response := res; sessionId := uuid;
                   lastEventId := last_event_id |} in
  opened.1 = [WriteHead res 200; OnConnection;
              SSE res "endpoint" (DataText ("/messages?session_id=" +:+ uuid)) None] ∧
  sessions opened.2 !! uuid = Some {| id := uuid; createdAt := now; streams := [res] |} ∧
  activeStreams opened.2 = activeStreams st ++ [stream] ∧
  (on_close stream opened.2).2 = st.
Proof.
  intros Haccept Hlive Hfresh Hres. unfold handleSSEConnection.
  rewrite Haccept. simpl. unfold sendSSEMessage. rewrite Hlive.
  split_and!; [done|apply lookup_insert_eq|done|].
  destruct st as [port0 cfg sess streams0 counter]. unfold on_close. simpl in *.
  rewrite delete_insert_id by done.
  rewrite List.filter_app, (filter_other_responses _ _ Hres). simpl.
  by rewrite Nat.eqb_refl, app_nil_r.
Qed.

(** X22.  [stop] ends every active stream and forgets every session and
    stream: afterwards the server counts no client, and a POST with any
    session id is answered 404. *)
Theorem stop_forgets_sessions destroyed sid body res st st' :
  (stop st).1 = List.map (λ s, End_ (stream_response s) None) (activeStreams st) ∧
  clientCount (stop st).2 = O ∧
  handleMessages JSON_parse destroyed (Some sid) body res (stop st).2 st' =
  (mkEff [WriteHead res 404;
          End_ res (Some (JObj [("error", JStr "Session not found")]))] (inr ()),
   (stop st).2).
Proof.
  split_and!; [done..|].
  unfold handleMessages, stop. simpl. rewrite lookup_empty.
  rewrite (bool_decide_eq_false_2 (is_Some None)) by (by intros [? ?]).
  by rewrite orb_true_r.
Qed.

(** X23.  Only a GET on [/sse] that accepts [text/event-stream] opens a
    session.  Any other request leaves the sessions and streams as they
    were, when it arrived or when its body had been read; and OPTIONS on
    any path is answered 200 at once with the CORS headers set. *)
Theorem only_get_sse_opens_sessions destroyed uuid now req res st st' :
  ¬ (http_method req = "GET" ∧ pathname req = "/sse" ∧
     includes "text/event-stream" (default "" (header_accept req)) = true) →
  let handled := handleRequest JSON_parse destroyed uuid now req res st st' in
  handled.1 = setCORSHeaders ∧
  (sessions handled.2.2 = sessions st ∧ activeStreams handled.2.2 = activeStreams st ∨
   sessions handled.2.2 = sessions st' ∧ activeStreams handled.2.2 = activeStreams st') ∧
  (http_method req = "OPTIONS" → handled.2 = (respond res 200 None, st)).
Proof.
  intros Hnot. unfold handleRequest. simpl. split; [done|]. split.
  - destruct (String.eqb (http_method req) "OPTIONS"); [by left|]. simpl.
    destruct (String.eqb_spec (pathname req) "/sse") as [Hsse|_].
    + destruct (String.eqb_spec (http_method req) "GET") as [Hget|_]; [|by left].
      unfold handleSSEConnection.
      destruct (includes _ _) eqn:Haccept; [|by left].
      by destruct Hnot.
    + destruct (String.eqb (pathname req) "/messages"); [|by left].
      destruct (String.eqb (http_method req) "POST"); [|by left].
      destruct (handleMessages_after destroyed (query_session_id req) (request_body req)
                  res st st') as [Hafter|[Hafter|(counter & _ & Hafter)]];
        simpl in Hafter; rewrite Hafter; [by left|by right|by right].
  - intros Hoptions. by rewrite Hoptions.
Qed.
End HttpServerMore.

(** ** The orchestrator, beyond the port-in-use case *)

Section DualServerMore.
Context {num : Type} `{JsNumber num}.
Import McpDualServer.
Variable path_join : list string → string.
Implicit Types (st : McpDualServer.t num) (fs : FS num).

Lemma start_ws_config ws_start p fs st :
  config (start_ws path_join ws_start p fs st).1.1.2 = config st ∧
  handlers (start_ws path_join ws_start p fs st).1.1.2 = handlers st.
Proof.
  unfold start_ws, McpServer.start, McpServer.createLockFile.
  destruct (enableWebSocket (config st)) as [[]|]; try done;
    destruct ws_start as [e|assigned]; try done;
    destruct (workspaceManager (config st)); simpl; try done;
    destruct (basePath_or_cwd _ _) as [?|?]; simpl; try done;
    by destruct (McpServer.updateWorkspaceFolders _ _ _).
Qed.

Lemma start_ws_port ws_start p fs st :
  (start_ws path_join ws_start p fs st).1.1.1 =
  match enableWebSocket (config st), ws_start with
  | Some false, _ => None
  | _, inr assigned => Some assigned
  | _, inl _ => None
  end.
Proof.
  unfold start_ws, McpServer.start, McpServer.createLockFile.
  destruct (enableWebSocket (config st)) as [[]|]; try done;
    destruct ws_start as [e|assigned]; try done;
    destruct (workspaceManager (config st)); simpl; try done;
    destruct (basePath_or_cwd _ _) as [?|?]; simpl; try done;
    by destruct (McpServer.updateWorkspaceFolders _ _ _).
Qed.

(** X24.  What [start] resolves or rejects with depends only on the two
    enable flags and on how the two listeners settle.  A failure of the
    socket transport, or of writing the workspace folder into its lock
    file, never aborts the HTTP transport and never makes [start] throw;
    an HTTP failure is swallowed into a partial result unless it is
    port-related, and only then does [start] throw. *)
Theorem start_outcome ws_start http_listen p fs st :
  (start path_join ws_start http_listen p fs st).1.1.1 =
  let ws_port :=
    match enableWebSocket (config st), ws_start with
    | Some false, _ => None
    | _, inr assigned => Some assigned
    | _, inl _ => None
    end in
  let requested :=
    match httpPort_setting (config st) with
    | Some q => if Z.eqb q 0 then 22360 else q
    | None => 22360
    end in
  match enableHttp (config st), http_listen with
  | Some false, _ => inr {| wsPort := ws_port; httpPort := None |}
  | _, McpHttpServer.Listening address_port =>
      inr {| wsPort := ws_port;
             httpPort := Some (match address_port with
                               | Some q => if Z.eqb q 0 then requested else q
                               | None => requested
                               end) |}
  | _, McpHttpServer.ListenError e =>
      if port_related e then inl e else inr {| wsPort := ws_port; httpPort := None |}
  end.
Proof.
  unfold start.
  pose proof (start_ws_config ws_start p fs st) as [Hcfg _].
  pose proof (start_ws_port ws_start p fs st) as Hport.
  destruct (start_ws path_join ws_start p fs st) as [[[ws_port st1] p1] fs1].
  simpl in Hcfg, Hport. rewrite Hcfg, Hport. clear Hcfg Hport.
  destruct (enableHttp (config st)) as [[]|]; try done;
    destruct http_listen as [address_port|e]; simpl; try done;
    by destruct (port_related e).
Qed.

(** X25.  When the socket transport starts and there is a workspace
    manager, [start] leaves a lock file that names the vault's base path
    (or the working directory, when the adapter has none) as its one
    workspace folder, whatever happens to the HTTP transport next. *)
Theorem start_writes_workspace_folder assigned http_listen p fs st basePath :
  enableWebSocket (config st) ≠ Some false →
  workspaceManager (config st) = true →
  basePath_or_cwd (app (config st)) p = inr basePath →
  let lock := path_join [path_join [McpServer.home_or_profile p; ".claude"; "ide"];
                         pretty assigned +:+ ".lock"] in
  lock ≠ "" →
  files (start path_join (inr assigned) http_listen p fs st).2 !! lock =
  Some (JObj [("pid", JNum (num_of_Z (pid p)));
              ("workspaceFolders", JArr [JStr basePath]);
              ("ideName", JStr "Obsidian");
              ("transport", JStr "ws")]).
Proof.
  intros Hws Hwm Hbase lock Hlock.
  assert (files (start_ws path_join (inr assigned) p fs st).2 !! lock =
          Some (JObj [("pid", JNum (num_of_Z (pid p)));
                      ("workspaceFolders", JArr [JStr basePath]);
                      ("ideName", JStr "Obsidian");
                      ("transport", JStr "ws")])) as Hfile.
  { unfold start_ws, McpServer.start, McpServer.createLockFile.
    assert (basePath_or_cwd (app (config st))
              (setenv "ENABLE_IDE_INTEGRATION" "true"
                 (setenv "CLAUDE_CODE_SSE_PORT" (pretty assigned) p)) = inr basePath) as Hbase'
      by exact Hbase.
    assert (∀ srv : McpServer.t num, ∀ fs0 : FS num,
              McpServer.lockFilePath srv = lock →
              files fs0 !! lock = Some (McpServer.lockFileContent p) →
              McpServer.updateWorkspaceFolders basePath srv fs0 =
              inr (writeFileSync lock
                     (JObj [("pid", JNum (num_of_Z (pid p)));
                            ("workspaceFolders", JArr [JStr basePath]);
                            ("ideName", JStr "Obsidian");
                            ("transport", JStr "ws")]) fs0)) as Hupdate.
    { intros srv fs0 Hsrv Hfs0. unfold McpServer.updateWorkspaceFolders.
      rewrite Hsrv. apply String.eqb_neq in Hlock. rewrite Hlock.
      unfold existsSync. rewrite Hfs0.
      rewrite (bool_decide_eq_true_2 (is_Some (Some _))) by eauto.
      by rewrite orb_true_r. }
    destruct (enableWebSocket (config st)) as [[]|]; try done;
      rewrite Hwm; simpl; rewrite Hbase';
      (rewrite Hupdate; [apply lookup_insert_eq|done|apply lookup_insert_eq]). }
  unfold start.
  destruct (start_ws path_join (inr assigned) p fs st) as [[[ws_port st1] p1] fs1].
  simpl in Hfile.
  destruct (enableHttp (config st1)) as [[]|]; try done;
    destruct (McpHttpServer.start _ _ _) as [[e|bound] srv1]; try done;
    by destruct (port_related e).
Qed.
End DualServerMore.

(** ** Tool registration at start-up *)

Section RegisterToolsFacts.
Context {num : Type} `{JsNumber num}.
Import McpDualServer.
Implicit Types (defs : list (ToolRegistry.ToolDefinition num))
               (impls : list (ToolRegistry.ToolImplementation num))
               (ws_reg http_reg : ToolRegistry.t num).

Lemma register_names (d : ToolRegistry.ToolDefinition num) i reg reg' nm :
  ToolRegistry.register d i reg = (inr (), reg') →
  nm ∈ ToolRegistry.getRegisteredToolNames reg' ↔
  nm = ToolRegistry.def_name d ∨ nm ∈ ToolRegistry.getRegisteredToolNames reg.
Proof.
  unfold ToolRegistry.register. destruct (negb _); [done|].
  intros [= <-]. apply JsMap_elem_of_keys_set.
Qed.

(** The names in the two registries after one loop that ran to its end. *)
Lemma register_each_names to_http defs impls ws_reg http_reg ws_reg' http_reg' nm :
  register_each to_http defs impls ws_reg http_reg = (inr (), ws_reg', http_reg') →
  (nm ∈ ToolRegistry.getRegisteredToolNames ws_reg' ↔
   nm ∈ ToolRegistry.getRegisteredToolNames ws_reg ∨
   nm ∈ List.map ToolRegistry.def_name defs) ∧
  (nm ∈ ToolRegistry.getRegisteredToolNames http_reg' ↔
   nm ∈ ToolRegistry.getRegisteredToolNames http_reg ∨
   (to_http = true ∧ nm ∈ List.map ToolRegistry.def_name defs)).
Proof.
  revert impls ws_reg http_reg.
  induction defs as [|d defs IH]; intros impls ws_reg http_reg Hrun.
  - simpl in Hrun. injection Hrun as <- <-. simpl.
    split; split; try tauto; intros [?|Hin]; try done.
    + by apply elem_of_nil in Hin.
    + destruct Hin as [_ Hin]. by apply elem_of_nil in Hin.
  - cbn [register_each] in Hrun. destruct impls as [|i impls]; [done|].
    destruct (negb _); [done|].
    destruct (ToolRegistry.register d i ws_reg) as [[e|[]] ws1] eqn:Hws; [done|].
    pose proof (register_names d i ws_reg ws1 nm Hws) as Hws1.
    cbn [List.map]. rewrite elem_of_cons.
    destruct to_http.
    + destruct (ToolRegistry.register d i http_reg) as [[e|[]] http1] eqn:Hhttp; [done|].
      pose proof (register_names d i http_reg http1 nm Hhttp) as Hhttp1.
      destruct (IH _ _ _ Hrun) as [IHws IHhttp]. rewrite IHws, IHhttp, Hws1, Hhttp1.
      tauto.
    + destruct (IH _ _ _ Hrun) as [IHws IHhttp]. rewrite IHws, IHhttp, Hws1.
      split; [tauto|]. split; [tauto|]. intros [?|[? _]]; [by left|done].
Qed.

Lemma registerTools_names has_wm (src : ToolSources) ws_reg http_reg nm :
  registerTools has_wm src = (inr (), ws_reg, http_reg) →
  let shared := general_definitions src ++ (if has_wm then canvas_definitions src else []) in
  (nm ∈ ToolRegistry.getRegisteredToolNames http_reg ↔
   nm ∈ List.map ToolRegistry.def_name shared) ∧
  (nm ∈ ToolRegistry.getRegisteredToolNames ws_reg ↔
   nm ∈ List.map ToolRegistry.def_name (shared ++ ide_definitions src)).
Proof.
  unfold registerTools.
  destruct (register_each true (general_definitions src) _ _ _) as [[[e|[]] ws1] http1] eqn:Hg;
    [done|].
  destruct (register_each_names _ _ _ _ _ _ _ nm Hg) as [Hgws Hghttp].
  assert (nm ∈ ToolRegistry.getRegisteredToolNames (ToolRegistry.new (num := num)) ↔ False)
    as Hnew by (split; [apply not_elem_of_nil|done]).
  rewrite Hnew in Hgws, Hghttp.
  destruct has_wm.
  - destruct (register_each true (canvas_definitions src) _ _ _) as [[[e|[]] ws2] http2] eqn:Hc;
      [done|].
    destruct (register_each_names _ _ _ _ _ _ _ nm Hc) as [Hcws Hchttp].
    intros Hi. destruct (register_each_names _ _ _ _ _ _ _ nm Hi) as [Hiws Hihttp].
    simpl. rewrite !map_app, !elem_of_app. rewrite Hiws, Hihttp, Hcws, Hchttp, Hgws, Hghttp.
    intuition congruence.
  - intros Hi. destruct (register_each_names _ _ _ _ _ _ _ nm Hi) as [Hiws Hihttp].
    simpl. rewrite !app_nil_r, !map_app, !elem_of_app. rewrite Hiws, Hihttp, Hgws, Hghttp.
    intuition congruence.
Qed.

(** X26.  When [registerTools] runs to its end, the HTTP registry holds
    exactly the general tools (and the canvas tools, when there is a
    workspace manager), and the WebSocket registry those and the IDE
    tools; so every tool served over HTTP is served over the socket too. *)
Theorem registerTools_registries has_wm (src : ToolSources) ws_reg http_reg :
  registerTools has_wm src = (inr (), ws_reg, http_reg) →
  let shared := general_definitions src ++ (if has_wm then canvas_definitions src else []) in
  ∀ nm,
    (ToolRegistry.hasImplementation nm http_reg = true ↔
     nm ∈ List.map ToolRegistry.def_name shared) ∧
    (ToolRegistry.hasImplementation nm ws_reg = true ↔
     nm ∈ List.map ToolRegistry.def_name (shared ++ ide_definitions src)) ∧
    (ToolRegistry.hasImplementation nm http_reg = true →
     ToolRegistry.hasImplementation nm ws_reg = true).
Proof.
  intros Hrun shared nm.
  destruct (registerTools_names has_wm src ws_reg http_reg nm Hrun) as [Hhttp Hws].
  unfold ToolRegistry.hasImplementation. rewrite !JsMap_has_keys.
  fold (ToolRegistry.getRegisteredToolNames http_reg).
  fold (ToolRegistry.getRegisteredToolNames ws_reg).
  split_and!; [exact Hhttp|exact Hws|].
  rewrite Hhttp, Hws. fold shared. rewrite map_app, elem_of_app. tauto.
Qed.

(** X27.  A tool that is only among the IDE tools cannot be called over
    HTTP: after [registerTools], a [tools/call] naming it is answered by
    the HTTP registry with the "not registered" text, while the WebSocket
    registry holds a tool under that name. *)
Theorem ide_tool_not_callable_over_http has_wm (src : ToolSources) ws_reg http_reg
    (req : McpRequest num) nm :
  registerTools has_wm src = (inr (), ws_reg, http_reg) →
  destructure "name" (req_params req) = Some (JStr nm) →
  nm ∈ List.map ToolRegistry.def_name (ide_definitions src) →
  nm ∉ List.map ToolRegistry.def_name
         (general_definitions src ++ (if has_wm then canvas_definitions src else [])) →
  ToolRegistry.handleToolCall http_reg req =
    mkEff [EvReply (ToolRegistry.not_registered_reply nm)] (inr ()) ∧
  is_Some (ToolRegistry.lookup_tool (Some (JStr nm)) ws_reg).
Proof.
  intros Hrun Hname Hide Hnot.
  destruct (registerTools_names has_wm src ws_reg http_reg nm Hrun) as [Hhttp Hws].
  split.
  - unfold ToolRegistry.handleToolCall. rewrite Hname. simpl.
    destruct (JsMap.get nm (ToolRegistry.tools http_reg)) as [tool|] eqn:Hget; [|done].
    destruct Hnot. apply Hhttp. apply JsMap_has_keys. unfold JsMap.has. by rewrite Hget.
  - simpl. assert (JsMap.has nm (ToolRegistry.tools ws_reg) = true) as Hhas.
    { apply JsMap_has_keys, Hws. rewrite map_app, elem_of_app. by right. }
    unfold JsMap.has in Hhas. destruct (JsMap.get nm _); [by eexists|done].
Qed.

Lemma register_each_short to_http defs impls ws_reg http_reg :
  (length impls < length defs)%nat →
  ∃ e, (register_each to_http defs impls ws_reg http_reg).1.1 = inl e.
Proof.
  revert impls ws_reg http_reg.
  induction defs as [|d defs IH]; intros impls ws_reg http_reg Hlen; [simpl in Hlen; lia|].
  cbn [register_each]. destruct impls as [|i impls]; [by eexists|].
  destruct (negb _); [by eexists|].
  destruct (ToolRegistry.register d i ws_reg) as [[e|[]] ws1]; [by eexists|].
  simpl in Hlen. destruct to_http.
  - destruct (ToolRegistry.register d i http_reg) as [[e|[]] http1]; [by eexists|].
    apply IH. lia.
  - apply IH. lia.
Qed.

(** X28.  [registerTools] throws when the general tools come with fewer
    implementations than definitions: a definition without its
    implementation is never registered silently. *)
Theorem registerTools_missing_implementation has_wm (src : @ToolSources num) :
  (length (general_implementations src) < length (general_definitions src))%nat →
  ∃ e, (registerTools has_wm src).1.1 = inl e.
Proof.
  intros Hlen. unfold registerTools.
  destruct (register_each_short true _ _ ToolRegistry.new ToolRegistry.new Hlen) as [e He].
  destruct (register_each true _ _ _ _) as [[[e'|[]] ws1] http1]; simpl in He; [|done].
  by exists e'.
Qed.
End RegisterToolsFacts.

(** ** The configuration directory, on both platforms *)

Section ClaudeConfigMore.
Context {num : Type}.
Import ClaudeConfig.
Variable path_join : list string → string.

(** X29.  With [CLAUDE_CONFIG_DIR] unset or empty, [getClaudeConfigDir]
    returns the modern directory of the platform if it exists, else the
    legacy [~/.claude] if that exists, else the modern one again; so
    whenever one of the two exists, the directory returned exists. *)
Theorem getClaudeConfigDir_first_existing p (fs : FS num) :
  env_truthy p "CLAUDE_CONFIG_DIR" = None →
  let modern :=
    if String.eqb (platform p) "win32"
    then path_join [default (path_join [homedir p; "AppData"; "Roaming"])
                            (env_truthy p "APPDATA"); "claude"]
    else path_join [default (path_join [homedir p; ".config"])
                            (env_truthy p "XDG_CONFIG_HOME"); "claude"] in
  let legacy := path_join [homedir p; ".claude"] in
  getClaudeConfigDir path_join p fs =
    (if existsSync modern fs then modern
     else if existsSync legacy fs then legacy else modern) ∧
  (orb (existsSync modern fs) (existsSync legacy fs) = true →
   existsSync (getClaudeConfigDir path_join p fs) fs = true).
Proof.
  intros Hno modern legacy.
  assert (getClaudeConfigDir path_join p fs =
          (if existsSync modern fs then modern
           else if existsSync legacy fs then legacy else modern)) as Hdir.
  { unfold getClaudeConfigDir, modern, legacy. rewrite Hno.
    destruct (String.eqb (platform p) "win32").
    - by destruct (env_truthy p "APPDATA").
    - by destruct (env_truthy p "XDG_CONFIG_HOME"). }
  split; [exact Hdir|]. rewrite Hdir.
  destruct (existsSync modern fs) eqn:Hm; [done|].
  destruct (existsSync legacy fs) eqn:Hl; done.
Qed.
End ClaudeConfigMore.

(** * More closed examples *)

Section MoreClosedExamples.
Import Examples MoreExamples.

Lemma register_then_lookup_witness :
  ToolRegistry.def_name get_current_file_def2 = ToolRegistry.impl_name get_current_file2 ∧
  ToolRegistry.hasImplementation "get_current_file"
    (ToolRegistry.register get_current_file_def2 get_current_file2 registry).2 = true ∧
  JsMap.get "get_workspace_files"
    (ToolRegistry.tools
       (ToolRegistry.register get_current_file_def2 get_current_file2 registry).2) =
  JsMap.get "get_workspace_files" (ToolRegistry.tools registry).
Proof.
  split; [reflexivity|].
  destruct (register_then_lookup get_current_file_def2 get_current_file2 registry eq_refl)
    as (Hhas & _ & Hother).
  split; [exact Hhas|].
  apply (Hother "get_workspace_files"). simpl. discriminate.
Defined.

Lemma getToolDefinitions_categories_witness :
  NoDup categories ∧ ("" ∉ categories) ∧
  Forall (λ e, ToolRegistry.def_category (ToolRegistry.definition e) ∈ categories)
         (JsMap.values (ToolRegistry.tools ws_registry)) ∧
  length (ToolRegistry.getToolDefinitions None ws_registry) = 3%nat ∧
  sum_list_with (λ c, length (ToolRegistry.getToolDefinitions (Some c) ws_registry))
                categories = 3%nat.
Proof.
  assert (NoDup categories) as Hdistinct
    by (apply (bool_decide_unpack _); vm_compute; exact I).
  assert ("" ∉ categories) as Hempty
    by (apply (bool_decide_unpack _); vm_compute; exact I).
  assert (Forall (λ e, ToolRegistry.def_category (ToolRegistry.definition e) ∈ categories)
                 (JsMap.values (ToolRegistry.tools ws_registry))) as Hcover.
  { repeat constructor; apply (bool_decide_unpack _); vm_compute; exact I. }
  split; [exact Hdistinct|]. split; [exact Hempty|]. split; [exact Hcover|].
  split; [reflexivity|].
  rewrite <- (proj1 (proj2 (proj2 (getToolDefinitions_categories ws_registry)))
                categories Hdistinct Hempty Hcover).
  reflexivity.
Defined.

Lemma handleRequestGeneric_returns_witness :
  outcome (McpHandlers.handleRequestGeneric handlers ping_request McpHandlers.ws) = inr () ∧
  McpHandlers.handleRequestGeneric handlers unprintable_tool_request McpHandlers.ws =
    mkEff [] (inl to_primitive_error).
Proof.
  split.
  - apply (proj1 (handleRequestGeneric_returns handlers ping_request McpHandlers.ws));
      by eexists.
  - exact (proj1 (proj2 (handleRequestGeneric_returns handlers unprintable_tool_request
                           McpHandlers.ws) to_primitive_error eq_refl)).
Defined.

Lemma handleListFiles_lists_vault_files_witness :
  vault_getFiles vault_a = inr ["a.md"; "b.md"] ∧
  FileTools.handleListFiles vault_a list_files_request =
    mkEff [EvReply (reply_result (JArr [JStr "a.md"]))] (inr ()).
Proof.
  split; [reflexivity|].
  exact (proj1 (proj2 (handleListFiles_lists_vault_files vault_a list_files_request)
                  ["a.md"; "b.md"] eq_refl)).
Defined.

Lemma handleToolCall_registered_witness :
  destructure "name" (req_params current_file_request) = Some (JStr "get_current_file") ∧
  JsMap.get "get_current_file" (ToolRegistry.tools registry) =
    Some (ToolRegistry.mkEntry get_current_file_def get_current_file) ∧
  replies (ToolRegistry.handleToolCall registry current_file_request) =
  [reply_result (GeneralTools.text_content "Current file: a.md")].
Proof.
  split; [reflexivity|]. split; [reflexivity|].
  rewrite (handleToolCall_registered registry current_file_request "get_current_file"
             (ToolRegistry.mkEntry get_current_file_def get_current_file) eq_refl eq_refl).
  reflexivity.
Defined.

Lemma unknown_method_not_implemented_witness :
  (∀ m, req_method shutdown_request = Some (JStr m) →
        m ∉ ["ide_connected"; "notifications/initialized"; "initialize"; "tools/list";
             "prompts/list"; "ping"; "readFile"; "writeFile"; "getOpenFiles"; "listFiles";
             "getCurrentFile"; "getWorkspaceInfo"; "tools/call"; "resources/list"]) ∧
  McpHandlers.handleRequest handlers 3%nat shutdown_request =
  [Send 3%nat (FrameResponse {| resp_id := Some (JNum 11); resp_result := None;
                                resp_error := Some (-32601, "method not implemented") |})].
Proof.
  assert (∀ m, req_method shutdown_request = Some (JStr m) →
        m ∉ ["ide_connected"; "notifications/initialized"; "initialize"; "tools/list";
             "prompts/list"; "ping"; "readFile"; "writeFile"; "getOpenFiles"; "listFiles";
             "getCurrentFile"; "getWorkspaceInfo"; "tools/call"; "resources/list"]) as Hunknown.
  { intros m Hm. simpl in Hm. injection Hm as <-.
    rewrite list_elem_of_In. simpl. intros Hin. intuition discriminate. }
  split; [exact Hunknown|].
  unfold McpHandlers.handleRequest.
  rewrite (unknown_method_not_implemented handlers shutdown_request McpHandlers.ws Hunknown).
  reflexivity.
Defined.

Lemma normalizePath_accepts_clean_witness :
  normalizePath ("/notes" +:+ backslash +:+ "a.md") = Some "notes/a.md" ∧
  includes backslash "notes/a.md" = false.
Proof.
  assert (normalizePath ("/notes" +:+ backslash +:+ "a.md") = Some "notes/a.md") as Hnorm
    by reflexivity.
  split; [exact Hnorm|].
  exact (proj1 (normalizePath_accepts_clean _ _ Hnorm)).
Defined.

Lemma file_methods_reject_traversal_witness :
  destructure "path" (req_params traversal_request) = Some (JStr "../secret.md") ∧
  (includes ".." "../secret.md" = true ∨ includes "~" "../secret.md" = true) ∧
  FileTools.handleReadFile vault traversal_request =
    mkEff [EvReply (reply_error (-32603) "invalid file path")] (inr ()) ∧
  FileTools.handleWriteFile vault traversal_request =
    mkEff [EvReply (reply_error (-32603) "invalid file path")] (inr ()) ∧
  FileTools.handleWriteFile vault traversal_number_request =
    mkEff [EvReply (reply_error (-32602) "invalid parameters")] (inr ()).
Proof.
  assert (includes ".." "../secret.md" = true ∨ includes "~" "../secret.md" = true) as Hbad
    by (left; reflexivity).
  split; [reflexivity|]. split; [exact Hbad|].
  destruct (file_methods_reject_traversal vault traversal_request "../secret.md"
              eq_refl Hbad) as [Hread Hwrite].
  split; [exact Hread|]. split; [exact Hwrite|].
  exact (proj2 (file_methods_reject_traversal vault traversal_number_request "../secret.md"
                  eq_refl Hbad)).
Defined.

Lemma start_then_stop_removes_lock_file_witness :
  McpServer.lockFilePath
    (McpServer.start posix_join 51234 plain_process ws_server empty_fs).1.1.2 ≠ "" ∧
  files (McpServer.stop
           (McpServer.start posix_join 51234 plain_process ws_server empty_fs).1.1.2
           (McpServer.start posix_join 51234 plain_process ws_server empty_fs).2).2 =
  delete "/home/u/.claude/ide/51234.lock" (files empty_fs).
Proof.
  assert (McpServer.lockFilePath
            (McpServer.start posix_join 51234 plain_process ws_server empty_fs).1.1.2 ≠ "")
    as Hpath by (vm_compute; discriminate).
  split; [exact Hpath|].
  exact (proj1 (proj2 (proj2
    (start_then_stop_removes_lock_file posix_join 51234 plain_process ws_server empty_fs
       Hpath)))).
Defined.

Lemma updateWorkspaceFolders_last_wins_witness :
  McpServer.lockFilePath
    (McpServer.start posix_join 51234 plain_process ws_server empty_fs).1.1.2 ≠ "" ∧
  ∃ fs2,
    McpServer.updateWorkspaceFolders "/home/u/notes"
      (McpServer.start posix_join 51234 plain_process ws_server empty_fs).1.1.2
      (McpServer.start posix_join 51234 plain_process ws_server empty_fs).2 = inr fs2 ∧
    files fs2 !! "/home/u/.claude/ide/51234.lock" =
      Some (JObj [("pid", JNum 4242);
                  ("workspaceFolders", JArr [JStr "/home/u/notes"]);
                  ("ideName", JStr "Obsidian");
                  ("transport", JStr "ws")]).
Proof.
  assert (McpServer.lockFilePath
            (McpServer.start posix_join 51234 plain_process ws_server empty_fs).1.1.2 ≠ "")
    as Hpath by (vm_compute; discriminate).
  split; [exact Hpath|].
  destruct (updateWorkspaceFolders_last_wins posix_join 51234 plain_process ws_server
              empty_fs "/tmp/old" "/home/u/notes" Hpath)
    as (fs1 & fs2 & _ & _ & Hlast & Hfile & _).
  exists fs2. split; [exact Hlast|exact Hfile].
Defined.
Lemma notifications_only_body_witness :
  "s1" ≠ "" ∧
  is_Some (McpHttpServer.sessions http_open !! "s1") ∧
  JsonReader.parse notification_body =
    Some (JArr [JObj [("method", JStr "notifications/initialized")]]) ∧
  McpHttpServer.handleMessages JsonReader.parse never_destroyed (Some "s1")
    notification_body 2%nat http_open http_open =
  (mkEff [McpHttpServer.OnMessage initialized_notification;
          McpHttpServer.WriteHead 2%nat 202; McpHttpServer.End_ 2%nat None] (inr ()),
   http_open).
Proof.
  assert ("s1" ≠ "") as Hsid by discriminate.
  assert (is_Some (McpHttpServer.sessions http_open !! "s1")) as Hknown
    by (vm_compute; eexists; reflexivity).
  assert (JsonReader.parse notification_body =
          Some (JArr [JObj [("method", JStr "notifications/initialized")]])) as Hparse
    by reflexivity.
  split; [exact Hsid|]. split; [exact Hknown|]. split; [exact Hparse|].
  apply (notifications_only_body JsonReader.parse never_destroyed "s1" notification_body
           2%nat http_open http_open _ [initialized_notification] Hsid Hknown Hparse).
  - repeat constructor.
  - repeat constructor.
Defined.

Lemma request_without_stream_410_witness :
  is_Some (McpHttpServer.sessions http_open !! "s1") ∧
  McpHttpServer.activeStreams http_closed = [] ∧
  McpHttpServer.status_of 2%nat
    (trace (McpHttpServer.handleMessages JsonReader.parse never_destroyed (Some "s1")
              ping_body 2%nat http_open http_closed).1) = Some 410.
Proof.
  assert (is_Some (McpHttpServer.sessions http_open !! "s1")) as Hknown
    by (vm_compute; eexists; reflexivity).
  split; [exact Hknown|]. split; [reflexivity|].
  rewrite (request_without_stream_410 JsonReader.parse never_destroyed "s1" ping_body
             2%nat http_open http_closed
             (JArr [JObj [("id", JNum 1); ("method", JStr "ping")]])).
  - reflexivity.
  - discriminate.
  - exact Hknown.
  - reflexivity.
  - reflexivity.
  - constructor.
Defined.

Lemma http_broadcast_delivery_witness :
  NoDup (List.map McpHttpServer.stream_response (McpHttpServer.activeStreams http_open)) ∧
  McpHttpServer.message_events 1%nat
    (McpHttpServer.broadcast never_destroyed selection_changed http_open).1 =
    [McpHttpServer.DataNotification selection_changed] ∧
  McpHttpServer.message_events 2%nat
    (McpHttpServer.broadcast never_destroyed selection_changed http_open).1 = [].
Proof.
  assert (NoDup (List.map McpHttpServer.stream_response
                   (McpHttpServer.activeStreams http_open))) as Hnd
    by (apply NoDup_singleton).
  split; [exact Hnd|]. split.
  - rewrite (proj1 (http_broadcast_delivery never_destroyed selection_changed http_open
                      1%nat Hnd)).
    reflexivity.
  - rewrite (proj1 (http_broadcast_delivery never_destroyed selection_changed http_open
                      2%nat Hnd)).
    reflexivity.
Defined.

Lemma sse_open_close_round_trip_witness :
  includes "text/event-stream" (default "" (Some "text/event-stream")) = true ∧
  McpHttpServer.sessions http_server !! "s1" = None ∧
  http_closed = http_server.
Proof.
  assert (McpHttpServer.sessions http_server !! "s1" = None) as Hfresh by reflexivity.
  split; [reflexivity|]. split; [exact Hfresh|].
  refine (proj2 (proj2 (proj2
    (sse_open_close_round_trip never_destroyed (Some "text/event-stream") None "s1"
       1700000000000 1%nat http_server eq_refl eq_refl Hfresh _)))).
  apply not_elem_of_nil.
Defined.

Lemma only_get_sse_opens_sessions_witness :
  ¬ (McpHttpServer.http_method post_messages = "GET" ∧
     McpHttpServer.pathname post_messages = "/sse" ∧
     includes "text/event-stream"
       (default "" (McpHttpServer.header_accept post_messages)) = true) ∧
  (McpHttpServer.handleRequest JsonReader.parse never_destroyed "s2" 1700000000001
     post_messages 2%nat http_open http_open).1 = McpHttpServer.setCORSHeaders.
Proof.
  assert (¬ (McpHttpServer.http_method post_messages = "GET" ∧
             McpHttpServer.pathname post_messages = "/sse" ∧
             includes "text/event-stream"
               (default "" (McpHttpServer.header_accept post_messages)) = true)) as Hnot
    by (intros [Hget _]; simpl in Hget; discriminate).
  split; [exact Hnot|].
  exact (proj1 (only_get_sse_opens_sessions JsonReader.parse never_destroyed "s2"
                  1700000000001 post_messages 2%nat http_open http_open Hnot)).
Defined.

Lemma registerTools_registries_witness :
  McpDualServer.registerTools true tool_sources = (inr (), ws_registry, http_registry) ∧
  (ToolRegistry.hasImplementation "closeAllDiffTabs" http_registry = true ↔
   "closeAllDiffTabs" ∈ ["get_current_file"; "get_workspace_files"]) ∧
  ToolRegistry.hasImplementation "closeAllDiffTabs" ws_registry = true.
Proof.
  assert (McpDualServer.registerTools true tool_sources =
          (inr (), ws_registry, http_registry)) as Hrun by reflexivity.
  split; [exact Hrun|].
  destruct (registerTools_registries true tool_sources ws_registry http_registry Hrun
              "closeAllDiffTabs") as (Hhttp & Hws & _).
  split; [exact Hhttp|]. apply Hws. simpl. rewrite !elem_of_cons. tauto.
Defined.

Lemma ide_tool_not_callable_over_http_witness :
  McpDualServer.registerTools true tool_sources = (inr (), ws_registry, http_registry) ∧
  replies (ToolRegistry.handleToolCall http_registry close_tabs_request) =
    [reply_result (GeneralTools.text_content "Tool 'closeAllDiffTabs' is not registered")] ∧
  replies (ToolRegistry.handleToolCall ws_registry close_tabs_request) =
    [reply_result (GeneralTools.text_content "All diff tabs closed successfully")].
Proof.
  assert (McpDualServer.registerTools true tool_sources =
          (inr (), ws_registry, http_registry)) as Hrun by reflexivity.
  split; [exact Hrun|]. split; [|reflexivity].
  rewrite (proj1 (ide_tool_not_callable_over_http true tool_sources ws_registry http_registry
                    close_tabs_request "closeAllDiffTabs" Hrun eq_refl
                    (list_elem_of_here _ _)
                    ltac:(simpl; rewrite !elem_of_cons, elem_of_nil;
                          intuition discriminate))).
  reflexivity.
Defined.

Lemma registerTools_missing_implementation_witness :
  (length (McpDualServer.general_implementations short_sources) <
   length (McpDualServer.general_definitions short_sources))%nat ∧
  (McpDualServer.registerTools true short_sources).1.1 =
  inl (Error_ "Tool definition and implementation mismatch for get_workspace_files").
Proof.
  assert (length (McpDualServer.general_implementations short_sources) <
          length (McpDualServer.general_definitions short_sources))%nat as Hlen
    by (simpl; lia).
  split; [exact Hlen|].
  destruct (registerTools_missing_implementation true short_sources Hlen) as [e He].
  reflexivity.
Defined.

Lemma getClaudeConfigDir_first_existing_witness :
  env_truthy plain_process "CLAUDE_CONFIG_DIR" = None ∧
  ClaudeConfig.getClaudeConfigDir posix_join plain_process legacy_fs = "/home/u/.claude" ∧
  existsSync (ClaudeConfig.getClaudeConfigDir posix_join plain_process legacy_fs) legacy_fs =
  true.
Proof.
  assert (env_truthy plain_process "CLAUDE_CONFIG_DIR" = None) as Hno by reflexivity.
  split; [exact Hno|].
  destruct (getClaudeConfigDir_first_existing posix_join plain_process legacy_fs Hno)
    as [Hdir Hexists].
  split; [rewrite Hdir; by vm_compute|].
  apply Hexists. by vm_compute.
Defined.

Lemma start_writes_workspace_folder_witness :
  McpDualServer.enableWebSocket (McpDualServer.config dual) ≠ Some false ∧
  McpDualServer.workspaceManager (McpDualServer.config dual) = true ∧
  McpDualServer.basePath_or_cwd (McpDualServer.app (McpDualServer.config dual))
    plain_process = inr "/home/u/notes" ∧
  files (McpDualServer.start posix_join (inr 51234)
           (McpHttpServer.ListenError (EADDRINUSE_error "127.0.0.1" 22360))
           plain_process empty_fs dual).2
    !! posix_join [posix_join [McpServer.home_or_profile plain_process; ".claude"; "ide"];
                   pretty 51234 +:+ ".lock"] =
  Some (JObj [("pid", JNum 4242);
              ("workspaceFolders", JArr [JStr "/home/u/notes"]);
              ("ideName", JStr "Obsidian");
              ("transport", JStr "ws")]).
Proof.
  assert (McpDualServer.enableWebSocket (McpDualServer.config dual) ≠ Some false) as Hws
    by (simpl; discriminate).
  split; [exact Hws|]. split; [reflexivity|]. split; [reflexivity|].
  assert (posix_join [posix_join [McpServer.home_or_profile plain_process; ".claude"; "ide"];
                      pretty 51234 +:+ ".lock"] ≠ "") as Hlock
    by (vm_compute; discriminate).
  exact (start_writes_workspace_folder posix_join 51234
           (McpHttpServer.ListenError (EADDRINUSE_error "127.0.0.1" 22360))
           plain_process empty_fs dual "/home/u/notes" Hws eq_refl eq_refl Hlock).
Defined.
End MoreClosedExamples.
